(** * openclaw-agentsandbox: credential resolution, HTTP wrapper, retry
      policy, OAuth flow and auth provider, embedded from [tools.ts],
      [oauth.ts] and [index.ts].

    [tools.ts] is taken at its latest revision: the one with the
    SANDBOX_API_KEY override in [getToken], the 204 branch of
    [apiRequest], [apiUploadFile], and the retry loops of the two delete
    tools.

    Strings are sequences of UTF-8 bytes (the representation of Rocq
    string literals), so a literal of the TypeScript source is the same
    literal here.  The operations the code applies to strings that matter
    here ([includes], the status regular expression, [encodeURIComponent],
    [trim]) act on ASCII patterns and are byte-wise on UTF-8 text.
    [length], [slice] and the spreading of a string count UTF-16 code
    units: module [Utf16] reads them off the bytes.

    Effects are explicit: a tool call is a function from a [World] (the
    SANDBOX_API_KEY variable, the clock, the credential file, the scripted
    answers of the network, the trace of what was done so far) to an
    outcome and the next world. *)

From Stdlib Require Import ZArith NArith Ascii String List DecimalString Lia.
From Stdlib.Strings Require Import Byte.
From Stdlib Require DecimalPos DecimalN.
From stdpp Require Import base option list gmap strings.

Import ListNotations.
Local Open Scope string_scope.
Set Warnings "-register-all".

(* stdpp freezes string concatenation under [simpl]; the proofs below compute
   with it. *)
#[local] Arguments String.append !s1 s2 : simpl nomatch.

(** ** JavaScript string primitives *)

Module JsString.

(** [s.startsWith(p)] *)
Fixpoint starts_with (p s : string) : bool :=
  match p, s with
  | EmptyString, _ => true
  | String a p', String b s' => Ascii.eqb a b && starts_with p' s'
  | String _ _, EmptyString => false
  end.

(** [hay.includes(needle)] *)
Fixpoint includes (needle hay : string) : bool :=
  starts_with needle hay
  || match hay with
     | EmptyString => false
     | String _ hay' => includes needle hay'
     end.

(** Truthiness of an optional string: [undefined] and the empty string are
    falsy.  [nonempty o] is [Some s] exactly when [if (o)] takes the branch. *)
Definition nonempty (o : option string) : option string :=
  match o with
  | Some EmptyString => None
  | Some s => Some s
  | None => None
  end.

Definition is_digit (c : ascii) : bool :=
  let n := nat_of_ascii c in (48 <=? n)%nat && (n <=? 57)%nat.

Definition digit_val (c : ascii) : N := N_of_ascii c - 48.

Definition is_upper (c : ascii) : bool :=
  let n := nat_of_ascii c in (65 <=? n)%nat && (n <=? 90)%nat.

Definition is_lower (c : ascii) : bool :=
  let n := nat_of_ascii c in (97 <=? n)%nat && (n <=? 122)%nat.

Definition is_alnum (c : ascii) : bool :=
  is_upper c || is_lower c || is_digit c.

(** Template-literal interpolation of a non-negative integer. *)
Definition show (n : N) : string :=
  NilZero.string_of_uint (N.to_uint n).

(** White space and line terminators of ECMAScript, as UTF-8 byte
    sequences: TAB LF VT FF CR SP, then NBSP, OGHAM SPACE, EN QUAD .. HAIR
    SPACE, LINE and PARAGRAPH SEPARATOR, NNBSP, MMSP, IDEOGRAPHIC SPACE,
    ZWNBSP. *)
Definition bytes_str (l : list nat) : string :=
  string_of_list_ascii (map ascii_of_nat l).

Definition white_space : list string :=
  map bytes_str
    (app [[9]; [10]; [11]; [12]; [13]; [32]; [194; 160]; [225; 154; 128]]
       (app (map (fun k => [226; 128; 128 + k]) (seq 0 11))
            [[226; 128; 168]; [226; 128; 169]; [226; 128; 175];
             [226; 129; 159]; [227; 128; 128]; [239; 187; 191]]))%nat.

Fixpoint drop_str (n : nat) (s : string) : string :=
  match n, s with
  | S n', String _ s' => drop_str n' s'
  | _, _ => s
  end.

Fixpoint rev_str (acc s : string) : string :=
  match s with
  | EmptyString => acc
  | String c s' => rev_str (String c acc) s'
  end.

Definition reverse (s : string) : string := rev_str EmptyString s.

(** Length of the white-space character [s] starts with, if any. *)
Definition leading_space (ws : list string) (s : string) : option nat :=
  String.length <$> List.find (fun w => starts_with w s) ws.

Fixpoint trim_start_with (ws : list string) (fuel : nat) (s : string) : string :=
  match fuel with
  | O => s
  | S fuel' =>
      match leading_space ws s with
      | Some n => trim_start_with ws fuel' (drop_str n s)
      | None => s
      end
  end.

Definition trim_start (s : string) : string :=
  trim_start_with white_space (String.length s) s.

Definition trim_end (s : string) : string :=
  let r := reverse s in
  reverse (trim_start_with (map reverse white_space) (String.length r) r).

(** [s.trim()] *)
Definition trim (s : string) : string := trim_end (trim_start s).

Definition hex_digit_upper (n : N) : ascii :=
  if (n <? 10)%N then ascii_of_N (48 + n) else ascii_of_N (55 + n).

Definition hex_digit_lower (n : N) : ascii :=
  if (n <? 10)%N then ascii_of_N (48 + n) else ascii_of_N (87 + n).

(** [%XX] escape of one UTF-8 byte. *)
Definition percent_byte (c : ascii) : string :=
  let n := N_of_ascii c in
  String "%" (String (hex_digit_upper (n / 16)) (String (hex_digit_upper (n mod 16)) EmptyString)).

(** The characters [encodeURIComponent] leaves alone:
    [A-Z a-z 0-9 - _ . ! ~ * ' ( )]. *)
Definition uri_unreserved (c : ascii) : bool :=
  is_alnum c
  || existsb (Ascii.eqb c) ["-"; "_"; "."; "!"; "~"; "*"; "'"; "("; ")"]%char.

Fixpoint encodeURIComponent (s : string) : string :=
  match s with
  | EmptyString => EmptyString
  | String c s' =>
      (if uri_unreserved c then String c EmptyString else percent_byte c)
      ++ encodeURIComponent s'
  end.

(** The application/x-www-form-urlencoded byte serializer used by
    [URLSearchParams.toString()]: [A-Z a-z 0-9 * - . _] stay, a space
    becomes [+], every other byte is escaped. *)
Definition form_safe (c : ascii) : bool :=
  is_alnum c || existsb (Ascii.eqb c) ["*"; "-"; "."; "_"]%char.

Fixpoint form_encode (s : string) : string :=
  match s with
  | EmptyString => EmptyString
  | String c s' =>
      (if form_safe c then String c EmptyString
       else if Ascii.eqb c " " then "+"
       else percent_byte c)
      ++ form_encode s'
  end.

Fixpoint join_with (sep : string) (l : list string) : string :=
  match l with
  | [] => EmptyString
  | [x] => x
  | x :: l' => x ++ sep ++ join_with sep l'
  end.

(** [new URLSearchParams(obj).toString()] *)
Definition URLSearchParams_toString (fields : list (string * string)) : string :=
  join_with "&" (map (fun kv => form_encode kv.1 ++ "=" ++ form_encode kv.2) fields).

End JsString.

(** ** UTF-16 code units

    A JavaScript string is a sequence of UTF-16 code units; [length] and
    [slice] count them.  On the bytes, a code point below U+10000 (one to
    three bytes) is one unit and a code point above (four bytes) is two, a
    high and a low surrogate.  A surrogate that stands alone, as a cut
    between the two leaves it, has no UTF-8 form: it is written as the
    three bytes the same scheme gives its number (generalized UTF-8). *)

Module Utf16.

(** The payload of a continuation byte. *)
Definition tail6 (c : ascii) : N := N_of_ascii c - 128.

Definition continuation (c : ascii) : bool :=
  (128 <=? N_of_ascii c)%N && (N_of_ascii c <? 192)%N.

(** The code point of a four-byte sequence. *)
Definition astral (a b c d : ascii) : N :=
  (N_of_ascii a - 240) * 262144 + tail6 b * 4096 + tail6 c * 64 + tail6 d.

Definition high_surrogate (cp : N) : N := 55296 + (cp - 65536) / 1024.
Definition low_surrogate (cp : N) : N := 56320 + (cp - 65536) mod 1024.

(** The code units of a byte sequence.  A byte that cannot start a
    character, or a character cut short, is skipped. *)
Fixpoint code_units (s : string) : list N :=
  match s with
  | EmptyString => []
  | String a s1 =>
      let x := N_of_ascii a in
      if (x <? 128)%N then x :: code_units s1
      else if (x <? 192)%N then code_units s1
      else if (x <? 224)%N then
        match s1 with
        | String b s2 => ((x - 192) * 64 + tail6 b)%N :: code_units s2
        | EmptyString => []
        end
      else if (x <? 240)%N then
        match s1 with
        | String b (String c s3) =>
            ((x - 224) * 4096 + tail6 b * 64 + tail6 c)%N :: code_units s3
        | _ => []
        end
      else
        match s1 with
        | String b (String c (String d s4)) =>
            high_surrogate (astral a b c d) :: low_surrogate (astral a b c d)
            :: code_units s4
        | _ => []
        end
  end.

(** The bytes of one code unit: of the character it is, or of the lone
    surrogate. *)
Definition unit_bytes (u : N) : string :=
  if (u <? 128)%N then String (ascii_of_N u) EmptyString
  else if (u <? 2048)%N then
    String (ascii_of_N (192 + u / 64))
      (String (ascii_of_N (128 + u mod 64)) EmptyString)
  else
    String (ascii_of_N (224 + u / 4096))
      (String (ascii_of_N (128 + (u / 64) mod 64))
         (String (ascii_of_N (128 + u mod 64)) EmptyString)).

(** Byte sequences made of whole characters: one byte below 128; a lead
    byte with one, two or three continuation bytes, the four-byte ones
    for U+10000 to U+10FFFF. *)
Fixpoint well_formed (s : string) : bool :=
  match s with
  | EmptyString => true
  | String a s1 =>
      let x := N_of_ascii a in
      if (x <? 128)%N then well_formed s1
      else if (x <? 192)%N then false
      else if (x <? 224)%N then
        match s1 with
        | String b s2 => continuation b && well_formed s2
        | EmptyString => false
        end
      else if (x <? 240)%N then
        match s1 with
        | String b (String c s3) =>
            continuation b && continuation c && well_formed s3
        | _ => false
        end
      else
        match s1 with
        | String b (String c (String d s4)) =>
            continuation b && continuation c && continuation d
            && (65536 <=? astral a b c d)%N && (astral a b c d <? 1114112)%N
            && well_formed s4
        | _ => false
        end
  end.

(** How many code units a byte opens. *)
Definition units (c : ascii) : N :=
  let b := N_of_ascii c in
  if (b <? 128)%N then 1
  else if (b <? 192)%N then 0
  else if (b <? 240)%N then 1
  else 2.

(** [s.length] *)
Fixpoint js_length (s : string) : N :=
  match s with
  | EmptyString => 0
  | String c s' => units c + js_length s'
  end.

(** [s.slice(0, n)]: the bytes of the first [n] code units.  When the cut
    falls between the two units of a four-byte character, the first of
    them, its high surrogate, is kept. *)
Fixpoint js_slice (n : N) (s : string) : string :=
  match s with
  | EmptyString => EmptyString
  | String c s' =>
      if (units c <=? n)%N then String c (js_slice (n - units c) s')
      else if (n =? 0)%N then EmptyString
      else
        match s' with
        | String b1 (String b2 (String b3 _)) =>
            unit_bytes (high_surrogate (astral c b1 b2 b3))
        | _ => EmptyString
        end
  end.

End Utf16.

(** ** Node's Buffer codecs

    [Buffer.from(s, "base64")], [buf.toString("base64" | "base64url" | "hex")]
    are runtime builtins, not repository code.  They are written out after
    RFC 4648 as Node implements it: the encoder pads with [=]; the decoder
    accepts both alphabets, skips bytes outside them, stops at the first
    [=] and drops a trailing incomplete group. *)

Module Base64.

Definition sextet_char (n : N) : ascii :=
  if (n <? 26)%N then ascii_of_N (65 + n)
  else if (n <? 52)%N then ascii_of_N (71 + n)
  else if (n <? 62)%N then ascii_of_N (n - 4)
  else if (n =? 62)%N then "+"%char
  else "/"%char.

Definition unbase64 (c : ascii) : option N :=
  let n := N_of_ascii c in
  if JsString.is_upper c then Some (n - 65)%N
  else if JsString.is_lower c then Some (n - 71)%N
  else if JsString.is_digit c then Some (n + 4)%N
  else if Ascii.eqb c "+" || Ascii.eqb c "-" then Some 62%N
  else if Ascii.eqb c "/" || Ascii.eqb c "_" then Some 63%N
  else None.

Definition to_byte (n : N) : byte :=
  match Byte.of_N (n mod 256) with
  | Some b => b
  | None => x00
  end.

(** [buf.toString("base64")] *)
Fixpoint encode (bs : list byte) : string :=
  match bs with
  | [] => EmptyString
  | [a] =>
      let x := Byte.to_N a in
      String (sextet_char (x / 4))
        (String (sextet_char (x mod 4 * 16)) "==")
  | [a; b] =>
      let x := Byte.to_N a in
      let y := Byte.to_N b in
      String (sextet_char (x / 4))
        (String (sextet_char (x mod 4 * 16 + y / 16))
           (String (sextet_char (y mod 16 * 4)) "="))
  | a :: b :: c :: rest =>
      let x := Byte.to_N a in
      let y := Byte.to_N b in
      let z := Byte.to_N c in
      String (sextet_char (x / 4))
        (String (sextet_char (x mod 4 * 16 + y / 16))
           (String (sextet_char (y mod 16 * 4 + z / 64))
              (String (sextet_char (z mod 64)) (encode rest))))
  end%N.

(** The six-bit values of the legal characters up to the first [=]. *)
Fixpoint sextets (s : string) : list N :=
  match s with
  | EmptyString => []
  | String c s' =>
      if Ascii.eqb c "=" then []
      else match unbase64 c with
           | Some v => v :: sextets s'
           | None => sextets s'
           end
  end.

Fixpoint decode_sextets (l : list N) : list byte :=
  match l with
  | a :: b :: c :: d :: rest =>
      to_byte (a * 4 + b / 16)
      :: to_byte (b mod 16 * 16 + c / 4)
      :: to_byte (c mod 4 * 64 + d)
      :: decode_sextets rest
  | [a; b; c] =>
      [to_byte (a * 4 + b / 16); to_byte (b mod 16 * 16 + c / 4)]
  | [a; b] => [to_byte (a * 4 + b / 16)]
  | _ => []
  end%N.

(** [Buffer.from(s, "base64")] *)
Definition decode (s : string) : list byte := decode_sextets (sextets s).

(** [buf.toString("base64url")]: URL alphabet, no padding. *)
Fixpoint to_url (s : string) : string :=
  match s with
  | EmptyString => EmptyString
  | String c s' =>
      if Ascii.eqb c "=" then to_url s'
      else String (if Ascii.eqb c "+" then "-"
                   else if Ascii.eqb c "/" then "_" else c)%char (to_url s')
  end.

Definition encode_url (bs : list byte) : string := to_url (encode bs).

(** [buf.toString("hex")] *)
Fixpoint hex (bs : list byte) : string :=
  match bs with
  | [] => EmptyString
  | b :: rest =>
      let x := Byte.to_N b in
      String (JsString.hex_digit_lower (x / 16))
        (String (JsString.hex_digit_lower (x mod 16)) (hex rest))
  end.

(** [/^[A-Za-z0-9+/]*={0,2}$/]: the two character classes are disjoint, so
    the match is the longest run of alphabet characters followed by at
    most two [=] and the end of the input. *)
Definition in_class (c : ascii) : bool :=
  JsString.is_alnum c || Ascii.eqb c "+" || Ascii.eqb c "/".

Fixpoint skip_class (s : string) : string :=
  match s with
  | String c s' => if in_class c then skip_class s' else s
  | EmptyString => s
  end.

Definition base64Regex_test (s : string) : bool :=
  match skip_class s with
  | EmptyString => true
  | String c1 EmptyString => Ascii.eqb c1 "="
  | String c1 (String c2 EmptyString) => Ascii.eqb c1 "=" && Ascii.eqb c2 "="
  | _ => false
  end.

End Base64.

(** ** Values, HTTP messages and the world *)

(** JSON documents and the JavaScript values they parse to.  Numbers are the
    integers up to 2^53 in magnitude, which [JSON.parse] reads exactly and
    [String] prints digit by digit; objects keep their properties in
    insertion order. *)
Inductive Json : Type :=
| JNull
| JBool (b : bool)
| JNum (z : Z)
| JStr (s : string)
| JArr (items : list Json)
| JObj (fields : list (string * Json)).

Module JsObject.

Definition obj := list (string * Json).

(** [o[k]] *)
Fixpoint get (k : string) (o : obj) : option Json :=
  match o with
  | [] => None
  | (k', v) :: o' => if String.eqb k k' then Some v else get k o'
  end.

(** [o[k] = v]: an existing property keeps its place. *)
Fixpoint set (k : string) (v : Json) (o : obj) : obj :=
  match o with
  | [] => [(k, v)]
  | (k', v') :: o' =>
      if String.eqb k k' then (k, v) :: o' else (k', v') :: set k v o'
  end.

(** An object literal [{ k1: v1, ..., ...spread }] assigns left to right. *)
Definition assign (o : obj) (props : list (string * Json)) : obj :=
  fold_left (fun acc kv => set kv.1 kv.2 acc) props o.

Definition indexed (items : list Json) : obj :=
  map (fun iv => (JsString.show (N.of_nat iv.1), iv.2))
      (combine (seq 0 (List.length items)) items).

(** The own enumerable properties copied by [...(data as object)].
    A string spreads into its code units, one property each. *)
Definition spread (data : Json) : obj :=
  match data with
  | JObj fields => assign [] fields
  | JArr items => indexed items
  | JStr s =>
      indexed (map (fun u => JStr (Utf16.unit_bytes u)) (Utf16.code_units s))
  | _ => []
  end.

End JsObject.

Inductive ReqBody : Type :=
| NoBody
| JsonBody (value : Json)                       (* JSON.stringify(body) *)
| FormBody (fields : list (string * string))    (* new URLSearchParams({...}) *)
| MultipartBody (filename : string) (file : list byte).  (* FormData with one Blob *)

Record Request : Type := mkRequest {
  req_method : string;
  req_url : string;
  req_headers : list (string * string);
  req_body : ReqBody
}.

Record Response : Type := mkResponse {
  status : N;
  content_type : option string;   (* res.headers.get("content-type") *)
  body_text : string              (* await res.text() *)
}.

(** [res.ok] *)
Definition res_ok (r : Response) : bool :=
  (200 <=? status r)%N && (status r <=? 299)%N.

Inductive FetchOutcome : Type :=
| Responds (r : Response)
| NetworkError (msg : string).     (* fetch rejects *)

(** The credential record and the store of [auth-profiles.json], at the
    types the code declares for them. *)
Record Cred : Type := mkCred {
  cred_type : option string;
  access : option string;
  refresh : option string;
  expires : option Z;
  key : option string;
  email : option string;
  provider : option string
}.

Record Store : Type := mkStore {
  profiles : option (gmap string Cred);
  store_other : list (string * Json)    (* top-level properties besides profiles *)
}.

(** A file is known by the document it parses to, or by the message of
    the error [JSON.parse] throws for it. *)
Inductive FileData : Type :=
| Parsed (s : Store)
| Malformed (message : string).

(** What reaches the local callback listener. *)
Inductive Inbound : Type :=
| PortBusy                          (* listen fails: unhandled error event *)
| NoRequest                         (* nobody ever calls back *)
| CallbackRequest (url : string).   (* req.url of the first request *)

Inductive Event : Type :=
| EReadFile (path : string)
| EWriteFile (path : string) (s : Store)
| EFetch (r : Request)
| ESleep (ms : Z)
| EPrompt (msg : string)
| EListen (port : N)
| EOpenUrl (url : string).

Record World : Type := mkWorld {
  env_SANDBOX_API_KEY : option string;   (* process.env.SANDBOX_API_KEY *)
  now : Z;                               (* Date.now(), epoch milliseconds *)
  disk : gmap string FileData;
  net : list FetchOutcome;               (* answers to the next fetches, in order *)
  entropy : nat -> byte;                 (* the stream behind crypto.randomBytes *)
  drawn : nat;                           (* how much of it was consumed *)
  inbound : Inbound;
  trace : list Event                     (* oldest first *)
}.

(** What an awaited promise does: fulfil, reject with an error message, or
    never settle. *)
Inductive outcome (A : Type) : Type :=
| Ok (a : A)
| Throw (msg : string)
| Pending.
Arguments Ok {A} a.
Arguments Throw {A} msg.
Arguments Pending {A}.

Definition M (A : Type) : Type := World -> outcome A * World.

Definition ret {A} (a : A) : M A := fun w => (Ok a, w).

Definition bind {A B} (m : M A) (k : A -> M B) : M B :=
  fun w =>
    match m w with
    | (Ok a, w') => k a w'
    | (Throw msg, w') => (Throw msg, w')
    | (Pending, w') => (Pending, w')
    end.

Definition throw {A} (msg : string) : M A := fun w => (Throw msg, w).

Definition pending {A} : M A := fun w => (Pending, w).

(** Throw the message or return the value. *)
Definition settle {A} (r : string + A) : M A :=
  match r with
  | inl msg => throw msg
  | inr a => ret a
  end.

(** [try { m } catch (err) { ... }]: the caught message is handed on as [inl]. *)
Definition try_ {A} (m : M A) : M (string + A) :=
  fun w =>
    match m w with
    | (Ok a, w') => (Ok (inr a), w')
    | (Throw msg, w') => (Ok (inl msg), w')
    | (Pending, w') => (Pending, w')
    end.

Declare Scope js_scope.
Delimit Scope js_scope with js.
Notation "x <- m ;; k" := (bind m (fun x => k))
  (at level 100, m at next level, right associativity) : js_scope.
Notation "m ;;; k" := (bind m (fun _ => k))
  (at level 100, right associativity) : js_scope.
Local Open Scope js_scope.

Definition log (e : Event) (w : World) : World :=
  mkWorld (env_SANDBOX_API_KEY w) (now w) (disk w) (net w) (entropy w)
          (drawn w) (inbound w) (app (trace w) [e]).

Definition emit (e : Event) : M unit := fun w => (Ok tt, log e w).

Definition getenv_SANDBOX_API_KEY : M (option string) :=
  fun w => (Ok (env_SANDBOX_API_KEY w), w).

Definition Date_now : M Z := fun w => (Ok (now w), w).

(** [await fetch(url, init)]: the next scripted answer; an exhausted script
    is a network failure. *)
Definition fetch (r : Request) : M Response :=
  fun w =>
    let w' := log (EFetch r) w in
    match net w with
    | Responds res :: rest =>
        (Ok res,
         mkWorld (env_SANDBOX_API_KEY w') (now w') (disk w') rest (entropy w')
                 (drawn w') (inbound w') (trace w'))
    | NetworkError msg :: rest =>
        (Throw msg,
         mkWorld (env_SANDBOX_API_KEY w') (now w') (disk w') rest (entropy w')
                 (drawn w') (inbound w') (trace w'))
    | [] => (Throw "fetch failed", w')
    end.

(** [await new Promise((r) => setTimeout(r, ms))] *)
Definition sleep (ms : Z) : M unit :=
  fun w =>
    let w' := log (ESleep ms) w in
    (Ok tt,
     mkWorld (env_SANDBOX_API_KEY w') (now w' + ms)%Z (disk w') (net w')
             (entropy w') (drawn w') (inbound w') (trace w')).

(** [JSON.parse(await fs.readFile(path, "utf8"))] at the store type. *)
Definition readStore (path : string) : M Store :=
  fun w =>
    let w' := log (EReadFile path) w in
    match disk w !! path with
    | Some (Parsed s) => (Ok s, w')
    | Some (Malformed message) => (Throw message, w')
    | None => (Throw ("ENOENT: no such file or directory, open '" ++ path ++ "'"), w')
    end.

(** [await fs.writeFile(path, JSON.stringify(store, null, 2), "utf8")] *)
Definition writeStore (path : string) (s : Store) : M unit :=
  fun w =>
    let w' := log (EWriteFile path s) w in
    (Ok tt,
     mkWorld (env_SANDBOX_API_KEY w') (now w') (<[path := Parsed s]> (disk w'))
             (net w') (entropy w') (drawn w') (inbound w') (trace w')).

(** [crypto.randomBytes(n)] *)
Definition randomBytes (n : nat) : M (list byte) :=
  fun w =>
    (Ok (map (entropy w) (seq (drawn w) n)),
     mkWorld (env_SANDBOX_API_KEY w) (now w) (disk w) (net w) (entropy w)
             (drawn w + n) (inbound w) (trace w)).

Definition fetches (t : list Event) : list Request :=
  omap (fun e => match e with EFetch r => Some r | _ => None end) t.

Definition writes (t : list Event) : list (string * Store) :=
  omap (fun e => match e with EWriteFile p s => Some (p, s) | _ => None end) t.

(** ** Runtime builtins the code calls

    [JSON.parse], [JSON.stringify(v, null, 2)], [new URL(input, base)],
    SHA-256 and [path.join] belong to the platform.  The model takes them
    as given; every statement below holds for any choice of them. *)

Record TokenJson : Type := mkTokenJson {
  access_token : string;
  refresh_token : string;
  expires_in : Z;
  token_email : option string;
  api_key : option string
}.

Class Runtime : Type := {
  (** [JSON.parse(text)]; [None] when it throws. *)
  JSON_parse : string -> option Json;
  (** The message of the error [JSON.parse(text)] and [res.json()] throw
      for a text they reject; the engine words it, quoting the text. *)
  JSON_parse_error : string -> string;
  (** [JSON.stringify(value, null, 2)] *)
  JSON_stringify : Json -> string;
  (** [await res.json()] of a token-endpoint answer, read at the types the
      code casts its fields to ([access_token] and [refresh_token] strings,
      [expires_in] a number); [None] when [res.json()] rejects.  The code
      does not check the cast: a body that is JSON of another shape is no
      answer of this model. *)
  res_json : string -> option TokenJson;
  (** [new URL(input, base).searchParams], decoded, in order; [None] when
      the constructor throws. *)
  URL_searchParams : option string -> string -> option (list (string * string));
  (** [createHash("sha256").update(s).digest("base64url")] *)
  sha256_base64url : string -> string;
  (** [path.join(dir, file)] *)
  path_join : string -> string -> string
}.

(** ** oauth.ts *)

Module OAuth.
Section WithRuntime.
Context {rt : Runtime}.

Definition BASE_URL : string :=
"https://agent-sandbox-api-870094711355.us-central1.run.app".
Definition CLIENT_ID : string := "openclaw-plugin-client".
Definition CALLBACK_PORT : N := 51199.
Definition REDIRECT_URI : string :=
"http://localhost:" ++ JsString.show CALLBACK_PORT ++ "/callback".

Record Tokens : Type := mkTokens {
accessToken : string;
refreshToken : string;
expiresAt : Z
}.

Record FlowResult : Type := mkFlowResult {
tokens : Tokens;
result_email : option string;
apiKey : option string
}.

Record Callback : Type := mkCallback {
code : string;
state : option string
}.

Record FlowOpts : Type := mkFlowOpts {
isRemote : bool;
prompt : string -> outcome string     (* what the user answers *)
}.

(** [url.searchParams.get(name)] *)
Fixpoint searchParams_get (name : string) (q : list (string * string)) : option string :=
match q with
| [] => None
| (k, v) :: q' => if String.eqb k name then Some v else searchParams_get name q'
end.

Definition token_request (fields : list (string * string)) : Request :=
mkRequest "POST" (BASE_URL ++ "/oauth/token")
  [("Content-Type", "application/x-www-form-urlencoded")]
  (FormBody fields).

Definition exchangeCode (code verifier : string) : M FlowResult :=
res <- fetch (token_request
         [("grant_type", "authorization_code");
          ("code", code);
          ("redirect_uri", REDIRECT_URI);
          ("client_id", CLIENT_ID);
          ("code_verifier", verifier)]) ;;
if negb (res_ok res) then
  throw ("Token exchange failed (" ++ JsString.show (status res) ++ "): "
         ++ body_text res)
else
  match res_json (body_text res) with
  | None => throw (JSON_parse_error (body_text res))
  | Some data =>
      t <- Date_now ;;
      ret (mkFlowResult
             (mkTokens (access_token data) (refresh_token data)
                       (t + expires_in data * 1000)%Z)
             (token_email data)
             (api_key data))
  end.

Definition refreshAccessToken (refreshToken : string) : M Tokens :=
res <- fetch (token_request
         [("grant_type", "refresh_token");
          ("refresh_token", refreshToken)]) ;;
if negb (res_ok res) then
  throw ("Token refresh failed (" ++ JsString.show (status res) ++ "): "
         ++ body_text res)
else
  match res_json (body_text res) with
  | None => throw (JSON_parse_error (body_text res))
  | Some data =>
      t <- Date_now ;;
      ret (mkTokens (access_token data) (refresh_token data)
                    (t + expires_in data * 1000)%Z)
  end.

(** Both the constructor throwing and the thrown "Missing code parameter"
  land in the catch, which returns the trimmed input as a bare code. *)
Definition parseCallbackInput (input : string) : Callback :=
let trimmed := JsString.trim input in
match URL_searchParams None trimmed with
| Some q =>
    match JsString.nonempty (searchParams_get "code" q) with
    | Some c => mkCallback c (searchParams_get "state" q)
    | None => mkCallback trimmed None
    end
| None => mkCallback trimmed None
end.

(** The promise settles in the request handler only: a busy port or a
  request URL the constructor rejects raise outside of it, and without
  a request it stays pending. *)
Definition listenForCallback (authUrl : string) : M Callback :=
emit (EListen CALLBACK_PORT) ;;;
src <- (fun w => (Ok (inbound w), w)) ;;
match src with
| PortBusy => pending
| NoRequest => emit (EOpenUrl authUrl) ;;; pending
| CallbackRequest requrl =>
    emit (EOpenUrl authUrl) ;;;
    match URL_searchParams
            (Some ("http://localhost:" ++ JsString.show CALLBACK_PORT)) requrl with
    | None => pending
    | Some q =>
        match JsString.nonempty (searchParams_get "code" q) with
        | Some c => ret (mkCallback c (searchParams_get "state" q))
        | None => throw "No code in callback"
        end
    end
end.

(** [if (parsed.state && parsed.state !== state) throw ...] *)
Definition check_state (parsed : Callback) (expected : string) : M unit :=
match JsString.nonempty (state parsed) with
| Some s => if String.eqb s expected then ret tt else throw "OAuth state mismatch"
| None => ret tt
end.

Definition authorize_url (challenge state : string) : string :=
BASE_URL ++ "/oauth/authorize?"
++ JsString.URLSearchParams_toString
     [("client_id", CLIENT_ID);
      ("redirect_uri", REDIRECT_URI);
      ("response_type", "code");
      ("code_challenge", challenge);
      ("code_challenge_method", "S256");
      ("state", state);
      ("scope", "sandbox")].

Definition ask (opts : FlowOpts) (msg : string) : M string :=
emit (EPrompt msg) ;;;
fun w => (prompt opts msg, w).

(** In the local branch the state check sits inside the [try] block, so
  what it throws reaches the [catch]; [return exchangeCode(...)] hands
  the promise out of the block without awaiting it, so a failed
  exchange does not. *)
Definition runOAuthFlow (opts : FlowOpts) : M FlowResult :=
vbytes <- randomBytes 32 ;;
let verifier := Base64.encode_url vbytes in
sbytes <- randomBytes 16 ;;
let state := Base64.hex sbytes in
let challenge := sha256_base64url verifier in
let authUrl := authorize_url challenge state in
if isRemote opts then
  input <- ask opts ("Open this URL and paste the redirect URL (or code):
" ++ authUrl) ;;
  let parsed := parseCallbackInput input in
  check_state parsed state ;;;
  exchangeCode (code parsed) verifier
else
  attempt <- try_ (parsed <- listenForCallback authUrl ;;
                   check_state parsed state ;;;
                   ret parsed) ;;
  match attempt with
  | inr parsed => exchangeCode (code parsed) verifier
  | inl _ =>
      input <- ask opts ("Local callback failed. Paste the redirect URL (or code):
" ++ authUrl) ;;
      let parsed := parseCallbackInput input in
      check_state parsed state ;;;
      exchangeCode (code parsed) verifier
  end.

End WithRuntime.
End OAuth.

(** ** tools.ts *)

Module Tools.
Section WithRuntime.
Context {rt : Runtime}.

Definition BASE_URL : string := "https://api.agentsandbox.co".

Record AuthProfile : Type := mkAuthProfile {
profile_provider : option string
}.

(** [config.auth.profiles]; a missing [auth] or [profiles] reads as [None]. *)
Record OpenClawConfig : Type := mkConfig {
auth_profiles : option (list (string * AuthProfile))
}.

Record ToolCtx : Type := mkToolCtx {
config : option OpenClawConfig;
agentDir : option string
}.

Record ToolResult : Type := mkToolResult {
content_text : string;          (* content: [{ type: "text", text }] *)
details : JsObject.obj
}.

(** [Object.entries(ctx.config?.auth?.profiles ?? {}).find(...)?.[0]] *)
Definition find_profile (ctx : ToolCtx) : option string :=
let entries := default [] (config ctx ≫= auth_profiles) in
fst <$> List.find
          (fun e => bool_decide (profile_provider e.2 = Some "agentsandbox"))
          entries.

Definition bufferMs : Z := 5 * 60 * 1000.

(** [cred.access && cred.expires && Date.now() < cred.expires - bufferMs] *)
Definition usable_access (t : Z) (cred : Cred) : option string :=
match JsString.nonempty (access cred), expires cred with
| Some a, Some e =>
    if negb (e =? 0)%Z && (t <? e - bufferMs)%Z then Some a else None
| _, _ => None
end.

Definition msg_no_profile : string :=
"No auth profile for agentsandbox. Tell the user to run `openclaw models auth login --provider agentsandbox` in their terminal, or set the SANDBOX_API_KEY environment variable. Do NOT attempt the OAuth flow in this conversation — it requires a separate CLI command.".

Definition msg_no_agentDir : string :=
"agentDir missing; tool must run in an agent context.".

Definition msg_missing_credential (profileId : string) : string :=
"Missing credential for profile " ++ profileId
++ ". Tell the user to run `openclaw models auth login --provider agentsandbox` in their terminal to re-authenticate. Do NOT attempt the OAuth flow in this conversation.".

Definition msg_all_expired : string :=
"All tokens expired and no refresh token available. Tell the user to run `openclaw models auth login --provider agentsandbox` in their terminal to re-authenticate. Do NOT attempt the OAuth flow in this conversation.".

(** [cred] aliases [store.profiles[profileId]]: assigning its three fields
  changes the store that is then written. *)
Definition rotate (cred : Cred) (refreshed : OAuth.Tokens) : Cred :=
mkCred (cred_type cred)
       (Some (OAuth.accessToken refreshed))
       (Some (OAuth.refreshToken refreshed))
       (Some (OAuth.expiresAt refreshed))
       (key cred) (email cred) (provider cred).

Definition store_with (store : Store) (profileId : string) (cred : Cred) : Store :=
mkStore (<[profileId := cred]> <$> profiles store) (store_other store).

Definition getToken (ctx : ToolCtx) : M string :=
(* 0. Check env var *)
env <- getenv_SANDBOX_API_KEY ;;
match JsString.nonempty (JsString.trim <$> env) with
| Some envKey => ret envKey
| None =>
match JsString.nonempty (find_profile ctx) with
| None => throw msg_no_profile
| Some profileId =>
match JsString.nonempty (agentDir ctx) with
| None => throw msg_no_agentDir
| Some dir =>
    let authPath := path_join dir "auth-profiles.json" in
    store <- readStore authPath ;;
    match profiles store ≫= (fun ps => ps !! profileId) with
    | None => throw (msg_missing_credential profileId)
    | Some cred =>
        (* 1. Prefer permanent API key *)
        match JsString.nonempty (key cred) with
        | Some k => ret k
        | None =>
            (* 2. Use access token if not expired (5-minute buffer) *)
            t <- Date_now ;;
            match usable_access t cred with
            | Some a => ret a
            | None =>
                (* 3. Refresh token *)
                match JsString.nonempty (refresh cred) with
                | Some r =>
                    refreshed <- OAuth.refreshAccessToken r ;;
                    writeStore authPath
                      (store_with store profileId (rotate cred refreshed)) ;;;
                    ret (OAuth.accessToken refreshed)
                | None => throw msg_all_expired
                end
            end
        end
    end
end end end.

(** What both request helpers do with an answer once [fetch] has
  resolved: the message they throw ([inl]) or the value they return. *)
Definition classify (method endpoint : string) (res : Response) : string + Json :=
let contentType := default "" (content_type res) in
if negb (res_ok res) then
  inl ("API " ++ method ++ " " ++ endpoint ++ " failed ("
       ++ JsString.show (status res) ++ "): " ++ body_text res)
else if (status res =? 204)%N then inr (JObj [])
else if JsString.includes "application/json" contentType then
  match body_text res with
  | EmptyString => inr (JObj [])
  | text =>
      match JSON_parse text with
      | Some v => inr v
      | None => inl (JSON_parse_error text)
      end
  end
else inr (JStr (body_text res)).

Definition apiRequest (method endpoint token : string) (body : option Json) : M Json :=
let headers :=
  app [("Authorization", "Bearer " ++ token)]
      (match body with
       | Some _ => [("Content-Type", "application/json")]
       | None => []
       end) in
res <- fetch (mkRequest method (BASE_URL ++ endpoint) headers
                (match body with Some v => JsonBody v | None => NoBody end)) ;;
settle (classify method endpoint res).

Definition apiUploadFile (endpoint token fileData filename : string) : M Json :=
if negb (Base64.base64Regex_test fileData) then
  throw "Invalid base64 encoding in file_data"
else
  let buffer := Base64.decode fileData in
  res <- fetch (mkRequest "POST" (BASE_URL ++ endpoint)
                  [("Authorization", "Bearer " ++ token)]
                  (MultipartBody filename buffer)) ;;
  settle (classify "POST" endpoint res).

(** [message.match(/\((\d{3})\)/)] with [parseInt(m[1], 10)]: the first
  parenthesised group of exactly three digits. *)
Definition status_at (s : string) : option N :=
match s with
| String p (String a (String b (String c (String q _)))) =>
    if Ascii.eqb p "(" && JsString.is_digit a && JsString.is_digit b
       && JsString.is_digit c && Ascii.eqb q ")"
    then Some (100 * JsString.digit_val a + 10 * JsString.digit_val b
               + JsString.digit_val c)%N
    else None
| _ => None
end.

Fixpoint status_match (s : string) : option N :=
match status_at s with
| Some n => Some n
| None =>
    match s with
    | EmptyString => None
    | String _ s' => status_match s'
    end
end.

Definition maxAttempts : N := 3.

(** The retry loop shared, word for word, by [sandbox_destroy_session] and
  [sandbox_delete_file]; [fuel] counts the iterations left of
  [for (attempt = 1; attempt <= maxAttempts; attempt++)]. *)
Fixpoint delete_loop (endpoint token : string)
  (deleted : Json -> ToolResult) (already_gone : ToolResult)
  (fuel : nat) (attempt : N) (lastError : option string) : M ToolResult :=
match fuel with
| O => throw (default "undefined" lastError)
| S fuel' =>
    r <- try_ (apiRequest "DELETE" endpoint token None) ;;
    match r with
    | inr data => ret (deleted data)
    | inl message =>
        (* 404 means the resource is already gone: treat as success *)
        if JsString.includes "(404)" message then ret already_gone
        else
          (* Only retry on transient errors (5xx, 429, network/parse issues) *)
          let statusMatch := status_match message in
          let status := default 0%N statusMatch in
          let isRetryable :=
            (500 <=? status)%N || (status =? 429)%N
            || negb (bool_decide (is_Some statusMatch)) in
          if negb isRetryable || (attempt =? maxAttempts)%N then throw message
          else
            sleep (500 * 2 ^ (Z.of_N attempt - 1))%Z ;;;
            delete_loop endpoint token deleted already_gone
                        fuel' (attempt + 1)%N (Some message)
    end
end.

Definition delete_with_retry (endpoint token : string)
  (deleted : Json -> ToolResult) (already_gone : ToolResult) : M ToolResult :=
delete_loop endpoint token deleted already_gone
            (N.to_nat maxAttempts) 1%N None.

Definition sandbox_destroy_session (ctx : ToolCtx) (session_id : string) : M ToolResult :=
token <- getToken ctx ;;
let endpoint := "/v1/sessions/" ++ JsString.encodeURIComponent session_id in
delete_with_retry endpoint token
  (fun data =>
     mkToolResult (JSON_stringify data)
       (JsObject.assign []
          (app [("ok", JBool true); ("session_id", JStr session_id)]
               (JsObject.spread data))))
  (mkToolResult "Session destroyed (already absent)."
     (JsObject.assign []
        [("ok", JBool true); ("session_id", JStr session_id);
         ("already_gone", JBool true)])).

Definition sandbox_delete_file (ctx : ToolCtx) (file_id : string) : M ToolResult :=
token <- getToken ctx ;;
let endpoint := "/v1/files/" ++ JsString.encodeURIComponent file_id in
delete_with_retry endpoint token
  (fun data =>
     mkToolResult (JSON_stringify data)
       (JsObject.assign []
          (app [("ok", JBool true); ("file_id", JStr file_id)]
               (JsObject.spread data))))
  (mkToolResult "File deleted (already absent)."
     (JsObject.assign []
        [("ok", JBool true); ("file_id", JStr file_id);
         ("already_gone", JBool true)])).

(** [sandbox_upload_file] *)
Definition sandbox_upload_file (ctx : ToolCtx)
  (file_data filename : string) (session_id : option string) : M ToolResult :=
token <- getToken ctx ;;
let queryString :=
  match JsString.nonempty session_id with
  | Some sid => JsString.URLSearchParams_toString [("session_id", sid)]
  | None => EmptyString
  end in
let endpoint :=
  "/v1/files" ++ match queryString with
                 | EmptyString => EmptyString
                 | qs => "?" ++ qs
                 end in
data <- apiUploadFile endpoint token file_data filename ;;
ret (mkToolResult (JSON_stringify data)
       (JsObject.assign []
          (app [("ok", JBool true); ("filename", JStr filename)]
               (JsObject.spread data)))).

End WithRuntime.
End Tools.

(** ** JavaScript values at run time

    What the formatting code of the tools does with a parsed answer whose
    shape is not checked: property reads, truthiness, string conversion. *)

Module JsValue.

(** [String(n)] for an integer up to 2^53 in magnitude: its digits. *)
Definition show_Z (z : Z) : string :=
  if (z <? 0)%Z then "-" ++ JsString.show (Z.abs_N z) else JsString.show (Z.to_N z).


(** A number a tool is called with.  The code only prints it, so it is
    known here by the text [String(n)] gives it ("50", "1.5", "1e+21",
    "NaN"), which identifies the number. *)
Record JsNumber : Type := mkNumber {
  printed : string
}.


(** [v.k] for a value that is neither [null] nor [undefined]: only objects
    carry the properties the tools read. *)
Definition field (k : string) (v : Json) : option Json :=
  match v with
  | JObj o => JsObject.get k o
  | _ => None
  end.

(** [if (v)] *)
Definition truthy (v : option Json) : bool :=
  match v with
  | None | Some JNull | Some (JBool false) | Some (JNum 0)
  | Some (JStr EmptyString) => false
  | Some _ => true
  end.

(** [v === 0] *)
Definition is_zero (v : option Json) : bool :=
  match v with
  | Some (JNum 0) => true
  | _ => false
  end.

(** [v !== undefined && v !== null] *)
Definition present (v : option Json) : bool :=
  match v with
  | None | Some JNull => false
  | Some _ => true
  end.

(** The string a template literal makes of a value: arrays join their
    elements with commas, [null] elements showing as nothing. *)
Fixpoint to_string (v : Json) : string :=
  match v with
  | JNull => "null"
  | JBool true => "true"
  | JBool false => "false"
  | JNum z => show_Z z
  | JStr s => s
  | JArr items =>
      JsString.join_with ","
        (map (fun x => match x with JNull => EmptyString | _ => to_string x end) items)
  | JObj _ => "[object Object]"
  end.

Definition interpolate (v : option Json) : string :=
  match v with
  | Some x => to_string x
  | None => "undefined"
  end.

(** An object literal whose properties may be [undefined]: those are left
    out, as they are when the result is serialised. *)
Definition literal (props : list (string * option Json)) : JsObject.obj :=
  JsObject.assign []
    (omap (fun kv => match kv.2 with Some v => Some (kv.1, v) | None => None end) props).

End JsValue.

(** ** Output truncation ([truncate] of tools.ts) *)

Module Output.
Import Utf16.

Definition MAX_OUTPUT_CHARS : N := 50000.

Definition nl : string := String (ascii_of_nat 10) EmptyString.

Definition truncate (text : string) : string :=
  if (js_length text <=? MAX_OUTPUT_CHARS)%N then text
  else
    js_slice MAX_OUTPUT_CHARS text
    ++ nl ++ nl ++ "... [truncated — " ++ JsString.show (js_length text)
    ++ " chars total]".

End Output.

(** ** The other tools of tools.ts *)

Module MoreTools.
Section WithRuntime.
Context {rt : Runtime}.
Import Tools JsValue Output.

Inductive Language : Type := Python | Bash.

Definition language_name (l : Language) : string :=
  match l with Python => "python" | Bash => "bash" end.

Definition env_object (vars : list (string * string)) : Json :=
  JObj (map (fun kv => (kv.1, JStr kv.2)) vars).

Definition id_array (ids : list string) : Json := JArr (map JStr ids).

(** [if (x) body.k = x] *)
Definition when_set (k : string) (v : option Json) : list (string * Json) :=
  match v with
  | Some x => [(k, x)]
  | None => []
  end.

(** The first property read of an answer throws when the answer is
    [null]. *)
Definition not_null (reading : string) (data : Json) : M unit :=
  match data with
  | JNull =>
      throw ("Cannot read properties of null (reading '" ++ reading ++ "')")
  | _ => ret tt
  end.

(** [`  ${f.filename} (${f.file_id})`] for one element of [data.files]. *)
Definition file_line (f : Json) : string + string :=
  match f with
  | JNull => inl "Cannot read properties of null (reading 'filename')"
  | _ => inr ("  " ++ interpolate (field "filename" f)
              ++ " (" ++ interpolate (field "file_id" f) ++ ")")
  end.

Fixpoint file_lines (items : list Json) : string + list string :=
  match items with
  | [] => inr []
  | f :: rest =>
      match file_line f with
      | inl e => inl e
      | inr l =>
          match file_lines rest with
          | inl e => inl e
          | inr ls => inr (l :: ls)
          end
      end
  end.

(** [if (data.files?.length) parts.push(`files:\n${data.files.map(...).join("\n")}`)]:
    a non-empty string, or an object with a truthy [length], passes the
    test and has no [map]. *)
Definition files_part (files : option Json) : string + list string :=
  match files with
  | Some (JArr []) => inr []
  | Some (JArr items) =>
      match file_lines items with
      | inl e => inl e
      | inr ls => inr ["files:" ++ nl ++ JsString.join_with nl ls]
      end
  | Some (JStr EmptyString) => inr []
  | Some (JStr _) => inl "data.files.map is not a function"
  | Some (JObj o) =>
      if truthy (JsObject.get "length" o)
      then inl "data.files.map is not a function"
      else inr []
  | _ => inr []
  end.

(** [if (v) parts.push(`label${v}`)] *)
Definition part_if (label : string) (v : option Json) : list string :=
  if truthy v then [label ++ interpolate v] else [].

Definition execute_body (language : Language) (code : string)
    (session_id : option string) (env_vars : option (list (string * string)))
    (file_ids : option (list string)) : Json :=
  JObj (JsObject.assign []
          (app [("language", JStr (language_name language)); ("code", JStr code)]
               (app (when_set "session_id" (JStr <$> JsString.nonempty session_id))
                    (app (when_set "env_vars" (env_object <$> env_vars))
                         (when_set "file_ids" (id_array <$> file_ids)))))).

Definition sandbox_execute (ctx : ToolCtx) (language : Language) (code : string)
    (session_id : option string) (env_vars : option (list (string * string)))
    (file_ids : option (list string)) : M ToolResult :=
  token <- getToken ctx ;;
  data <- apiRequest "POST" "/v1/execute" token
            (Some (execute_body language code session_id env_vars file_ids)) ;;
  not_null "stdout" data ;;;
  files <- settle (files_part (field "files" data)) ;;
  let parts :=
    app (part_if ("stdout:" ++ nl) (field "stdout" data))
      (app (part_if ("stderr:" ++ nl) (field "stderr" data))
         (app ["return_code: "
               ++ (if present (field "return_code" data)
                   then interpolate (field "return_code" data)
                   else "unknown")]
            (app (part_if "session_id: " (field "session_id" data)) files))) in
  ret (mkToolResult (truncate (JsString.join_with (nl ++ nl) parts))
         (literal
            [("ok", Some (JBool (is_zero (field "return_code" data))));
             ("language", Some (JStr (language_name language)));
             ("return_code", field "return_code" data);
             ("session_id", field "session_id" data);
             ("files", field "files" data)])).

Definition session_body (env_vars : option (list (string * string)))
    (file_ids : option (list string)) : Json :=
  JObj (JsObject.assign []
          (app (when_set "env_vars" (env_object <$> env_vars))
               (when_set "file_ids" (id_array <$> file_ids)))).

(** [{ ok: true, k: id, ...data }] with the answer printed as text: the
    result shape of the listing and lookup tools. *)
Definition echoed (fixed : list (string * Json)) (data : Json) : ToolResult :=
  mkToolResult (JSON_stringify data)
    (JsObject.assign [] (app (("ok", JBool true) :: fixed) (JsObject.spread data))).

Definition sandbox_create_session (ctx : ToolCtx)
    (env_vars : option (list (string * string))) (file_ids : option (list string))
    : M ToolResult :=
  token <- getToken ctx ;;
  data <- apiRequest "POST" "/v1/sessions" token (Some (session_body env_vars file_ids)) ;;
  ret (echoed [] data).

Definition sandbox_list_sessions (ctx : ToolCtx) : M ToolResult :=
  token <- getToken ctx ;;
  data <- apiRequest "GET" "/v1/sessions" token None ;;
  ret (echoed [] data).

Definition sandbox_inject_files (ctx : ToolCtx) (session_id : string)
    (file_ids : list string) : M ToolResult :=
  token <- getToken ctx ;;
  let endpoint := "/v1/sessions/" ++ JsString.encodeURIComponent session_id ++ "/files" in
  apiRequest "POST" endpoint token (Some (JObj [("file_ids", id_array file_ids)])) ;;;
  ret (mkToolResult
         ("Injected " ++ JsString.show (N.of_nat (List.length file_ids))
          ++ " file(s) into session " ++ session_id)
         (JsObject.assign []
            [("ok", JBool true); ("session_id", JStr session_id);
             ("file_ids", id_array file_ids)])).

Definition sandbox_download_file (ctx : ToolCtx) (file_id : string) : M ToolResult :=
  token <- getToken ctx ;;
  data <- apiRequest "GET" ("/v1/files/" ++ JsString.encodeURIComponent file_id) token None ;;
  let text := match data with JStr s => s | _ => JSON_stringify data end in
  ret (mkToolResult (truncate text)
         (JsObject.assign [] [("ok", JBool true); ("file_id", JStr file_id)])).

Definition sandbox_get_session (ctx : ToolCtx) (session_id : string) : M ToolResult :=
  token <- getToken ctx ;;
  data <- apiRequest "GET" ("/v1/sessions/" ++ JsString.encodeURIComponent session_id)
            token None ;;
  ret (echoed [("session_id", JStr session_id)] data).

(** [queryParams.set("limit", String(limit))], then offset, then
    [`/v1/files${queryString ? `?${queryString}` : ""}`]. *)
Definition list_files_endpoint (limit offset : option JsNumber) : string :=
  let queryString :=
    JsString.URLSearchParams_toString
      (app (match limit with Some l => [("limit", printed l)] | None => [] end)
           (match offset with Some o => [("offset", printed o)] | None => [] end)) in
  "/v1/files" ++ match queryString with
                 | EmptyString => EmptyString
                 | qs => "?" ++ qs
                 end.

Definition sandbox_list_files (ctx : ToolCtx) (limit offset : option JsNumber)
    : M ToolResult :=
  token <- getToken ctx ;;
  data <- apiRequest "GET" (list_files_endpoint limit offset) token None ;;
  ret (echoed [] data).

Definition sandbox_get_execution (ctx : ToolCtx) (execution_id : string) : M ToolResult :=
  token <- getToken ctx ;;
  data <- apiRequest "GET" ("/v1/executions/" ++ JsString.encodeURIComponent execution_id)
            token None ;;
  not_null "id" data ;;;
  let parts :=
    app ["id: " ++ interpolate (field "id" data)]
      (app (part_if "language: " (field "language" data))
         (app (if present (field "duration_ms" data)
               then ["duration_ms: " ++ interpolate (field "duration_ms" data)] else [])
            (app (part_if ("code:" ++ nl) (field "code" data))
               (app (part_if ("stdout:" ++ nl) (field "stdout" data))
                  (app (part_if ("stderr:" ++ nl) (field "stderr" data))
                     (app (if present (field "return_code" data)
                           then ["return_code: " ++ interpolate (field "return_code" data)]
                           else [])
                        (app (match field "files_count" data with
                              | Some v => ["files_count: " ++ to_string v]
                              | None => []
                              end)
                           (app (part_if "error: " (field "error" data))
                                (part_if "created_at: " (field "created_at" data)))))))))) in
  ret (mkToolResult (truncate (JsString.join_with (nl ++ nl) parts))
         (JsObject.assign []
            (app [("ok", JBool true); ("execution_id", JStr execution_id)]
                 (JsObject.spread data)))).

(** The tools [createTools] returns, with their parameters. *)
Inductive ToolCall : Type :=
| CallExecute (language : Language) (code : string) (session_id : option string)
    (env_vars : option (list (string * string))) (file_ids : option (list string))
| CallCreateSession (env_vars : option (list (string * string)))
    (file_ids : option (list string))
| CallListSessions
| CallDestroySession (session_id : string)
| CallInjectFiles (session_id : string) (file_ids : list string)
| CallDownloadFile (file_id : string)
| CallGetSession (session_id : string)
| CallListFiles (limit offset : option JsNumber)
| CallUploadFile (file_data filename : string) (session_id : option string)
| CallDeleteFile (file_id : string)
| CallGetExecution (execution_id : string).

Definition name (call : ToolCall) : string :=
  match call with
  | CallExecute _ _ _ _ _ => "sandbox_execute"
  | CallCreateSession _ _ => "sandbox_create_session"
  | CallListSessions => "sandbox_list_sessions"
  | CallDestroySession _ => "sandbox_destroy_session"
  | CallInjectFiles _ _ => "sandbox_inject_files"
  | CallDownloadFile _ => "sandbox_download_file"
  | CallGetSession _ => "sandbox_get_session"
  | CallListFiles _ _ => "sandbox_list_files"
  | CallUploadFile _ _ _ => "sandbox_upload_file"
  | CallDeleteFile _ => "sandbox_delete_file"
  | CallGetExecution _ => "sandbox_get_execution"
  end.

(** [createTools(ctx).find((t) => t.name === ...).execute(id, params)] *)
Definition execute (ctx : ToolCtx) (call : ToolCall) : M ToolResult :=
  match call with
  | CallExecute l c s e f => sandbox_execute ctx l c s e f
  | CallCreateSession e f => sandbox_create_session ctx e f
  | CallListSessions => sandbox_list_sessions ctx
  | CallDestroySession s => sandbox_destroy_session ctx s
  | CallInjectFiles s f => sandbox_inject_files ctx s f
  | CallDownloadFile f => sandbox_download_file ctx f
  | CallGetSession s => sandbox_get_session ctx s
  | CallListFiles l o => sandbox_list_files ctx l o
  | CallUploadFile d n s => sandbox_upload_file ctx d n s
  | CallDeleteFile f => sandbox_delete_file ctx f
  | CallGetExecution e => sandbox_get_execution ctx e
  end.

End WithRuntime.
End MoreTools.

(** ** index.ts: the auth provider *)

Module Plugin.
Section WithRuntime.
Context {rt : Runtime}.

(** [refreshOAuth(cred)]: [{ ...cred, access, refresh, expires }].  An
    absent [cred.refresh] is sent as the text "undefined". *)
Definition refreshOAuth (cred : Cred) : M Cred :=
  refreshed <- OAuth.refreshAccessToken (default "undefined" (refresh cred)) ;;
  ret (mkCred (cred_type cred)
              (Some (OAuth.accessToken refreshed))
              (Some (OAuth.refreshToken refreshed))
              (Some (OAuth.expiresAt refreshed))
              (key cred) (email cred) (provider cred)).

(** [a ?? b] *)
Definition nullish {A} (a b : option A) : option A :=
  match a with
  | Some x => Some x
  | None => b
  end.

(** The key of the stored profile, if the store can be read; whatever the
    read throws is dropped by the empty [catch]. *)
Definition existing_key (config : option Tools.OpenClawConfig)
    (OPENCLAW_AGENT_DIR PI_CODING_AGENT_DIR : option string) : M (option string) :=
  match JsString.nonempty (Tools.find_profile (Tools.mkToolCtx config None)) with
  | None => ret None
  | Some existingProfileId =>
      match JsString.nonempty (nullish OPENCLAW_AGENT_DIR PI_CODING_AGENT_DIR) with
      | None => ret None
      | Some agentDir =>
          r <- try_ (store <- readStore (path_join agentDir "auth-profiles.json") ;;
                     ret ((profiles store ≫= fun ps => ps !! existingProfileId) ≫= key)) ;;
          match r with
          | inr k => ret k
          | inl _ => ret None
          end
      end
  end.

Definition api_key_request (accessToken : string) : Request :=
  mkRequest "POST" "https://api.agentsandbox.co/v1/api-keys"
    [("Authorization", "Bearer " ++ accessToken);
     ("Content-Type", "application/json")]
    (JsonBody (JObj [("name", JStr "openclaw-plugin")])).

(** The attempt to create a permanent key: [created.key_value] when it is
    truthy, whatever value it is.  Nothing it throws leaves the [try]. *)
Definition create_key (accessToken : string) : M (option Json) :=
  r <- try_ (createRes <- fetch (api_key_request accessToken) ;;
             if res_ok createRes then
               match JSON_parse (body_text createRes) with
               | None => throw (JSON_parse_error (body_text createRes))
               | Some JNull =>
                   throw "Cannot read properties of null (reading 'key_value')"
               | Some created =>
                   let key_value := JsValue.field "key_value" created in
                   ret (if JsValue.truthy key_value then key_value else None)
               end
             else ret None) ;;
  match r with
  | inr k => ret k
  | inl _ => ret None
  end.

(** The credential [run] returns.  Its key is the flow's or the stored
    one, a string, or the value the key endpoint answered with. *)
Record NewCredential : Type := mkNewCredential {
  c_type : string;
  c_provider : string;
  c_access : string;
  c_refresh : string;
  c_expires : Z;
  c_email : option string;
  c_key : option Json             (* [...(key ? { key } : {})] *)
}.

(** What [run] hands to the host: one profile. *)
Record AuthProfiles : Type := mkAuthProfiles {
  profileId : string;
  credential : NewCredential
}.

(** [auth[0].run(ctx)].  The progress spinner is display only and is not
    part of the world. *)
Definition run (config : option Tools.OpenClawConfig)
    (OPENCLAW_AGENT_DIR PI_CODING_AGENT_DIR : option string)
    (opts : OAuth.FlowOpts) : M AuthProfiles :=
  existingKey <- existing_key config OPENCLAW_AGENT_DIR PI_CODING_AGENT_DIR ;;
  result <- OAuth.runOAuthFlow opts ;;
  let key := JStr <$> nullish (OAuth.apiKey result) existingKey in
  key <- (if JsValue.truthy key then ret key
          else
            created <- create_key (OAuth.accessToken (OAuth.tokens result)) ;;
            ret (nullish created key)) ;;
  ret (mkAuthProfiles
         ("agentsandbox:" ++ default "default" (OAuth.result_email result))
         (mkNewCredential "oauth" "agentsandbox"
            (OAuth.accessToken (OAuth.tokens result))
            (OAuth.refreshToken (OAuth.tokens result))
            (OAuth.expiresAt (OAuth.tokens result))
            (OAuth.result_email result)
            (if JsValue.truthy key then key else None))).

(** The names [register] announces for [createTools]. *)
Definition registered_names : list string :=
  ["sandbox_execute"; "sandbox_create_session"; "sandbox_list_sessions";
   "sandbox_destroy_session"; "sandbox_inject_files"; "sandbox_download_file";
   "sandbox_get_session"; "sandbox_list_files"; "sandbox_upload_file";
   "sandbox_delete_file"; "sandbox_get_execution"].

End WithRuntime.
End Plugin.

(** ** A runtime given by tables

    The builtins on the inputs the examples below use: their real values
    there, nothing elsewhere. *)

Module Examples.

Definition dq : string := String (ascii_of_nat 34) EmptyString.

Definition token_body : string :=
  "{" ++ dq ++ "access_token" ++ dq ++ ":" ++ dq ++ "at-2" ++ dq ++ ","
  ++ dq ++ "refresh_token" ++ dq ++ ":" ++ dq ++ "rt-2" ++ dq ++ ","
  ++ dq ++ "expires_in" ++ dq ++ ":3600}".

Definition destroyed_body : string :=
  "{" ++ dq ++ "status" ++ dq ++ ":" ++ dq ++ "destroyed" ++ dq ++ "}".

Definition callback_evil : string :=
  "http://localhost:51199/callback?code=abc&state=evil".

Definition zero_verifier : string :=
  "AAAAAAAAAAAAAAAAAAAAAAAAAAAAAAAAAAAAAAAAAAA".

#[export] Instance table_runtime : Runtime := {|
  JSON_parse s :=
    if String.eqb s "{}" then Some (JObj [])
    else if String.eqb s destroyed_body
         then Some (JObj [("status", JStr "destroyed")])
    else None;
  JSON_parse_error s := EmptyString;
  JSON_stringify v :=
    match v with
    | JObj [] => "{}"
    | JObj [("status", JStr "destroyed")] =>
        "{
  " ++ dq ++ "status" ++ dq ++ ": " ++ dq ++ "destroyed" ++ dq ++ "
}"
    | _ => "null"
    end;
  res_json s :=
    if String.eqb s token_body
    then Some (mkTokenJson "at-2" "rt-2" 3600 None None)
    else None;
  URL_searchParams base input :=
    match base with
    | None =>
        if String.eqb input callback_evil
        then Some [("code", "abc"); ("state", "evil")] else None
    | Some b =>
        if String.eqb b "http://localhost:51199"
           && String.eqb input "/callback?code=abc&state=evil"
        then Some [("code", "abc"); ("state", "evil")] else None
    end;
  sha256_base64url s :=
    if String.eqb s zero_verifier
    then "DwBzhbb51LfusnSGBa_hqYSgo7-j8BTQnip4TOnlzRo" else EmptyString;
  path_join dir file := dir ++ "/" ++ file
|}.

Definition profileId : string := "agentsandbox:user@test.com".

Definition ctx : Tools.ToolCtx :=
  Tools.mkToolCtx
    (Some (Tools.mkConfig
             (Some [(profileId, Tools.mkAuthProfile (Some "agentsandbox"))])))
    (Some "/home/agent").

Definition authPath : string := "/home/agent/auth-profiles.json".

Definition cred_of (access refresh : option string) (expires : option Z)
    (key : option string) : Cred :=
  mkCred (Some "oauth") access refresh expires key
         (Some "user@test.com") (Some "agentsandbox").

Definition store_of (c : Cred) : Store :=
  mkStore (Some {[ profileId := c ]}) [].

(** A world at 1_700_000_000_000 ms with the given variable, credential
    and scripted network. *)
Definition world (env : option string) (c : Cred) (answers : list FetchOutcome)
    (src : Inbound) : World :=
  mkWorld env 1700000000000%Z {[ authPath := Parsed (store_of c) ]}
          answers (fun _ => x00) 0 src [].

Definition answer (st : N) (ct body : string) : FetchOutcome :=
  Responds (mkResponse st (Some ct) body).

End Examples.

(** * The primitives on examples *)

Example trim_ex : JsString.trim "  sk-live 1
" = "sk-live 1".
Proof. vm_compute. reflexivity. Qed.

Example enc_ex : JsString.encodeURIComponent "a/b (404)é" = "a%2Fb%20(404)%C3%A9".
Proof. vm_compute. reflexivity. Qed.

Example show_ex : JsString.show 404 = "404" /\ JsString.show 0 = "0".
Proof. vm_compute. split; reflexivity. Qed.

Example b64_enc_ex : Base64.encode [x00; x01; x02; xff] = "AAEC/w==".
Proof. vm_compute. reflexivity. Qed.

Example b64_dec_ex : Base64.decode "SGVsbG8sIFdvcmxkIQ==" = list_byte_of_string "Hello, World!".
Proof. vm_compute. reflexivity. Qed.

Example b64_regex_ex :
  Base64.base64Regex_test "AAEC/w==" = true
  /\ Base64.base64Regex_test "QQ" = true
  /\ Base64.base64Regex_test "abc$def" = false
  /\ Base64.base64Regex_test "not valid base64!!!" = false
  /\ Base64.base64Regex_test "ab=c" = false.
Proof. vm_compute. repeat split; reflexivity. Qed.

(** ["é😀".length] is 3; [slice(0, 2)] keeps "é" and the high surrogate
    U+D83D of the second character; spreading gives one property per code
    unit. *)
Example utf16_ex :
  Utf16.code_units "é😀" = [233; 55357; 56832]%N
  /\ Utf16.js_length "é😀" = 3%N
  /\ Utf16.js_slice 2 "é😀" = "é" ++ JsString.bytes_str [237; 160; 189]
  /\ Utf16.js_slice 1 "é😀" = "é"
  /\ JsObject.spread (JStr "é😀")
     = [("0", JStr "é");
        ("1", JStr (JsString.bytes_str [237; 160; 189]));
        ("2", JStr (JsString.bytes_str [237; 184; 128]))].
Proof. vm_compute. repeat split; reflexivity. Qed.

(** * Token resolution *)

Section TokenResolution.
Context {rt : Runtime}.
Import Tools.

(** The environment override is unset and the context leads to the
    record [cred] of the store read from [authPath]. *)
Definition reaches (ctx : ToolCtx) (w : World) (profileId authPath : string)
    (store : Store) (cred : Cred) : Prop :=
  JsString.nonempty (JsString.trim <$> env_SANDBOX_API_KEY w) = None
  /\ JsString.nonempty (find_profile ctx) = Some profileId
  /\ (exists dir, JsString.nonempty (agentDir ctx) = Some dir
                  /\ authPath = path_join dir "auth-profiles.json")
  /\ disk w !! authPath = Some (Parsed store)
  /\ (profiles store ≫= (fun ps => ps !! profileId)) = Some cred.

(** The access token cannot be used at time [t]: it is absent, or carries
    no expiry, or [t] is at or past five minutes before the expiry. *)
Definition stale (t : Z) (cred : Cred) : Prop :=
  JsString.nonempty (access cred) = None
  \/ expires cred = None
  \/ exists e, expires cred = Some e /\ (e - 5 * 60 * 1000 <= t)%Z.

Lemma stale_unusable t cred : stale t cred -> usable_access t cred = None.
Proof.
  unfold usable_access.
  intros [Ha | [He | (e & He & Hle)]].
  - now rewrite Ha.
  - rewrite He. now destruct (JsString.nonempty (access cred)).
  - rewrite He. destruct (JsString.nonempty (access cred)); [|reflexivity].
    unfold bufferMs.
    destruct (t <? e - 5 * 60 * 1000)%Z eqn:Hlt.
    + apply Z.ltb_lt in Hlt. lia.
    + now rewrite andb_false_r.
Qed.


(** The world once [fetch req] has consumed the first scripted answer. *)
Definition answered (req : Request) (rest : list FetchOutcome) (w : World) : World :=
  mkWorld (env_SANDBOX_API_KEY w) (now w) (disk w) rest (entropy w)
          (drawn w) (inbound w) (app (trace w) [EFetch req]).

Lemma fetch_responds req w res rest :
  net w = Responds res :: rest ->
  fetch req w = (Ok res, answered req rest w).
Proof. intros H. unfold fetch. now rewrite H. Qed.

Lemma fetch_fails req w msg rest :
  net w = NetworkError msg :: rest ->
  fetch req w = (Throw msg, answered req rest w).
Proof. intros H. unfold fetch. now rewrite H. Qed.

Definition refresh_request (r : string) : Request :=
  OAuth.token_request [("grant_type", "refresh_token"); ("refresh_token", r)].

Lemma refreshAccessToken_ok r w res rest data :
  net w = Responds res :: rest ->
  res_ok res = true ->
  res_json (body_text res) = Some data ->
  OAuth.refreshAccessToken r w
  = (Ok (OAuth.mkTokens (access_token data) (refresh_token data)
                        (now w + expires_in data * 1000)%Z),
     answered (refresh_request r) rest w).
Proof.
  intros Hnet Hok Hjson. unfold OAuth.refreshAccessToken, bind.
  rewrite (fetch_responds _ _ _ _ Hnet), Hok. simpl. now rewrite Hjson.
Qed.

Lemma refreshAccessToken_refused r w res rest :
  net w = Responds res :: rest ->
  res_ok res = false ->
  OAuth.refreshAccessToken r w
  = (Throw ("Token refresh failed (" ++ JsString.show (status res) ++ "): "
            ++ body_text res),
     answered (refresh_request r) rest w).
Proof.
  intros Hnet Hok. unfold OAuth.refreshAccessToken, bind.
  now rewrite (fetch_responds _ _ _ _ Hnet), Hok.
Qed.

Lemma now_log e w : now (log e w) = now w.
Proof. reflexivity. Qed.

Lemma net_log e w : net (log e w) = net w.
Proof. reflexivity. Qed.

Ltac run := unfold bind, ret, throw, settle, try_, emit, Date_now,
                   getenv_SANDBOX_API_KEY; simpl.

(** Unfolds [getToken] up to the record found in the store. *)
Ltac enter_store H :=
  let Henv := fresh "Henv" in
  let Hprof := fresh "Hprof" in
  let dir := fresh "dir" in
  let Hdir := fresh "Hdir" in
  let Hdisk := fresh "Hdisk" in
  let Hcred := fresh "Hcred" in
  destruct H as (Henv & Hprof & (dir & Hdir & ->) & Hdisk & Hcred);
  unfold getToken; run; rewrite Henv, Hprof, Hdir;
  unfold readStore; rewrite Hdisk; simpl; rewrite Hcred.

Lemma getToken_of_env ctx w v :
  env_SANDBOX_API_KEY w = Some v ->
  JsString.trim v <> EmptyString ->
  getToken ctx w = (Ok (JsString.trim v), w).
Proof.
  intros Hv Hne. unfold getToken. run. rewrite Hv. simpl.
  destruct (JsString.trim v); [congruence | reflexivity].
Qed.

(** C8. Whenever the trimmed SANDBOX_API_KEY is non-empty, [getToken]
    returns exactly that trimmed value and leaves the world as it found
    it, whatever the context, the profile configuration and the
    credential file are: nothing is read, fetched or written. *)
Theorem getToken_env_override (ctx : ToolCtx) (w : World) (v : string) :
  env_SANDBOX_API_KEY w = Some v ->
  JsString.trim v <> EmptyString ->
  getToken ctx w = (Ok (JsString.trim v), w).
Proof.
  intros Hv Hne. unfold getToken, bind, getenv_SANDBOX_API_KEY.
  rewrite Hv. cbn [fmap option_fmap option_map].
  destruct (JsString.trim v) as [|c t] eqn:Ht; [congruence|].
  reflexivity.
Qed.

(** C2. With the override unset, a record whose [key] is present and
    non-empty resolves to [key], whatever [access], [refresh] and
    [expires] hold; the only effect is the read of the credential file:
    no request is sent, no scripted answer consumed, nothing written. *)
Theorem getToken_prefers_key (ctx : ToolCtx) (w : World)
    (profileId authPath : string) (store : Store) (cred : Cred) (k : string) :
  reaches ctx w profileId authPath store cred ->
  key cred = Some k ->
  k <> EmptyString ->
  getToken ctx w = (Ok k, log (EReadFile authPath) w)
  /\ fetches (trace (log (EReadFile authPath) w)) = fetches (trace w)
  /\ writes (trace (log (EReadFile authPath) w)) = writes (trace w)
  /\ net (log (EReadFile authPath) w) = net w
  /\ disk (log (EReadFile authPath) w) = disk w.
Proof.
  intros H Hk Hne. split.
  - enter_store H. rewrite Hk. destruct k; [congruence | reflexivity].
  - unfold fetches, writes, log. simpl.
    rewrite !omap_app. simpl. now rewrite !app_nil_r.
Qed.

(** C9. With the override unset, a record with no key, no usable access
    token (absent, or without expiry, or now >= expires - 5 minutes) and
    no refresh token makes [getToken] throw the all-tokens-expired error;
    the credential file is read and left as it was, and no request is
    sent. *)
Theorem getToken_all_expired (ctx : ToolCtx) (w : World)
    (profileId authPath : string) (store : Store) (cred : Cred) :
  reaches ctx w profileId authPath store cred ->
  JsString.nonempty (key cred) = None ->
  stale (now w) cred ->
  JsString.nonempty (refresh cred) = None ->
  getToken ctx w = (Throw msg_all_expired, log (EReadFile authPath) w)
  /\ JsString.starts_with "All tokens expired and no refresh token available"
       msg_all_expired = true
  /\ disk (log (EReadFile authPath) w) = disk w
  /\ net (log (EReadFile authPath) w) = net w
  /\ trace (log (EReadFile authPath) w) = app (trace w) [EReadFile authPath].
Proof.
  intros H Hk Hstale Hr. split; [|repeat split].
  enter_store H. rewrite Hk, now_log.
  rewrite (stale_unusable _ _ Hstale), Hr. reflexivity.
Qed.

(** C1. With the override unset, a record with no key, an access token
    that is absent, expired or inside the five-minute buffer, and a
    refresh token [r]: [getToken] sends the refresh exchange once (one
    request, one answer consumed), and when the exchange answers with new
    tokens it overwrites [access], [refresh] and [expires] of that record,
    writes the whole store (every other profile and property as read)
    back to the file, and returns the new access token. *)
Theorem getToken_refreshes (ctx : ToolCtx) (w : World)
    (profileId authPath : string) (store : Store) (cred : Cred)
    (r : string) (res : Response) (rest : list FetchOutcome) (data : TokenJson) :
  reaches ctx w profileId authPath store cred ->
  JsString.nonempty (key cred) = None ->
  stale (now w) cred ->
  JsString.nonempty (refresh cred) = Some r ->
  net w = Responds res :: rest ->
  res_ok res = true ->
  res_json (body_text res) = Some data ->
  let cred' :=
    mkCred (cred_type cred) (Some (access_token data))
           (Some (refresh_token data))
           (Some (now w + expires_in data * 1000)%Z)
           (key cred) (email cred) (provider cred) in
  let store' :=
    mkStore (<[profileId := cred']> <$> profiles store) (store_other store) in
  getToken ctx w
  = (Ok (access_token data),
     mkWorld (env_SANDBOX_API_KEY w) (now w)
             (<[authPath := Parsed store']> (disk w)) rest
             (entropy w) (drawn w) (inbound w)
             (app (trace w)
                  [EReadFile authPath; EFetch (refresh_request r);
                   EWriteFile authPath store']))
  /\ (profiles store' ≫= fun ps => ps !! profileId) = Some cred'
  /\ (forall other, other <> profileId ->
        (profiles store' ≫= fun ps => ps !! other)
        = (profiles store ≫= fun ps => ps !! other)).
Proof.
  intros H Hk Hstale Hr Hnet Hok Hjson cred' store'.
  assert (Hps : exists ps, profiles store = Some ps).
  { destruct H as (_ & _ & _ & _ & Hc).
    destruct (profiles store); [eauto | discriminate]. }
  destruct Hps as (ps & Hps).
  split; [|split].
  - enter_store H. rewrite Hk, now_log.
    rewrite (stale_unusable _ _ Hstale), Hr.
    erewrite refreshAccessToken_ok by (rewrite ?net_log; eauto).
    unfold writeStore, answered, log, store_with, rotate. simpl.
    rewrite <- !app_assoc. reflexivity.
  - subst store'. simpl. rewrite Hps. simpl. apply lookup_insert_eq.
  - intros other Hne. subst store'. simpl. rewrite Hps. simpl.
    now apply lookup_insert_ne.
Qed.

(** When the token endpoint refuses the exchange, the refresh was still
    sent once; its error surfaces and the file is not written. *)
Lemma getToken_refresh_refused ctx w profileId authPath store cred r res rest :
  reaches ctx w profileId authPath store cred ->
  JsString.nonempty (key cred) = None ->
  stale (now w) cred ->
  JsString.nonempty (refresh cred) = Some r ->
  net w = Responds res :: rest ->
  res_ok res = false ->
  getToken ctx w
  = (Throw ("Token refresh failed (" ++ JsString.show (status res) ++ "): "
            ++ body_text res),
     answered (refresh_request r) rest (log (EReadFile authPath) w)).
Proof.
  intros H Hk Hstale Hr Hnet Hok.
  enter_store H. rewrite Hk, now_log.
  rewrite (stale_unusable _ _ Hstale), Hr.
  erewrite refreshAccessToken_refused by (rewrite ?net_log; eauto).
  reflexivity.
Qed.

(** A fresh access token is returned as it is, without a refresh. *)
Lemma getToken_fresh_access ctx w profileId authPath store cred a e :
  reaches ctx w profileId authPath store cred ->
  JsString.nonempty (key cred) = None ->
  JsString.nonempty (access cred) = Some a ->
  expires cred = Some e ->
  (now w + 5 * 60 * 1000 < e)%Z ->
  e <> 0%Z ->
  getToken ctx w = (Ok a, log (EReadFile authPath) w).
Proof.
  intros H Hk Ha He Hlt Hnz.
  enter_store H. rewrite Hk, now_log. unfold usable_access, bufferMs.
  rewrite Ha, He.
  destruct (Z.eqb_spec e 0); [contradiction|].
  destruct (Z.ltb_spec (now w) (e - 5 * 60 * 1000)); [reflexivity | lia].
Qed.

End TokenResolution.

(** ** The token theorems at concrete worlds *)

Module TokenWitness.
Import Examples Tools.

Definition expired : Cred :=
  cred_of (Some "at-1") (Some "rt-1") (Some 1700000100000%Z) None.

Definition keyed : Cred :=
  cred_of (Some "at-1") (Some "rt-1") (Some 1600000000000%Z) (Some "sk-permanent").

Definition dead : Cred :=
  cred_of (Some "at-1") None (Some 1700000100000%Z) None.

Lemma reaches_example (c : Cred) answers src :
  reaches ctx (world None c answers src) profileId authPath (store_of c) c.
Proof.
  repeat split; try reflexivity.
  exists "/home/agent". split; reflexivity.
Defined.

Lemma getToken_env_override_witness :
  getToken ctx (world (Some "  sk-live-1
") dead [] NoRequest)
  = (Ok "sk-live-1", world (Some "  sk-live-1
") dead [] NoRequest).
Proof.
  apply (getToken_env_override ctx _ "  sk-live-1
").
  - reflexivity.
  - vm_compute. discriminate.
Defined.

Lemma getToken_prefers_key_witness :
  getToken ctx (world None keyed [] NoRequest)
  = (Ok "sk-permanent", log (EReadFile authPath) (world None keyed [] NoRequest)).
Proof.
  apply (getToken_prefers_key ctx _ profileId authPath (store_of keyed) keyed).
  - apply reaches_example.
  - reflexivity.
  - discriminate.
Defined.

Lemma getToken_all_expired_witness :
  getToken ctx (world None dead [] NoRequest)
  = (Throw msg_all_expired, log (EReadFile authPath) (world None dead [] NoRequest)).
Proof.
  apply (getToken_all_expired ctx _ profileId authPath (store_of dead) dead).
  - apply reaches_example.
  - reflexivity.
  - right; right. exists 1700000100000%Z. split; [reflexivity | vm_compute; discriminate].
  - reflexivity.
Defined.

Lemma getToken_refreshes_witness :
  fst (getToken ctx
         (world None expired [answer 200 "application/json" token_body] NoRequest))
  = Ok "at-2".
Proof.
  pose proof (getToken_refreshes ctx
                (world None expired [answer 200 "application/json" token_body] NoRequest)
                profileId authPath (store_of expired) expired "rt-1"
                (mkResponse 200 (Some "application/json") token_body) []
                (mkTokenJson "at-2" "rt-2" 3600 None None)) as H.
  simpl in H.
  destruct H as [H _].
  - apply reaches_example.
  - reflexivity.
  - right; right. exists 1700000100000%Z. split; [reflexivity | vm_compute; discriminate].
  - reflexivity.
  - reflexivity.
  - reflexivity.
  - reflexivity.
  - rewrite H. reflexivity.
Defined.

End TokenWitness.

(** * How the retry policy reads an error message *)

Section ErrorMessages.

Fixpoint no_lparen (s : string) : bool :=
  match s with
  | EmptyString => true
  | String c s' => negb (Ascii.eqb c "(") && no_lparen s'
  end.

Lemma append_assoc (a b c : string) : (a ++ b) ++ c = a ++ (b ++ c).
Proof. induction a as [|x a IH]; simpl; [reflexivity | now rewrite IH]. Qed.

Lemma starts_with_app p s t :
  JsString.starts_with p s = true -> JsString.starts_with p (s ++ t) = true.
Proof.
  revert s. induction p as [|a p IH]; intros [|b s]; simpl; try easy.
  intros H. apply andb_true_iff in H as [-> H]. simpl. now apply IH.
Qed.

Lemma includes_app_l n a b :
  JsString.includes n a = true -> JsString.includes n (a ++ b) = true.
Proof.
  induction a as [|x a IH]; simpl.
  - rewrite orb_false_r. intros H. destruct n; [|discriminate].
    destruct b; reflexivity.
  - intros H. apply orb_true_iff in H as [H | H].
    + apply (starts_with_app _ _ b) in H. simpl in H. now rewrite H.
    + rewrite (IH H). apply orb_true_r.
Qed.

Lemma includes_app_r n a b :
  JsString.includes n b = true -> JsString.includes n (a ++ b) = true.
Proof.
  intros H. induction a as [|x a IH]; simpl; [exact H|].
  rewrite IH. apply orb_true_r.
Qed.

(** A needle that opens with a parenthesis is not found in a prefix
    without one. *)
Lemma includes_skip n a b :
  no_lparen a = true ->
  JsString.includes (String "(" n) (a ++ b) = JsString.includes (String "(" n) b.
Proof.
  induction a as [|x a IH]; [reflexivity|].
  intros H. cbn [no_lparen] in H. apply andb_true_iff in H as [Hx Ha].
  apply negb_true_iff in Hx.
  cbn [append JsString.includes JsString.starts_with].
  rewrite (Ascii.eqb_sym "(" x), Hx. cbn [andb orb].
  now apply IH.
Qed.

Lemma status_at_not_paren c s :
  Ascii.eqb c "(" = false -> Tools.status_at (String c s) = None.
Proof.
  intros H. unfold Tools.status_at.
  destruct s as [|? [|? [|? [|? ?]]]]; try reflexivity.
  now rewrite H.
Qed.

Lemma status_match_skip a b :
  no_lparen a = true -> Tools.status_match (a ++ b) = Tools.status_match b.
Proof.
  induction a as [|x a IH]; [reflexivity|].
  intros H. simpl in H. apply andb_true_iff in H as [Hx Ha].
  apply negb_true_iff in Hx.
  change ((String x a ++ b)) with (String x (a ++ b)).
  cbn [Tools.status_match]. rewrite (status_at_not_paren _ _ Hx).
  now apply IH.
Qed.

Lemma digit_not_paren c : JsString.is_digit c = true -> Ascii.eqb c "(" = false.
Proof. destruct c as [[] [] [] [] [] [] [] []]; vm_compute; congruence. Qed.

Lemma digit_not_paren' c : JsString.is_digit c = true -> Ascii.eqb "(" c = false.
Proof. rewrite Ascii.eqb_sym. apply digit_not_paren. Qed.

(** The three digits of an HTTP status. *)
Definition three_digits (s : N) : bool :=
  match JsString.show s with
  | String a (String b (String c EmptyString)) =>
      JsString.is_digit a && JsString.is_digit b && JsString.is_digit c
      && (100 * JsString.digit_val a + 10 * JsString.digit_val b
          + JsString.digit_val c =? s)%N
  | _ => false
  end.

Lemma three_digits_all :
  forallb three_digits (map N.of_nat (seq 100 900)) = true.
Proof. vm_compute. reflexivity. Qed.

Lemma three_digits_ok s : (100 <= s <= 999)%N -> three_digits s = true.
Proof.
  intros H. pose proof three_digits_all as Hall.
  rewrite forallb_forall in Hall. apply Hall.
  apply in_map_iff. exists (N.to_nat s). split; [lia|].
  apply in_seq. lia.
Qed.

(** The message as [includes] and the regular expression see it: a
    parenthesis-free prefix, then the status in parentheses. *)
Lemma status_group s tail :
  (100 <= s <= 999)%N ->
  Tools.status_match (String "(" (JsString.show s ++ String ")" tail)) = Some s.
Proof.
  intros H. apply three_digits_ok in H. unfold three_digits in H.
  destruct (JsString.show s) as [|a [|b [|c [|? ?]]]]; try discriminate.
  apply andb_true_iff in H as [H Hv].
  apply andb_true_iff in H as [H Hc].
  apply andb_true_iff in H as [Ha Hb].
  apply N.eqb_eq in Hv.
  simpl. rewrite Ha, Hb, Hc. simpl. now rewrite Hv.
Qed.

Lemma includes_404_group s tail :
  (100 <= s <= 999)%N ->
  s <> 404%N ->
  JsString.includes "(404)" (String "(" (JsString.show s ++ String ")" (String ":" (String " " tail))))
  = JsString.includes "(404)" tail.
Proof.
  intros H Hne. apply three_digits_ok in H. unfold three_digits in H.
  destruct (JsString.show s) as [|a [|b [|c [|? ?]]]]; try discriminate.
  apply andb_true_iff in H as [H Hv].
  apply andb_true_iff in H as [H Hc].
  apply andb_true_iff in H as [Ha Hb].
  apply N.eqb_eq in Hv.
  assert (Hnot : Ascii.eqb "4" a && (Ascii.eqb "0" b && (Ascii.eqb "4" c && true)) = false).
  { destruct (Ascii.eqb_spec "4" a) as [<-|]; [|reflexivity].
    destruct (Ascii.eqb_spec "0" b) as [<-|]; [|reflexivity].
    destruct (Ascii.eqb_spec "4" c) as [<-|]; [|reflexivity].
    exfalso. apply Hne. rewrite <- Hv. reflexivity. }
  cbn [JsString.includes JsString.starts_with append].
  rewrite (digit_not_paren' _ Ha), (digit_not_paren' _ Hb), (digit_not_paren' _ Hc).
  change (Ascii.eqb "(" "(") with true.
  change (Ascii.eqb "(" ")") with false.
  change (Ascii.eqb "(" ":") with false.
  change (Ascii.eqb "(" " ") with false.
  change (Ascii.eqb ")" ")") with true.
  cbn [andb orb].
  destruct (Ascii.eqb "4" a); [|reflexivity].
  destruct (Ascii.eqb "0" b); [|reflexivity].
  destruct (Ascii.eqb "4" c); [discriminate | reflexivity].
Qed.

End ErrorMessages.

Section EncodedIds.

Lemma encode_char_no_lparen c :
  Ascii.eqb c "(" = false ->
  no_lparen (if JsString.uri_unreserved c then String c EmptyString
             else JsString.percent_byte c) = true.
Proof. destruct c as [[] [] [] [] [] [] [] []]; vm_compute; congruence. Qed.

Lemma encodeURIComponent_app a b :
  JsString.encodeURIComponent (a ++ b)
  = JsString.encodeURIComponent a ++ JsString.encodeURIComponent b.
Proof.
  induction a as [|c a IH]; [reflexivity|].
  cbn [append JsString.encodeURIComponent]. now rewrite IH, append_assoc.
Qed.

Lemma starts_with_split p s :
  JsString.starts_with p s = true -> exists rest, s = p ++ rest.
Proof.
  revert s. induction p as [|a p IH]; intros s H.
  - now exists s.
  - destruct s as [|b s]; [discriminate|].
    cbn [JsString.starts_with] in H. apply andb_true_iff in H as [Hab H].
    apply Ascii.eqb_eq in Hab. subst b.
    destruct (IH _ H) as (rest & ->). now exists rest.
Qed.

(** The parentheses and digits of "(404)" survive the encoding. *)
Lemma encodeURIComponent_keeps_404 id :
  JsString.includes "(404)" id = true ->
  JsString.includes "(404)" (JsString.encodeURIComponent id) = true.
Proof.
  induction id as [|c id IH]; [discriminate|].
  intros H. cbn [JsString.includes] in H. apply orb_true_iff in H as [H | H].
  - apply starts_with_split in H as (rest & ->).
    rewrite encodeURIComponent_app. now apply includes_app_l.
  - cbn [JsString.encodeURIComponent]. apply includes_app_r. now apply IH.
Qed.

End EncodedIds.

(** ** Ids without a parenthesised three-digit group *)

Section GroupFree.

(** What follows the endpoint in an error message opens with a space: no
    group that starts inside the endpoint can end there. *)
Definition head_safe (rest : string) : bool :=
  match rest with
  | String c _ => negb (JsString.is_digit c) && negb (Ascii.eqb c ")")
  | EmptyString => false
  end.

Lemma status_at_window x m rest :
  Tools.status_at (String x m) = None ->
  head_safe rest = true ->
  Tools.status_at (String x (m ++ rest)) = None.
Proof.
  intros H Hsafe. destruct rest as [|c rest]; [discriminate|].
  cbn [head_safe] in Hsafe. apply andb_true_iff in Hsafe as [Hd Hq].
  apply negb_true_iff in Hd. apply negb_true_iff in Hq.
  destruct m as [|a [|b [|d [|q m]]]]; cbn [append].
  - destruct rest as [|r1 [|r2 [|r3 rest]]]; cbn [Tools.status_at]; try reflexivity.
    rewrite Hd, !andb_false_r. reflexivity.
  - destruct rest as [|r1 [|r2 rest]]; cbn [Tools.status_at]; try reflexivity.
    rewrite Hd, !andb_false_r. reflexivity.
  - destruct rest as [|r1 rest]; cbn [Tools.status_at]; try reflexivity.
    rewrite Hd, !andb_false_r. reflexivity.
  - cbn [Tools.status_at]. rewrite Hq, !andb_false_r. reflexivity.
  - exact H.
Qed.

Lemma status_match_none_inv x m :
  Tools.status_match (String x m) = None ->
  Tools.status_at (String x m) = None /\ Tools.status_match m = None.
Proof.
  cbn [Tools.status_match].
  destruct (Tools.status_at (String x m)); [discriminate | now split].
Qed.

Lemma status_match_through mid rest :
  Tools.status_match mid = None ->
  head_safe rest = true ->
  Tools.status_match (mid ++ rest) = Tools.status_match rest.
Proof.
  intros H Hsafe. induction mid as [|x m IH]; [reflexivity|].
  apply status_match_none_inv in H as [Hat Hm].
  change (String x m ++ rest) with (String x (m ++ rest)).
  cbn [Tools.status_match]. rewrite (status_at_window _ _ _ Hat Hsafe).
  now apply IH.
Qed.

Lemma starts_404_is_group s :
  JsString.starts_with "(404)" s = true -> Tools.status_at s = Some 404%N.
Proof.
  intros H. apply starts_with_split in H as (rest & ->). reflexivity.
Qed.

Lemma includes_404_through mid rest :
  Tools.status_match mid = None ->
  head_safe rest = true ->
  JsString.includes "(404)" (mid ++ rest) = JsString.includes "(404)" rest.
Proof.
  intros H Hsafe. induction mid as [|x m IH]; [reflexivity|].
  apply status_match_none_inv in H as [Hat Hm].
  change (String x m ++ rest) with (String x (m ++ rest)).
  cbn [JsString.includes].
  destruct (JsString.starts_with "(404)" (String x (m ++ rest))) eqn:Hs.
  - apply starts_404_is_group in Hs.
    rewrite (status_at_window _ _ _ Hat Hsafe) in Hs. discriminate.
  - now apply IH.
Qed.

(** A character of the encoding that is not [%] was copied from the id. *)
Lemma encode_head s a t :
  JsString.encodeURIComponent s = String a t ->
  Ascii.eqb a "%" = false ->
  exists s', s = String a s' /\ t = JsString.encodeURIComponent s'.
Proof.
  intros H Ha. destruct s as [|c s]; [discriminate|].
  cbn [JsString.encodeURIComponent] in H.
  destruct (JsString.uri_unreserved c).
  - cbn [append] in H. injection H as -> <-. now exists s.
  - unfold JsString.percent_byte in H. cbn [append] in H.
    injection H as <- _. discriminate.
Qed.

Lemma digit_not_percent c : JsString.is_digit c = true -> Ascii.eqb c "%" = false.
Proof. destruct c as [[] [] [] [] [] [] [] []]; vm_compute; congruence. Qed.

Lemma status_at_encoded c id :
  Tools.status_at (String c id) = None ->
  Tools.status_at (String c (JsString.encodeURIComponent id)) = None.
Proof.
  intros H.
  destruct (Tools.status_at (String c (JsString.encodeURIComponent id))) as [n|] eqn:E;
    [exfalso | reflexivity].
  cbn [Tools.status_at] in E.
  destruct (JsString.encodeURIComponent id) as [|a [|b [|d [|q t]]]] eqn:Henc;
    try discriminate.
  destruct (Ascii.eqb c "(" && JsString.is_digit a && JsString.is_digit b
            && JsString.is_digit d && Ascii.eqb q ")") eqn:Hcond; [|discriminate].
  pose proof Hcond as Hkeep.
  apply andb_true_iff in Hcond as [Hcond Hq].
  apply andb_true_iff in Hcond as [Hcond Hd].
  apply andb_true_iff in Hcond as [Hcond Hb].
  apply andb_true_iff in Hcond as [Hc Ha].
  apply Ascii.eqb_eq in Hq. subst q.
  apply encode_head in Henc as (s1 & -> & Henc); [|now apply digit_not_percent].
  symmetry in Henc.
  apply encode_head in Henc as (s2 & -> & Henc); [|now apply digit_not_percent].
  symmetry in Henc.
  apply encode_head in Henc as (s3 & -> & Henc); [|now apply digit_not_percent].
  symmetry in Henc.
  apply encode_head in Henc as (s4 & -> & Henc); [|reflexivity].
  cbn [Tools.status_at] in H. rewrite Hkeep in H. discriminate.
Qed.

Lemma uri_escaped_not_lparen c :
  JsString.uri_unreserved c = false -> Ascii.eqb c "(" = false.
Proof. destruct c as [[] [] [] [] [] [] [] []]; vm_compute; congruence. Qed.

(** The encoding creates no group: escapes bring in [%] and hexadecimal
    digits only, and every other character is copied. *)
Lemma encodeURIComponent_group_free id :
  Tools.status_match id = None ->
  Tools.status_match (JsString.encodeURIComponent id) = None.
Proof.
  induction id as [|c id IH]; [reflexivity|].
  intros H. apply status_match_none_inv in H as [Hat Hm].
  cbn [JsString.encodeURIComponent].
  destruct (JsString.uri_unreserved c) eqn:Hu.
  - cbn [append Tools.status_match].
    rewrite (status_at_encoded _ _ Hat). now apply IH.
  - rewrite status_match_skip; [now apply IH|].
    pose proof (encode_char_no_lparen c (uri_escaped_not_lparen c Hu)) as Hn.
    now rewrite Hu in Hn.
Qed.

End GroupFree.

(** * The retry policy of the delete tools *)

Section RetryPolicy.
Context {rt : Runtime}.
Import Tools.

Definition delete_request (endpoint token : string) : Request :=
  mkRequest "DELETE" (BASE_URL ++ endpoint)
            [("Authorization", "Bearer " ++ token)] NoBody.

(** The message [apiRequest] throws for a failed DELETE. *)
Definition failure (endpoint : string) (res : Response) : string :=
  "API DELETE " ++ endpoint ++ " failed (" ++ JsString.show (status res)
  ++ "): " ++ body_text res.

(** [isRetryable], as the loop computes it from the message. *)
Definition retryable (message : string) : bool :=
  let statusMatch := status_match message in
  let status := default 0%N statusMatch in
  (500 <=? status)%N || (status =? 429)%N
  || negb (bool_decide (is_Some statusMatch)).

(** The world after [setTimeout] fired. *)
Definition slept (ms : Z) (w : World) : World :=
  mkWorld (env_SANDBOX_API_KEY w) (now w + ms)%Z (disk w) (net w)
          (entropy w) (drawn w) (inbound w) (app (trace w) [ESleep ms]).

Lemma classify_failure endpoint res :
  res_ok res = false -> classify "DELETE" endpoint res = inl (failure endpoint res).
Proof. intros H. unfold classify. now rewrite H. Qed.

(** The message in three parts: a fixed opening, the endpoint, and a tail
    that carries the status in parentheses. *)
Definition failure_tail (res : Response) : string :=
  " failed "
  ++ String "(" (JsString.show (status res)
                 ++ String ")" (String ":" (String " " (body_text res)))).

Lemma failure_shape endpoint res :
  failure endpoint res = "API DELETE " ++ endpoint ++ failure_tail res.
Proof. reflexivity. Qed.

Lemma failure_status endpoint res :
  status_match endpoint = None ->
  (100 <= status res <= 999)%N ->
  status_match (failure endpoint res) = Some (status res).
Proof.
  intros He Hs. rewrite failure_shape.
  rewrite (status_match_skip "API DELETE ") by reflexivity.
  rewrite (status_match_through _ _ He) by reflexivity.
  unfold failure_tail.
  rewrite (status_match_skip " failed ") by reflexivity.
  now apply status_group.
Qed.

Lemma failure_404_free endpoint res :
  status_match endpoint = None ->
  (100 <= status res <= 999)%N ->
  status res <> 404%N ->
  JsString.includes "(404)" (failure endpoint res)
  = JsString.includes "(404)" (body_text res).
Proof.
  intros He Hs Hne. rewrite failure_shape.
  rewrite (includes_skip _ "API DELETE ") by reflexivity.
  rewrite (includes_404_through _ _ He) by reflexivity.
  unfold failure_tail.
  rewrite (includes_skip _ " failed ") by reflexivity.
  now apply includes_404_group.
Qed.

Lemma failure_404 endpoint res :
  status res = 404%N -> JsString.includes "(404)" (failure endpoint res) = true.
Proof.
  intros Hs. rewrite failure_shape. unfold failure_tail. rewrite Hs.
  do 3 apply includes_app_r. reflexivity.
Qed.

Lemma failure_404_body endpoint res :
  JsString.includes "(404)" (body_text res) = true ->
  JsString.includes "(404)" (failure endpoint res) = true.
Proof.
  intros H. unfold failure. now do 5 apply includes_app_r.
Qed.

Lemma failure_404_endpoint endpoint res :
  JsString.includes "(404)" endpoint = true ->
  JsString.includes "(404)" (failure endpoint res) = true.
Proof.
  intros H. unfold failure. apply includes_app_r. now apply includes_app_l.
Qed.

Lemma apiRequest_responds method endpoint token w res rest :
  net w = Responds res :: rest ->
  apiRequest method endpoint token None w
  = (match classify method endpoint res with
     | inl msg => Throw msg
     | inr v => Ok v
     end,
     answered (mkRequest method (BASE_URL ++ endpoint)
                         [("Authorization", "Bearer " ++ token)] NoBody) rest w).
Proof.
  intros Hnet. unfold apiRequest, bind.
  cbn [app]. rewrite (fetch_responds _ _ _ _ Hnet).
  now destruct (classify method endpoint res).
Qed.

Section Loop.
Variables (endpoint token : string).
Variables (deleted : Json -> ToolResult) (gone : ToolResult).

Let loop := delete_loop endpoint token deleted gone.
Let req := delete_request endpoint token.

Lemma step_deleted fuel k last w res rest data :
  net w = Responds res :: rest ->
  classify "DELETE" endpoint res = inr data ->
  loop (S fuel) k last w = (Ok (deleted data), answered req rest w).
Proof.
  intros Hnet Hc. unfold loop. cbn [delete_loop]. unfold bind at 1, try_.
  rewrite (apiRequest_responds _ _ _ _ _ _ Hnet), Hc. reflexivity.
Qed.

Lemma step_gone fuel k last w res rest :
  net w = Responds res :: rest ->
  res_ok res = false ->
  JsString.includes "(404)" (failure endpoint res) = true ->
  loop (S fuel) k last w = (Ok gone, answered req rest w).
Proof.
  intros Hnet Hok H404. unfold loop. cbn [delete_loop]. unfold bind at 1, try_.
  rewrite (apiRequest_responds _ _ _ _ _ _ Hnet), (classify_failure _ _ Hok).
  now rewrite H404.
Qed.

Lemma step_fatal fuel k last w res rest :
  net w = Responds res :: rest ->
  res_ok res = false ->
  JsString.includes "(404)" (failure endpoint res) = false ->
  retryable (failure endpoint res) = false \/ k = maxAttempts ->
  loop (S fuel) k last w = (Throw (failure endpoint res), answered req rest w).
Proof.
  intros Hnet Hok H404 Hstop. unfold loop. cbn [delete_loop].
  unfold bind at 1, try_.
  rewrite (apiRequest_responds _ _ _ _ _ _ Hnet), (classify_failure _ _ Hok).
  rewrite H404. fold (retryable (failure endpoint res)).
  destruct Hstop as [-> | ->]; [reflexivity|].
  rewrite N.eqb_refl, orb_true_r. reflexivity.
Qed.

Lemma step_retry fuel k last w res rest :
  net w = Responds res :: rest ->
  res_ok res = false ->
  JsString.includes "(404)" (failure endpoint res) = false ->
  retryable (failure endpoint res) = true ->
  k <> maxAttempts ->
  loop (S fuel) k last w
  = loop fuel (k + 1)%N (Some (failure endpoint res))
         (slept (500 * 2 ^ (Z.of_N k - 1)) (answered req rest w)).
Proof.
  intros Hnet Hok H404 Hre Hk. unfold loop. cbn [delete_loop].
  unfold bind at 1, try_.
  rewrite (apiRequest_responds _ _ _ _ _ _ Hnet), (classify_failure _ _ Hok).
  rewrite H404. fold (retryable (failure endpoint res)). rewrite Hre.
  apply N.eqb_neq in Hk. rewrite Hk. reflexivity.
Qed.

(** A rejected [fetch] whose message shows no status is retried too. *)
Lemma step_network_retry fuel k last w msg rest :
  net w = NetworkError msg :: rest ->
  JsString.includes "(404)" msg = false ->
  status_match msg = None ->
  k <> maxAttempts ->
  loop (S fuel) k last w
  = loop fuel (k + 1)%N (Some msg)
         (slept (500 * 2 ^ (Z.of_N k - 1)) (answered req rest w)).
Proof.
  intros Hnet H404 Hnone Hk. unfold loop. cbn [delete_loop].
  unfold bind at 1, try_. unfold apiRequest, bind at 1. cbn [app].
  fold (delete_request endpoint token). fold req.
  rewrite (fetch_fails _ _ _ _ Hnet), H404, Hnone.
  apply N.eqb_neq in Hk. rewrite Hk. reflexivity.
Qed.

End Loop.


(** The two delete-like tools. *)
Inductive DeleteTool : Type := DestroySession | DeleteFile.

Definition run (tool : DeleteTool) (ctx : ToolCtx) (id : string) : M ToolResult :=
  match tool with
  | DestroySession => sandbox_destroy_session ctx id
  | DeleteFile => sandbox_delete_file ctx id
  end.

Definition endpoint_of (tool : DeleteTool) (id : string) : string :=
  match tool with
  | DestroySession => "/v1/sessions/" ++ JsString.encodeURIComponent id
  | DeleteFile => "/v1/files/" ++ JsString.encodeURIComponent id
  end.

Definition id_key (tool : DeleteTool) : string :=
  match tool with DestroySession => "session_id" | DeleteFile => "file_id" end.

(** What the tool returns on the 404 path ... *)
Definition gone_result (tool : DeleteTool) (id : string) : ToolResult :=
  mkToolResult
    (match tool with
     | DestroySession => "Session destroyed (already absent)."
     | DeleteFile => "File deleted (already absent)."
     end)
    [("ok", JBool true); (id_key tool, JStr id); ("already_gone", JBool true)].

(** ... and when the DELETE went through with answer [data]. *)
Definition deleted_result (tool : DeleteTool) (id : string) (data : Json) : ToolResult :=
  mkToolResult (JSON_stringify data)
    (JsObject.assign [("ok", JBool true); (id_key tool, JStr id)]
                     (JsObject.spread data)).

Lemma run_enters_loop tool ctx id w token w1 :
  getToken ctx w = (Ok token, w1) ->
  run tool ctx id w
  = delete_loop (endpoint_of tool id) token
                (deleted_result tool id) (gone_result tool id)
                3 1%N None w1.
Proof.
  intros H. destruct tool; unfold run, sandbox_destroy_session,
    sandbox_delete_file, delete_with_retry, bind; rewrite H; reflexivity.
Qed.

Lemma endpoint_clean tool id :
  status_match id = None -> status_match (endpoint_of tool id) = None.
Proof.
  intros H. destruct tool; unfold endpoint_of;
    rewrite status_match_skip by reflexivity;
    now apply encodeURIComponent_group_free.
Qed.

(** Statuses the policy retries. *)
Definition transient (s : N) : Prop := (500 <= s <= 599)%N \/ s = 429%N.

Lemma transient_not_ok res : transient (status res) -> res_ok res = false.
Proof.
  intros [H | H]; unfold res_ok.
  - destruct (N.leb_spec (status res) 299); [lia|]. apply andb_false_r.
  - rewrite H. reflexivity.
Qed.

Lemma transient_retryable endpoint res :
  status_match endpoint = None ->
  transient (status res) ->
  retryable (failure endpoint res) = true.
Proof.
  intros He Hs. unfold retryable.
  rewrite (failure_status _ _ He) by (destruct Hs; lia).
  cbn [from_option id]. destruct Hs as [Hs | ->]; [|reflexivity].
  destruct (N.leb_spec 500 (status res)); [reflexivity | lia].
Qed.

Lemma transient_no_404 endpoint res :
  status_match endpoint = None ->
  transient (status res) ->
  JsString.includes "(404)" (body_text res) = false ->
  JsString.includes "(404)" (failure endpoint res) = false.
Proof.
  intros He Hs Hb. rewrite (failure_404_free _ _ He); [exact Hb | |];
    destruct Hs; lia.
Qed.

Lemma client_error_fatal endpoint res :
  status_match endpoint = None ->
  (400 <= status res <= 499)%N ->
  status res <> 429%N ->
  retryable (failure endpoint res) = false.
Proof.
  intros He Hs Hne. unfold retryable.
  rewrite (failure_status _ _ He) by lia.
  cbn [from_option id].
  destruct (N.leb_spec 500 (status res)); [lia|].
  destruct (N.eqb_spec (status res) 429); [contradiction|].
  reflexivity.
Qed.


Lemma get_set k k' v o :
  JsObject.get k (JsObject.set k' v o)
  = if String.eqb k k' then Some v else JsObject.get k o.
Proof.
  induction o as [|[k0 v0] o IH]; cbn [JsObject.set JsObject.get].
  - reflexivity.
  - destruct (String.eqb_spec k' k0) as [<-|Hne]; cbn [JsObject.get].
    + now destruct (String.eqb k k').
    + rewrite IH. destruct (String.eqb_spec k k0) as [->|]; [|reflexivity].
      destruct (String.eqb_spec k0 k'); [congruence | reflexivity].
Qed.

Lemma get_assign_absent k props o :
  JsObject.get k props = None ->
  JsObject.get k (JsObject.assign o props) = JsObject.get k o.
Proof.
  revert o. induction props as [|[k1 v1] props IH]; intros o H; [reflexivity|].
  cbn [JsObject.get] in H. unfold JsObject.assign. cbn [fold_left fst snd].
  destruct (String.eqb k k1) eqn:Hk; [discriminate|].
  fold (JsObject.assign (JsObject.set k1 v1 o) props).
  rewrite (IH _ H), get_set. now rewrite Hk.
Qed.

(** A later property of an object literal replaces an earlier one. *)
Lemma get_assign_over k q o :
  JsObject.get k (JsObject.assign o q)
  = match JsObject.get k (JsObject.assign [] q) with
    | Some v => Some v
    | None => JsObject.get k o
    end.
Proof.
  revert o. induction q as [|[k1 v1] q IH]; intros o; [reflexivity|].
  unfold JsObject.assign. cbn [fold_left fst snd].
  fold (JsObject.assign (JsObject.set k1 v1 o) q).
  fold (JsObject.assign (JsObject.set k1 v1 []) q).
  rewrite (IH (JsObject.set k1 v1 o)), (IH (JsObject.set k1 v1 [])).
  destruct (JsObject.get k (JsObject.assign [] q)); [reflexivity|].
  rewrite !get_set. cbn [JsObject.get]. now destruct (String.eqb k k1).
Qed.


Lemma get_app k p q :
  JsObject.get k (app p q)
  = match JsObject.get k p with
    | Some v => Some v
    | None => JsObject.get k q
    end.
Proof.
  induction p as [|[k1 v1] p IH]; [reflexivity|].
  cbn [app JsObject.get]. now destruct (String.eqb k k1).
Qed.

Lemma get_absent k (o : JsObject.obj) : k ∉ o.*1 -> JsObject.get k o = None.
Proof.
  induction o as [|[k1 v1] o IH]; [reflexivity|].
  cbn [fmap list_fmap fst JsObject.get]. rewrite not_elem_of_cons. intros [Hne Hin].
  destruct (String.eqb_spec k k1); [contradiction | auto].
Qed.

(** In an object literal the last property of a name wins. *)
Lemma get_assign_last k q :
  JsObject.get k (JsObject.assign [] q) = JsObject.get k (rev q).
Proof.
  induction q as [|[k1 v1] q IH]; [reflexivity|].
  unfold JsObject.assign. cbn [fold_left fst snd rev].
  fold (JsObject.assign (JsObject.set k1 v1 []) q).
  now rewrite get_assign_over, get_app, IH.
Qed.

Lemma get_rev k (o : JsObject.obj) :
  NoDup o.*1 -> JsObject.get k (rev o) = JsObject.get k o.
Proof.
  induction o as [|[k1 v1] o IH]; [reflexivity|].
  cbn [fmap list_fmap fst rev JsObject.get]. rewrite NoDup_cons. intros [Hni Hnd].
  rewrite get_app, (IH Hnd). cbn [JsObject.get].
  destruct (String.eqb_spec k k1) as [->|Hne].
  - now rewrite (get_absent _ _ Hni).
  - now destruct (JsObject.get k o).
Qed.

Lemma set_keys k v o x :
  x ∈ (JsObject.set k v o).*1 <-> x = k \/ x ∈ o.*1.
Proof.
  induction o as [|[k1 v1] o IH]; cbn [JsObject.set fmap list_fmap fst].
  - rewrite elem_of_cons. tauto.
  - destruct (String.eqb_spec k k1) as [->|Hne]; cbn [fmap list_fmap fst].
    + rewrite !elem_of_cons. tauto.
    + rewrite !elem_of_cons, IH. tauto.
Qed.

Lemma set_unique k v o : NoDup o.*1 -> NoDup (JsObject.set k v o).*1.
Proof.
  induction o as [|[k1 v1] o IH]; cbn [JsObject.set fmap list_fmap fst].
  - intros _. apply NoDup_singleton.
  - rewrite NoDup_cons. intros [Hni Hnd].
    destruct (String.eqb_spec k k1) as [->|Hne]; cbn [fmap list_fmap fst].
    + now apply NoDup_cons.
    + apply NoDup_cons. split; [|auto].
      rewrite set_keys. intros [->|?]; [now apply Hne | contradiction].
Qed.

Lemma assign_unique q o : NoDup o.*1 -> NoDup (JsObject.assign o q).*1.
Proof.
  revert o. induction q as [|[k1 v1] q IH]; intros o H; [exact H|].
  unfold JsObject.assign. cbn [fold_left fst snd].
  apply IH. now apply set_unique.
Qed.

Lemma show_inj : Inj eq eq JsString.show.
Proof.
  intros a b H. unfold JsString.show in H.
  assert (forall n, NilZero.uint_of_string (NilZero.string_of_uint (N.to_uint n))
                    = Some (N.to_uint n)) as U.
  { intros n. apply NilZero.usu. destruct n; [discriminate|].
    apply Stdlib.Numbers.DecimalPos.Unsigned.to_uint_nonnil. }
  pose proof (U a) as Ua. rewrite H, U in Ua. injection Ua as Ua.
  rewrite <- (Stdlib.Numbers.DecimalN.Unsigned.of_to a),
    <- (Stdlib.Numbers.DecimalN.Unsigned.of_to b).
  now rewrite Ua.
Qed.

Lemma indexed_keys (items : list Json) :
  (JsObject.indexed items).*1
  = (fun i => JsString.show (N.of_nat i)) <$> seq 0 (List.length items).
Proof.
  unfold JsObject.indexed. generalize 0%nat.
  induction items as [|x items IH]; intros start; [reflexivity|].
  cbn [List.length seq combine map fmap list_fmap fst]. f_equal. apply IH.
Qed.

Lemma indexed_unique (items : list Json) : NoDup (JsObject.indexed items).*1.
Proof.
  rewrite indexed_keys. apply NoDup_fmap_2; [|apply NoDup_seq].
  intros i j H. apply show_inj in H. lia.
Qed.

Lemma spread_unique (data : Json) : NoDup (JsObject.spread data).*1.
Proof.
  destruct data; cbn [JsObject.spread]; try apply NoDup_nil_2;
    try apply indexed_unique.
  apply assign_unique, NoDup_nil_2.
Qed.

(** Copying an object whose names are distinct changes no property. *)
Lemma get_assign_unique k (o : JsObject.obj) :
  NoDup o.*1 -> JsObject.get k (JsObject.assign [] o) = JsObject.get k o.
Proof. intros H. now rewrite get_assign_last, get_rev. Qed.

(** The "ok" of a delete that went through: the answer's own, else the
    tool's. *)
Lemma deleted_ok_of tool id data :
  JsObject.get "ok" (details (deleted_result tool id data))
  = match JsObject.get "ok" (JsObject.spread data) with
    | Some v => Some v
    | None => Some (JBool true)
    end.
Proof.
  unfold deleted_result. cbn [details].
  rewrite get_assign_over, (get_assign_unique _ _ (spread_unique data)).
  reflexivity.
Qed.

(** The answer is spread after [ok: true]: a property "ok" of its own
    replaces it. *)
Lemma deleted_ok_overridden tool id :
  JsObject.get "ok" (details (deleted_result tool id (JObj [("ok", JBool false)])))
  = Some (JBool false).
Proof. destruct tool; reflexivity. Qed.

Lemma deleted_ok tool id data :
  JsObject.get "ok" (JsObject.spread data) = None ->
  JsObject.get "ok" (details (deleted_result tool id data)) = Some (JBool true).
Proof.
  intros H. unfold deleted_result. cbn [details].
  rewrite (get_assign_absent _ _ _ H). reflexivity.
Qed.

(** C3, as the code has it.  For [sandbox_destroy_session] and
    [sandbox_delete_file], with an id that contains no parenthesised group
    of three digits and error bodies free of the text "(404)": three answers with a transient status (5xx, such
    as 500, or 429) make exactly three attempts and surface the last
    error; two such answers followed by a readable success answer succeed
    on the third attempt; the sleep before retry k+1 is 500 * 2^(k-1) ms
    (500, then 1000); a 4xx status other than 404 and 429 fails at once,
    with one attempt and no sleep. *)
Theorem delete_retry_policy (tool : DeleteTool) (ctx : ToolCtx) (id : string)
    (w : World) (token : string) (w1 : World) :
  getToken ctx w = (Ok token, w1) ->
  status_match id = None ->
  let endpoint := endpoint_of tool id in
  let req := delete_request endpoint token in
  (forall r1 r2 r3 rest,
      net w1 = Responds r1 :: Responds r2 :: Responds r3 :: rest ->
      transient (status r1) -> transient (status r2) -> transient (status r3) ->
      JsString.includes "(404)" (body_text r1) = false ->
      JsString.includes "(404)" (body_text r2) = false ->
      JsString.includes "(404)" (body_text r3) = false ->
      exists w',
        run tool ctx id w = (Throw (failure endpoint r3), w')
        /\ net w' = rest
        /\ trace w' = app (trace w1)
                          [EFetch req; ESleep (500 * 2 ^ (1 - 1));
                           EFetch req; ESleep (500 * 2 ^ (2 - 1));
                           EFetch req])
  /\ (forall r1 r2 r3 rest data,
      net w1 = Responds r1 :: Responds r2 :: Responds r3 :: rest ->
      transient (status r1) -> transient (status r2) ->
      JsString.includes "(404)" (body_text r1) = false ->
      JsString.includes "(404)" (body_text r2) = false ->
      classify "DELETE" endpoint r3 = inr data ->
      exists w',
        run tool ctx id w = (Ok (deleted_result tool id data), w')
        /\ net w' = rest
        /\ trace w' = app (trace w1)
                          [EFetch req; ESleep (500 * 2 ^ (1 - 1));
                           EFetch req; ESleep (500 * 2 ^ (2 - 1));
                           EFetch req])
  /\ (forall r1 rest,
      net w1 = Responds r1 :: rest ->
      (400 <= status r1 <= 499)%N ->
      status r1 <> 404%N -> status r1 <> 429%N ->
      JsString.includes "(404)" (body_text r1) = false ->
      exists w',
        run tool ctx id w = (Throw (failure endpoint r1), w')
        /\ net w' = rest
        /\ trace w' = app (trace w1) [EFetch req]).
Proof.
  intros Hget Hid endpoint req.
  pose proof (endpoint_clean tool id Hid) as Hclean.
  fold endpoint in Hclean.
  rewrite (run_enters_loop _ _ _ _ _ _ Hget). fold endpoint.
  split; [|split].
  - intros r1 r2 r3 rest Hnet H1 H2 H3 B1 B2 B3.
    erewrite step_retry;
      [ | exact Hnet | now apply transient_not_ok | now apply transient_no_404
        | now apply transient_retryable | discriminate ].
    erewrite step_retry;
      [ | reflexivity | now apply transient_not_ok | now apply transient_no_404
        | now apply transient_retryable | discriminate ].
    erewrite step_fatal;
      [ | reflexivity | now apply transient_not_ok | now apply transient_no_404
        | now right ].
    eexists. split; [reflexivity|]. split; [reflexivity|].
    cbn [trace slept answered]. rewrite <- !app_assoc. reflexivity.
  - intros r1 r2 r3 rest data Hnet H1 H2 B1 B2 Hdata.
    erewrite step_retry;
      [ | exact Hnet | now apply transient_not_ok | now apply transient_no_404
        | now apply transient_retryable | discriminate ].
    erewrite step_retry;
      [ | reflexivity | now apply transient_not_ok | now apply transient_no_404
        | now apply transient_retryable | discriminate ].
    erewrite step_deleted; [ | reflexivity | exact Hdata ].
    eexists. split; [reflexivity|]. split; [reflexivity|].
    cbn [trace slept answered]. rewrite <- !app_assoc. reflexivity.
  - intros r1 rest Hnet Hs H404 H429 B1.
    assert (Hok : res_ok r1 = false).
    { unfold res_ok. destruct (N.leb_spec (status r1) 299); [lia|].
      apply andb_false_r. }
    erewrite step_fatal;
      [ | exact Hnet | exact Hok
        | rewrite (failure_404_free _ _ Hclean); [exact B1 | lia | exact H404]
        | left; now apply client_error_fatal ].
    eexists. split; [reflexivity|]. split; reflexivity.
Qed.

(** C4. A DELETE answered with status 404 is a success for both tools,
    whatever the id and the body are and at whichever attempt it comes:
    the tool returns ok:true with already_gone:true after that one
    request, without sleeping, retrying or throwing.  Deleting the same
    id twice, however the token is resolved each time, against a server
    that first answers with a success and then with 404: neither call
    throws, and the second returns ok:true through the 404 path.  The
    first returns the "ok" of the answer when the answer has one, since
    the answer is spread over the tool's ok:true, and ok:true when it
    has none. *)
Theorem delete_404_is_success (tool : DeleteTool) (ctx : ToolCtx) (id : string) :
  let endpoint := endpoint_of tool id in
  (forall token fuel k last w res rest,
      net w = Responds res :: rest ->
      status res = 404%N ->
      delete_loop endpoint token (deleted_result tool id) (gone_result tool id)
                  (S fuel) k last w
      = (Ok (gone_result tool id), answered (delete_request endpoint token) rest w))
  /\ (forall w token w1 res rest,
      getToken ctx w = (Ok token, w1) ->
      net w1 = Responds res :: rest ->
      status res = 404%N ->
      run tool ctx id w
      = (Ok (gone_result tool id), answered (delete_request endpoint token) rest w1))
  /\ JsObject.get "ok" (details (gone_result tool id)) = Some (JBool true)
  /\ JsObject.get "already_gone" (details (gone_result tool id)) = Some (JBool true)
  /\ (forall w token w1 r1 rest1 data token' w2 r2 rest,
      getToken ctx w = (Ok token, w1) ->
      net w1 = Responds r1 :: rest1 ->
      classify "DELETE" endpoint r1 = inr data ->
      getToken ctx (answered (delete_request endpoint token) rest1 w1)
      = (Ok token', w2) ->
      net w2 = Responds r2 :: rest ->
      status r2 = 404%N ->
      exists first w',
        bind (run tool ctx id)
             (fun a => bind (run tool ctx id) (fun b => ret (a, b))) w
        = (Ok (first, gone_result tool id), w')
        /\ JsObject.get "ok" (details first)
           = match JsObject.get "ok" (JsObject.spread data) with
             | Some v => Some v
             | None => Some (JBool true)
             end
        /\ net w' = rest
        /\ trace w' = app (trace w2) [EFetch (delete_request endpoint token')]).
Proof.
  intros endpoint.
  assert (Hloop : forall token fuel k last w res rest,
      net w = Responds res :: rest ->
      status res = 404%N ->
      delete_loop endpoint token (deleted_result tool id) (gone_result tool id)
                  (S fuel) k last w
      = (Ok (gone_result tool id), answered (delete_request endpoint token) rest w)).
  { intros token fuel k last w res rest Hnet Hs.
    apply (step_gone _ _ _ _ _ _ _ _ res); [exact Hnet | | now apply failure_404].
    unfold res_ok. rewrite Hs. reflexivity. }
  split; [exact Hloop|]. split; [|split; [|split]].
  - intros w token w1 res rest Hget Hnet Hs.
    rewrite (run_enters_loop _ _ _ _ _ _ Hget). now apply (Hloop _ _ _ _ _ res).
  - destruct tool; reflexivity.
  - destruct tool; reflexivity.
  - intros w token w1 r1 rest1 data token' w2 r2 rest Hget Hnet Hdata Hget' Hnet' Hs.
    exists (deleted_result tool id data). eexists.
    split; [|split; [apply deleted_ok_of | split]].
    + unfold bind at 1.
      rewrite (run_enters_loop _ _ _ _ _ _ Hget).
      fold endpoint.
      erewrite step_deleted; [ | exact Hnet | exact Hdata ].
      unfold bind at 1.
      rewrite (run_enters_loop _ _ _ _ _ _ Hget').
      fold endpoint.
      rewrite (Hloop _ _ _ _ _ r2 rest Hnet' Hs).
      reflexivity.
    + reflexivity.
    + reflexivity.
Qed.

(** C5. The tools recognise a 404 by the text "(404)" in the error
    message.  So a failed DELETE whose status is not 404 but whose body
    contains "(404)", or whose id contains "(404)" (the encoding keeps
    parentheses and digits), is answered with ok:true and
    already_gone:true after that one request: it is neither retried nor
    surfaced. *)
Theorem delete_404_by_text (tool : DeleteTool) (ctx : ToolCtx) (id : string)
    (w : World) (token : string) (w1 : World) (res : Response)
    (rest : list FetchOutcome) :
  getToken ctx w = (Ok token, w1) ->
  net w1 = Responds res :: rest ->
  res_ok res = false ->
  status res <> 404%N ->
  JsString.includes "(404)" (body_text res) = true
  \/ JsString.includes "(404)" id = true ->
  run tool ctx id w
  = (Ok (gone_result tool id),
     answered (delete_request (endpoint_of tool id) token) rest w1)
  /\ JsObject.get "ok" (details (gone_result tool id)) = Some (JBool true)
  /\ JsObject.get "already_gone" (details (gone_result tool id)) = Some (JBool true).
Proof.
  intros Hget Hnet Hok _ Htext.
  split; [|split; destruct tool; reflexivity].
  rewrite (run_enters_loop _ _ _ _ _ _ Hget).
  apply (step_gone _ _ _ _ _ _ _ _ res); [exact Hnet | exact Hok |].
  destruct Htext as [Hb | Hi].
  - now apply failure_404_body.
  - apply failure_404_endpoint.
    destruct tool; unfold endpoint_of; apply includes_app_r;
      now apply encodeURIComponent_keeps_404.
Qed.

End RetryPolicy.

(** ** The retry theorems at concrete worlds *)

Module RetryWitness.
Import Examples Tools.

Definition keyed_world (answers : list FetchOutcome) : World :=
  world (Some "key") TokenWitness.dead answers NoRequest.

Definition r500 : Response := mkResponse 500 (Some "text/plain") "Server Error".
Definition r429 : Response := mkResponse 429 (Some "text/plain") "Rate limited".
Definition r400 : Response := mkResponse 400 (Some "text/plain") "Bad Request".
Definition r404 : Response := mkResponse 404 (Some "text/plain") "Not Found".
Definition r200 : Response := mkResponse 200 (Some "application/json") destroyed_body.
Definition r204 : Response := mkResponse 204 None EmptyString.
Definition r500_saying_404 : Response :=
  mkResponse 500 (Some "text/plain") "upstream answered (404)".

Lemma token_ready answers :
  getToken ctx (keyed_world answers) = (Ok "key", keyed_world answers).
Proof. reflexivity. Defined.

Lemma r500_transient : transient (status r500).
Proof. left. vm_compute. split; discriminate. Defined.

Lemma r400_client_error : (400 <= status r400 <= 499)%N.
Proof. vm_compute. split; discriminate. Defined.

Lemma delete_retry_policy_witness :
  (fst (run DestroySession ctx "s1"
          (keyed_world [Responds r500; Responds r500; Responds r500; Responds r200]))
   = Throw "API DELETE /v1/sessions/s1 failed (500): Server Error"
   /\ net (snd (run DestroySession ctx "s1"
          (keyed_world [Responds r500; Responds r500; Responds r500; Responds r200])))
      = [Responds r200])
  /\ fst (run DeleteFile ctx "f1" (keyed_world [Responds r500; Responds r500; Responds r200]))
     = Ok (deleted_result DeleteFile "f1" (JObj [("status", JStr "destroyed")]))
  /\ fst (run DeleteFile ctx "job(2)" (keyed_world [Responds r400; Responds r200]))
     = Throw "API DELETE /v1/files/job(2) failed (400): Bad Request".
Proof.
  split; [|split].
  - destruct (delete_retry_policy DestroySession ctx "s1" _ _ _
                (token_ready [Responds r500; Responds r500; Responds r500; Responds r200])
                eq_refl) as (H & _ & _).
    destruct (H r500 r500 r500 [Responds r200] eq_refl
                r500_transient r500_transient r500_transient
                eq_refl eq_refl eq_refl) as (w' & Hrun & Hnet & _).
    rewrite Hrun. split; [reflexivity | exact Hnet].
  - destruct (delete_retry_policy DeleteFile ctx "f1" _ _ _
                (token_ready [Responds r500; Responds r500; Responds r200])
                eq_refl) as (_ & H & _).
    destruct (H r500 r500 r200 [] (JObj [("status", JStr "destroyed")]) eq_refl
                r500_transient r500_transient eq_refl eq_refl eq_refl)
      as (w' & Hrun & _).
    rewrite Hrun. reflexivity.
  - destruct (delete_retry_policy DeleteFile ctx "job(2)" _ _ _
                (token_ready [Responds r400; Responds r200])
                eq_refl) as (_ & _ & H).
    assert (H404 : status r400 <> 404%N) by discriminate.
    assert (H429 : status r400 <> 429%N) by discriminate.
    destruct (H r400 [Responds r200] eq_refl r400_client_error H404 H429 eq_refl)
      as (w' & Hrun & _).
    rewrite Hrun. reflexivity.
Defined.

(** A 429 is a 4xx status other than 404, and it is retried: the second
    attempt goes out 500 ms later and the call succeeds. *)
Lemma delete_retries_429 :
  (400 <= status r429 <= 499)%N
  /\ status r429 <> 404%N
  /\ fst (run DestroySession ctx "s1" (keyed_world [Responds r429; Responds r200]))
     = Ok (mkToolResult (JSON_stringify (JObj [("status", JStr "destroyed")]))
             [("ok", JBool true); ("session_id", JStr "s1");
              ("status", JStr "destroyed")])
  /\ trace (snd (run DestroySession ctx "s1" (keyed_world [Responds r429; Responds r200])))
     = [EFetch (delete_request "/v1/sessions/s1" "key"); ESleep 500;
        EFetch (delete_request "/v1/sessions/s1" "key")].
Proof.
  split; [vm_compute; split; discriminate|].
  split; [discriminate|].
  split; vm_compute; reflexivity.
Qed.

Lemma delete_404_is_success_witness :
  run DestroySession ctx "gone" (keyed_world [Responds r404])
  = (Ok (gone_result DestroySession "gone"),
     answered (delete_request "/v1/sessions/gone" "key") [] (keyed_world [Responds r404]))
  /\ exists first w',
       bind (run DeleteFile ctx "f1")
            (fun a => bind (run DeleteFile ctx "f1") (fun b => ret (a, b)))
            (keyed_world [Responds r204; Responds r404])
       = (Ok (first, gone_result DeleteFile "f1"), w')
       /\ JsObject.get "ok" (details first) = Some (JBool true).
Proof.
  split.
  - destruct (delete_404_is_success DestroySession ctx "gone") as (_ & H & _).
    apply (H _ _ _ r404 [] (token_ready [Responds r404])); reflexivity.
  - destruct (delete_404_is_success DeleteFile ctx "f1") as (_ & _ & _ & _ & H).
    destruct (H (keyed_world [Responds r204; Responds r404]) "key"
                (keyed_world [Responds r204; Responds r404])
                r204 [Responds r404] (JObj []) "key"
                (answered (delete_request "/v1/files/f1" "key") [Responds r404]
                   (keyed_world [Responds r204; Responds r404]))
                r404 []
                (token_ready [Responds r204; Responds r404])
                eq_refl eq_refl eq_refl eq_refl eq_refl)
      as (first & w' & Hrun & Hok & _).
    exists first, w'. split; [exact Hrun | exact Hok].
Defined.

(** A server that answers the first DELETE with a 2xx whose JSON says
    "ok": false: the first of the two calls returns ok:false, the answer's
    own, and only the second returns ok:true. *)
Definition refusal_body : string :=
  "{" ++ dq ++ "ok" ++ dq ++ ":false}".

Definition refusal_runtime : Runtime := {|
  JSON_parse s :=
    if String.eqb s refusal_body then Some (JObj [("ok", JBool false)]) else None;
  JSON_parse_error s := EmptyString;
  JSON_stringify v := "null";
  res_json s := None;
  URL_searchParams base input := None;
  sha256_base64url s := EmptyString;
  path_join dir file := dir ++ "/" ++ file
|}.

Lemma delete_twice_first_not_ok :
  fst (bind (run (rt := refusal_runtime) DeleteFile ctx "f1")
         (fun a =>
            bind (run (rt := refusal_runtime) DeleteFile ctx "f1")
                 (fun b => ret (JsObject.get "ok" (details a),
                                JsObject.get "ok" (details b))))
         (keyed_world
            [Responds (mkResponse 200 (Some "application/json") refusal_body);
             Responds r404]))
  = Ok (Some (JBool false), Some (JBool true)).
Proof. vm_compute. reflexivity. Qed.

Lemma delete_404_by_text_witness :
  fst (run DestroySession ctx "s1" (keyed_world [Responds r500_saying_404; Responds r200]))
  = Ok (gone_result DestroySession "s1")
  /\ fst (run DeleteFile ctx "(404)" (keyed_world [Responds r500; Responds r200]))
     = Ok (gone_result DeleteFile "(404)").
Proof.
  split.
  - assert (Hs : status r500_saying_404 <> 404%N) by discriminate.
    destruct (delete_404_by_text DestroySession ctx "s1" _ _ _ r500_saying_404
                [Responds r200]
                (token_ready [Responds r500_saying_404; Responds r200])
                eq_refl eq_refl Hs (or_introl eq_refl))
      as (Hrun & _).
    rewrite Hrun. reflexivity.
  - assert (Hs : status r500 <> 404%N) by discriminate.
    destruct (delete_404_by_text DeleteFile ctx "(404)" _ _ _ r500
                [Responds r200]
                (token_ready [Responds r500; Responds r200])
                eq_refl eq_refl Hs (or_intror eq_refl))
      as (Hrun & _).
    rewrite Hrun. reflexivity.
Defined.

End RetryWitness.

(** ** The runs of tools.test.ts, replayed on the model *)

Module ReplayedTests.
Import Examples Tools RetryWitness.

Definition stored_world (c : Cred) (answers : list FetchOutcome) : World :=
  world (Some EmptyString) c answers NoRequest.

Definition attempts {A} (r : outcome A * World) : nat :=
  List.length (fetches (trace (snd r))).

(** "uses permanent API key from credential store" *)
Example uses_permanent_key :
  fst (getToken ctx (stored_world (cred_of None None None (Some "sk-permanent")) []))
  = Ok "sk-permanent".
Proof. vm_compute. reflexivity. Qed.

(** "uses access token when not expired" *)
Example uses_fresh_access :
  fst (getToken ctx
         (stored_world (cred_of (Some "at-1") None (Some 1700003600000%Z) None) []))
  = Ok "at-1".
Proof. vm_compute. reflexivity. Qed.

(** "refreshes token when access token is expired" *)
Example refreshes_expired :
  fst (getToken ctx
         (stored_world (cred_of (Some "old") (Some "rt-1") (Some 1699999999000%Z) None)
            [answer 200 "application/json" token_body]))
  = Ok "at-2"
  /\ List.length
       (writes (trace (snd (getToken ctx
         (stored_world (cred_of (Some "old") (Some "rt-1") (Some 1699999999000%Z) None)
            [answer 200 "application/json" token_body]))))) = 1%nat.
Proof. vm_compute. split; reflexivity. Qed.

(** "throws when no auth profile and no env key", "throws when agentDir is
    missing" *)
Example no_profile_no_agent_dir :
  fst (getToken (mkToolCtx None None) (stored_world TokenWitness.dead []))
  = Throw msg_no_profile
  /\ fst (getToken (mkToolCtx (config ctx) None) (stored_world TokenWitness.dead []))
     = Throw msg_no_agentDir.
Proof. vm_compute. split; reflexivity. Qed.

(** "retries on 500 errors with exponential backoff" *)
Example destroy_retries_500 :
  attempts (sandbox_destroy_session ctx "s1"
              (keyed_world [Responds r500; Responds r500; Responds r200])) = 3%nat
  /\ (exists r, fst (sandbox_destroy_session ctx "s1"
                       (keyed_world [Responds r500; Responds r500; Responds r200]))
                = Ok r
                /\ JsObject.get "ok" (details r) = Some (JBool true)).
Proof. split; [vm_compute; reflexivity|]. eexists. split; vm_compute; reflexivity. Qed.

(** "does not retry on 400 client error" *)
Example destroy_400_once :
  attempts (sandbox_destroy_session ctx "s1" (keyed_world [Responds r400; Responds r200]))
  = 1%nat.
Proof. vm_compute. reflexivity. Qed.

(** "throws after max retries exhausted" *)
Example destroy_502_exhausted :
  let bad := Responds (mkResponse 502 (Some "text/plain") "Bad Gateway") in
  attempts (sandbox_destroy_session ctx "s1" (keyed_world [bad; bad; bad; bad])) = 3%nat
  /\ fst (sandbox_destroy_session ctx "s1" (keyed_world [bad; bad; bad; bad]))
     = Throw "API DELETE /v1/sessions/s1 failed (502): Bad Gateway".
Proof. vm_compute. split; reflexivity. Qed.

(** "encodes session_id in URL" *)
Example destroy_encodes_id :
  fetches (trace (snd (sandbox_destroy_session ctx "a/b c" (keyed_world [Responds r204]))))
  = [delete_request "/v1/sessions/a%2Fb%20c" "key"].
Proof. vm_compute. reflexivity. Qed.

(** "correctly decodes binary base64 data" *)
Example upload_sends_decoded_bytes :
  fetches (trace (snd (sandbox_upload_file ctx "AAEC/w==" "binary.bin" None
                         (keyed_world [Responds r200]))))
  = [mkRequest "POST" "https://api.agentsandbox.co/v1/files"
       [("Authorization", "Bearer key")]
       (MultipartBody "binary.bin" [x00; x01; x02; xff])].
Proof. vm_compute. reflexivity. Qed.

(** "throws on base64 with invalid characters" *)
Example upload_rejects_bad_characters :
  sandbox_upload_file ctx "abc$def" "test.txt" None (keyed_world [Responds r200])
  = (Throw "Invalid base64 encoding in file_data", keyed_world [Responds r200]).
Proof. vm_compute. reflexivity. Qed.

End ReplayedTests.

(** * The HTTP request wrapper *)

Section RequestWrapper.
Context {rt : Runtime}.
Import Tools.

(** The request [apiRequest] sends. *)
Definition sent_request (method endpoint token : string) (body : option Json) : Request :=
  mkRequest method (BASE_URL ++ endpoint)
    (match body with
     | Some _ => [("Authorization", "Bearer " ++ token);
                  ("Content-Type", "application/json")]
     | None => [("Authorization", "Bearer " ++ token)]
     end)
    (match body with Some v => JsonBody v | None => NoBody end).

Lemma apiRequest_answer method endpoint token body w res rest :
  net w = Responds res :: rest ->
  apiRequest method endpoint token body w
  = (match classify method endpoint res with
     | inl msg => Throw msg
     | inr v => Ok v
     end,
     answered (sent_request method endpoint token body) rest w).
Proof.
  intros Hnet. unfold apiRequest, bind.
  replace (app [("Authorization", "Bearer " ++ token)]
               match body with
               | Some _ => [("Content-Type", "application/json")]
               | None => []
               end)
    with (req_headers (sent_request method endpoint token body))
    by (destruct body; reflexivity).
  change (mkRequest method (BASE_URL ++ endpoint)
            (req_headers (sent_request method endpoint token body))
            match body with Some v => JsonBody v | None => NoBody end)
    with (sent_request method endpoint token body).
  rewrite (fetch_responds _ _ _ _ Hnet).
  now destruct (classify method endpoint res).
Qed.

(** C7. What [apiRequest] makes of an answer: status 204 gives the empty
    object whatever the content type says; another 2xx answer whose
    content type contains application/json gives the parsed body, and the
    empty object when the body text is empty; any other 2xx answer gives
    the raw text; a status outside 2xx throws an error whose message
    carries the method, the path, the status and the raw text. *)
Theorem apiRequest_classifies (method endpoint token : string) (body : option Json)
    (w : World) (res : Response) (rest : list FetchOutcome) :
  net w = Responds res :: rest ->
  let w' := answered (sent_request method endpoint token body) rest w in
  let json := JsString.includes "application/json" (default EmptyString (content_type res)) in
  (status res = 204%N ->
     apiRequest method endpoint token body w = (Ok (JObj []), w'))
  /\ (res_ok res = true -> status res <> 204%N -> json = true ->
      body_text res = EmptyString ->
      apiRequest method endpoint token body w = (Ok (JObj []), w'))
  /\ (forall v, res_ok res = true -> status res <> 204%N -> json = true ->
      body_text res <> EmptyString ->
      JSON_parse (body_text res) = Some v ->
      apiRequest method endpoint token body w = (Ok v, w'))
  /\ (res_ok res = true -> status res <> 204%N -> json = false ->
      apiRequest method endpoint token body w = (Ok (JStr (body_text res)), w'))
  /\ (res_ok res = false ->
      apiRequest method endpoint token body w
      = (Throw ("API " ++ method ++ " " ++ endpoint ++ " failed ("
                ++ JsString.show (status res) ++ "): " ++ body_text res), w')).
Proof.
  intros Hnet w' json. rewrite (apiRequest_answer _ _ _ _ _ _ _ Hnet).
  fold w'. unfold classify. fold json.
  repeat split.
  - intros Hs. unfold res_ok. rewrite Hs. reflexivity.
  - intros Hok Hs Hj Hb. rewrite Hok. apply N.eqb_neq in Hs. rewrite Hs, Hj, Hb.
    reflexivity.
  - intros v Hok Hs Hj Hb Hv. rewrite Hok. apply N.eqb_neq in Hs. rewrite Hs, Hj.
    cbn [negb]. destruct (body_text res); [congruence|]. now rewrite Hv.
  - intros Hok Hs Hj. rewrite Hok. apply N.eqb_neq in Hs. rewrite Hs, Hj.
    reflexivity.
  - intros Hok. rewrite Hok. reflexivity.
Qed.

End RequestWrapper.

Module RequestWitness.
Import Examples Tools RetryWitness.

Lemma apiRequest_classifies_witness :
  fst (apiRequest "DELETE" "/v1/files/f1" "key" None
         (keyed_world [Responds (mkResponse 204 (Some "application/json") "ignored")]))
  = Ok (JObj [])
  /\ fst (apiRequest "POST" "/v1/sessions" "key" (Some (JObj []))
            (keyed_world [Responds (mkResponse 200 (Some "application/json") EmptyString)]))
     = Ok (JObj [])
  /\ fst (apiRequest "GET" "/v1/sessions/s1" "key" None (keyed_world [Responds r200]))
     = Ok (JObj [("status", JStr "destroyed")])
  /\ fst (apiRequest "GET" "/v1/files/f1" "key" None
            (keyed_world [Responds (mkResponse 200 (Some "text/plain") "hello")]))
     = Ok (JStr "hello")
  /\ fst (apiRequest "GET" "/v1/files/f1" "key" None (keyed_world [Responds r400]))
     = Throw "API GET /v1/files/f1 failed (400): Bad Request".
Proof.
  split; [|split; [|split; [|split]]].
  - destruct (apiRequest_classifies "DELETE" "/v1/files/f1" "key" None _ _ _
                (eq_refl : net (keyed_world [Responds (mkResponse 204 (Some "application/json") "ignored")]) = _))
      as (H & _).
    rewrite (H eq_refl). reflexivity.
  - destruct (apiRequest_classifies "POST" "/v1/sessions" "key" (Some (JObj [])) _ _ _
                (eq_refl : net (keyed_world [Responds (mkResponse 200 (Some "application/json") EmptyString)]) = _))
      as (_ & H & _).
    assert (Hs : (200 <> 204)%N) by discriminate.
    rewrite (H eq_refl Hs eq_refl eq_refl). reflexivity.
  - destruct (apiRequest_classifies "GET" "/v1/sessions/s1" "key" None _ _ _
                (eq_refl : net (keyed_world [Responds r200]) = _))
      as (_ & _ & H & _).
    assert (Hs : (200 <> 204)%N) by discriminate.
    assert (Hb : body_text r200 <> EmptyString) by discriminate.
    rewrite (H (JObj [("status", JStr "destroyed")]) eq_refl Hs eq_refl Hb eq_refl).
    reflexivity.
  - destruct (apiRequest_classifies "GET" "/v1/files/f1" "key" None _ _ _
                (eq_refl : net (keyed_world [Responds (mkResponse 200 (Some "text/plain") "hello")]) = _))
      as (_ & _ & _ & H & _).
    assert (Hs : (200 <> 204)%N) by discriminate.
    rewrite (H eq_refl Hs eq_refl). reflexivity.
  - destruct (apiRequest_classifies "GET" "/v1/files/f1" "key" None _ _ _
                (eq_refl : net (keyed_world [Responds r400]) = _))
      as (_ & _ & _ & _ & H).
    rewrite (H eq_refl). reflexivity.
Defined.

End RequestWitness.

(** * Upload payloads *)

Section UploadPayload.
Context {rt : Runtime}.
Import Base64.

Local Ltac Zify.zify_post_hook ::= Z.to_euclidean_division_equations.

Definition sextet_ok (n : N) : bool :=
  match unbase64 (sextet_char n) with
  | Some m => (m =? n)%N
  | None => false
  end
  && in_class (sextet_char n)
  && negb (Ascii.eqb (sextet_char n) "=").

Lemma sextet_ok_all : forallb sextet_ok (map N.of_nat (seq 0 64)) = true.
Proof. vm_compute. reflexivity. Qed.

Lemma sextet_char_spec n :
  (n < 64)%N ->
  unbase64 (sextet_char n) = Some n
  /\ in_class (sextet_char n) = true
  /\ Ascii.eqb (sextet_char n) "=" = false.
Proof.
  intros H. pose proof sextet_ok_all as Hall.
  rewrite forallb_forall in Hall.
  assert (Hn : sextet_ok n = true).
  { apply Hall. apply in_map_iff. exists (N.to_nat n). split; [lia|].
    apply in_seq. lia. }
  unfold sextet_ok in Hn.
  apply andb_true_iff in Hn as [Hn Hpad].
  apply andb_true_iff in Hn as [Hn Hclass].
  destruct (unbase64 (sextet_char n)) as [m|]; [|discriminate].
  apply N.eqb_eq in Hn. subst m.
  now rewrite negb_true_iff in Hpad.
Qed.

Lemma byte_bound (b : byte) : (Byte.to_N b < 256)%N.
Proof. destruct b; vm_compute; reflexivity. Qed.

Lemma to_byte_to_N (b : byte) : to_byte (Byte.to_N b) = b.
Proof.
  unfold to_byte. rewrite N.mod_small by apply byte_bound.
  now rewrite Byte.of_to_N.
Qed.

Lemma sextets_cons n s :
  (n < 64)%N -> sextets (String (sextet_char n) s) = n :: sextets s.
Proof.
  intros H. destruct (sextet_char_spec n H) as (Hu & _ & Hp).
  cbn [sextets]. now rewrite Hp, Hu.
Qed.

Lemma regex_cons n s :
  (n < 64)%N ->
  base64Regex_test (String (sextet_char n) s) = base64Regex_test s.
Proof.
  intros H. destruct (sextet_char_spec n H) as (_ & Hc & _).
  unfold base64Regex_test. cbn [skip_class]. now rewrite Hc.
Qed.

(** Induction three bytes at a time. *)
Lemma list_ind3 {A} (P : list A -> Prop) :
  P [] ->
  (forall a, P [a]) ->
  (forall a b, P [a; b]) ->
  (forall a b c rest, P rest -> P (a :: b :: c :: rest)) ->
  forall l, P l.
Proof.
  intros H0 H1 H2 H3 l.
  enough (P l /\ (forall a, P (a :: l)) /\ (forall a b, P (a :: b :: l))) by tauto.
  induction l as [|x l (IH0 & IH1 & IH2)]; [now repeat split|].
  split; [apply IH1|]. split; [intros a; apply IH2|].
  intros a b. now apply H3.
Qed.

(** Each decoded byte is the byte the sextets were cut from. *)
Ltac bytes_eq :=
  repeat match goal with
         | |- _ :: _ = _ :: _ =>
             apply (f_equal2 cons);
             [etransitivity; [|apply to_byte_to_N]; apply f_equal; lia|]
         end;
  try reflexivity.

Lemma decode_encode (bs : list byte) : decode (encode bs) = bs.
Proof.
  unfold decode. induction bs as [|a|a b|a b c rest IH] using list_ind3.
  - reflexivity.
  - pose proof (byte_bound a). cbn [encode].
    rewrite !sextets_cons by lia. cbn. bytes_eq.
  - pose proof (byte_bound a). pose proof (byte_bound b). cbn [encode].
    rewrite !sextets_cons by lia. cbn. bytes_eq.
  - pose proof (byte_bound a). pose proof (byte_bound b).
    pose proof (byte_bound c). cbn [encode].
    rewrite !sextets_cons by lia. cbn [decode_sextets]. rewrite IH.
    bytes_eq.
Qed.

Lemma encode_accepted (bs : list byte) : base64Regex_test (encode bs) = true.
Proof.
  induction bs as [|a|a b|a b c rest IH] using list_ind3.
  - reflexivity.
  - pose proof (byte_bound a). cbn [encode].
    rewrite !regex_cons by lia. reflexivity.
  - pose proof (byte_bound a). pose proof (byte_bound b). cbn [encode].
    rewrite !regex_cons by lia. reflexivity.
  - pose proof (byte_bound a). pose proof (byte_bound b).
    pose proof (byte_bound c). cbn [encode].
    rewrite !regex_cons by lia. exact IH.
Qed.


(** C10, as the code has it.  The base64 text of any byte sequence passes
    the upload validation, decodes to those bytes, and is reproduced by
    re-encoding them; [0x00,0x01,0x02,0xFF] is "AAEC/w==" both ways; a
    [file_data] the expression rejects makes [apiUploadFile] throw the
    invalid-base64 error with the world untouched, so before any request;
    an accepted encoding is sent as the bytes it encodes. *)
Theorem upload_round_trip :
  (forall bs : list byte,
      base64Regex_test (encode bs) = true
      /\ decode (encode bs) = bs
      /\ encode (decode (encode bs)) = encode bs)
  /\ encode [x00; x01; x02; xff] = "AAEC/w=="
  /\ decode "AAEC/w==" = [x00; x01; x02; xff]
  /\ (forall endpoint token fileData filename w,
        base64Regex_test fileData = false ->
        Tools.apiUploadFile endpoint token fileData filename w
        = (Throw "Invalid base64 encoding in file_data", w))
  /\ (forall endpoint token bs filename w,
        trace (snd (Tools.apiUploadFile endpoint token (encode bs) filename w))
        = app (trace w)
              [EFetch (mkRequest "POST" (Tools.BASE_URL ++ endpoint)
                         [("Authorization", "Bearer " ++ token)]
                         (MultipartBody filename bs))]).
Proof.
  split; [|split; [|split; [|split]]].
  - intros bs. rewrite decode_encode. split; [apply encode_accepted|]. now split.
  - reflexivity.
  - reflexivity.
  - intros endpoint token fileData filename w H.
    unfold Tools.apiUploadFile. now rewrite H.
  - intros endpoint token bs filename w.
    unfold Tools.apiUploadFile. rewrite encode_accepted, decode_encode.
    cbn [negb]. unfold bind, fetch.
    destruct (net w) as [|[res|msg] rest]; cbn [snd trace log]; try reflexivity.
    destruct (Tools.classify "POST" endpoint res); reflexivity.
Qed.

End UploadPayload.

Module UploadWitness.
Import Examples Tools RetryWitness.

(** "QQ" passes the validation and decodes to the byte 0x41, whose
    encoding is "QQ==": decoding and re-encoding an accepted payload need
    not give it back. *)
Lemma upload_unpadded_payload :
  Base64.base64Regex_test "QQ" = true
  /\ Base64.decode "QQ" = [x41]
  /\ Base64.encode (Base64.decode "QQ") = "QQ=="
  /\ Base64.encode (Base64.decode "QQ") <> "QQ".
Proof. repeat split; try reflexivity. vm_compute. discriminate. Qed.

Lemma upload_round_trip_witness :
  apiUploadFile "/v1/files" "key" "abc$def" "test.txt" (keyed_world [Responds r200])
  = (Throw "Invalid base64 encoding in file_data", keyed_world [Responds r200])
  /\ Base64.decode (Base64.encode (list_byte_of_string "Hello, World!"))
     = list_byte_of_string "Hello, World!".
Proof.
  destruct upload_round_trip as (Hrt & _ & _ & Hrej & _).
  split.
  - apply Hrej. reflexivity.
  - apply Hrt.
Defined.

End UploadWitness.

(** * The OAuth flow *)

Section OAuthFlow.
Context {rt : Runtime}.
Import OAuth.

(** The verifier and the state the flow draws in world [w]. *)
Definition flow_verifier (w : World) : string :=
  Base64.encode_url (map (entropy w) (seq (drawn w) 32)).

Definition flow_state (w : World) : string :=
  Base64.hex (map (entropy w) (seq (drawn w + 32) 16)).

Definition flow_url (w : World) : string :=
  authorize_url (sha256_base64url (flow_verifier w)) (flow_state w).

Definition remote_message (w : World) : string :=
  "Open this URL and paste the redirect URL (or code):
" ++ flow_url w.

Definition fallback_message (w : World) : string :=
  "Local callback failed. Paste the redirect URL (or code):
" ++ flow_url w.

Definition callback_base : string :=
  "http://localhost:" ++ JsString.show CALLBACK_PORT.

(** The token-exchange POST. *)
Definition exchange_request (code verifier : string) : Request :=
  token_request
    [("grant_type", "authorization_code");
     ("code", code);
     ("redirect_uri", REDIRECT_URI);
     ("client_id", CLIENT_ID);
     ("code_verifier", verifier)].

Definition is_exchange (r : Request) : bool :=
  String.eqb (req_url r) (BASE_URL ++ "/oauth/token").

(** The world after the two draws of random bytes. *)
Definition drew (n : nat) (w : World) : World :=
  mkWorld (env_SANDBOX_API_KEY w) (now w) (disk w) (net w) (entropy w)
          (drawn w + n) (inbound w) (trace w).

Lemma randomBytes_eq n w :
  randomBytes n w = (Ok (map (entropy w) (seq (drawn w) n)), drew n w).
Proof. reflexivity. Qed.

Opaque Base64.encode_url Base64.hex JsString.URLSearchParams_toString.

(** Runs the two draws and names what they produce. *)
Ltac draw w :=
  unfold runOAuthFlow;
  unfold bind at 1; rewrite randomBytes_eq;
  unfold bind at 1; rewrite randomBytes_eq;
  cbv beta iota zeta;
  change (drawn (drew 32 w)) with (drawn w + 32);
  change (entropy (drew 32 w)) with (entropy w);
  change (Base64.encode_url (map (entropy w) (seq (drawn w) 32)))
    with (flow_verifier w);
  change (Base64.hex (map (entropy w) (seq (drawn w + 32) 16)))
    with (flow_state w);
  change (authorize_url (sha256_base64url (flow_verifier w)) (flow_state w))
    with (flow_url w);
  fold (remote_message w); fold (fallback_message w).

Lemma exchangeCode_ok c v w res rest data :
  net w = Responds res :: rest ->
  res_ok res = true ->
  res_json (body_text res) = Some data ->
  exchangeCode c v w
  = (Ok (mkFlowResult
           (mkTokens (access_token data) (refresh_token data)
                     (now w + expires_in data * 1000)%Z)
           (token_email data) (api_key data)),
     answered (exchange_request c v) rest w).
Proof.
  intros Hnet Hok Hjson. unfold exchangeCode, bind.
  fold (exchange_request c v).
  rewrite (fetch_responds _ _ _ _ Hnet), Hok. cbn [negb]. now rewrite Hjson.
Qed.

(** Remote mode: a pasted state that differs stops the flow before any
    request. *)
Lemma oauth_remote_state_mismatch opts w input s :
  isRemote opts = true ->
  prompt opts (remote_message w) = Ok input ->
  JsString.nonempty (state (parseCallbackInput input)) = Some s ->
  s <> flow_state w ->
  runOAuthFlow opts w
  = (Throw "OAuth state mismatch",
     log (EPrompt (remote_message w)) (drew 16 (drew 32 w))).
Proof.
  intros Hr Hp Hs Hne. draw w. rewrite Hr.
  unfold bind at 1, ask. unfold bind at 1, emit. rewrite Hp.
  unfold bind at 1, check_state. rewrite Hs.
  destruct (String.eqb_spec s (flow_state w)); [contradiction|].
  reflexivity.
Qed.

(** Remote mode: without a state the exchange is sent. *)
Lemma oauth_remote_no_state opts w input res rest data :
  isRemote opts = true ->
  prompt opts (remote_message w) = Ok input ->
  JsString.nonempty (state (parseCallbackInput input)) = None ->
  net w = Responds res :: rest ->
  res_ok res = true ->
  res_json (body_text res) = Some data ->
  runOAuthFlow opts w
  = (Ok (mkFlowResult
           (mkTokens (access_token data) (refresh_token data)
                     (now w + expires_in data * 1000)%Z)
           (token_email data) (api_key data)),
     answered (exchange_request (code (parseCallbackInput input)) (flow_verifier w))
              rest
              (log (EPrompt (remote_message w)) (drew 16 (drew 32 w)))).
Proof.
  intros Hr Hp Hs Hnet Hok Hjson. draw w. rewrite Hr.
  unfold bind at 1, ask. unfold bind at 1, emit. rewrite Hp.
  unfold bind at 1, check_state. rewrite Hs. unfold ret.
  erewrite exchangeCode_ok by eauto. reflexivity.
Qed.

Lemma listenForCallback_request url w requrl q c :
  inbound w = CallbackRequest requrl ->
  URL_searchParams (Some callback_base) requrl = Some q ->
  JsString.nonempty (searchParams_get "code" q) = Some c ->
  listenForCallback url w
  = (Ok (mkCallback c (searchParams_get "state" q)),
     log (EOpenUrl url) (log (EListen CALLBACK_PORT) w)).
Proof.
  intros Hin Hq Hc. unfold listenForCallback.
  unfold bind at 1, emit. unfold bind at 1.
  change (inbound (log (EListen CALLBACK_PORT) w)) with (inbound w).
  rewrite Hin. unfold bind at 1.
  fold callback_base. rewrite Hq, Hc. reflexivity.
Qed.

Lemma listenForCallback_no_code url w requrl q :
  inbound w = CallbackRequest requrl ->
  URL_searchParams (Some callback_base) requrl = Some q ->
  JsString.nonempty (searchParams_get "code" q) = None ->
  listenForCallback url w
  = (Throw "No code in callback",
     log (EOpenUrl url) (log (EListen CALLBACK_PORT) w)).
Proof.
  intros Hin Hq Hc. unfold listenForCallback.
  unfold bind at 1, emit. unfold bind at 1.
  change (inbound (log (EListen CALLBACK_PORT) w)) with (inbound w).
  rewrite Hin. unfold bind at 1.
  fold callback_base. rewrite Hq, Hc. reflexivity.
Qed.

(** Fallback prompt (the listener rejected): a pasted state that differs
    stops the flow before any request. *)
Lemma oauth_fallback_state_mismatch opts w requrl q input s :
  isRemote opts = false ->
  inbound w = CallbackRequest requrl ->
  URL_searchParams (Some callback_base) requrl = Some q ->
  JsString.nonempty (searchParams_get "code" q) = None ->
  prompt opts (fallback_message w) = Ok input ->
  JsString.nonempty (state (parseCallbackInput input)) = Some s ->
  s <> flow_state w ->
  runOAuthFlow opts w
  = (Throw "OAuth state mismatch",
     log (EPrompt (fallback_message w))
         (log (EOpenUrl (flow_url w))
              (log (EListen CALLBACK_PORT) (drew 16 (drew 32 w))))).
Proof.
  intros Hr Hin Hq Hc Hp Hs Hne. draw w. rewrite Hr.
  unfold bind at 1, try_. unfold bind at 1.
  erewrite listenForCallback_no_code by eauto.
  unfold bind at 1, ask. unfold bind at 1, emit. rewrite Hp.
  unfold bind at 1, check_state. rewrite Hs.
  destruct (String.eqb_spec s (flow_state w)); [contradiction|].
  reflexivity.
Qed.

(** C6 at the local listener.  The callback request carries a code and a
    state that differs from the generated one.  The mismatch error is
    raised inside the [try] block and caught by its [catch]: the flow
    goes on to the fallback prompt, and when the pasted input carries no
    state the token-exchange POST is sent and the flow returns tokens.
    The state-mismatch error never reaches the caller. *)
Theorem oauth_listener_mismatch_is_caught (opts : FlowOpts) (w : World)
    (requrl : string) (q : list (string * string)) (c s input : string)
    (res : Response) (rest : list FetchOutcome) (data : TokenJson) :
  isRemote opts = false ->
  inbound w = CallbackRequest requrl ->
  URL_searchParams (Some callback_base) requrl = Some q ->
  JsString.nonempty (searchParams_get "code" q) = Some c ->
  JsString.nonempty (searchParams_get "state" q) = Some s ->
  s <> flow_state w ->
  prompt opts (fallback_message w) = Ok input ->
  JsString.nonempty (state (parseCallbackInput input)) = None ->
  net w = Responds res :: rest ->
  res_ok res = true ->
  res_json (body_text res) = Some data ->
  exists w',
    runOAuthFlow opts w
    = (Ok (mkFlowResult
             (mkTokens (access_token data) (refresh_token data)
                       (now w + expires_in data * 1000)%Z)
             (token_email data) (api_key data)), w')
    /\ trace w'
       = app (trace w)
             [EListen CALLBACK_PORT; EOpenUrl (flow_url w);
              EPrompt (fallback_message w);
              EFetch (exchange_request (code (parseCallbackInput input))
                                       (flow_verifier w))]
    /\ is_exchange (exchange_request (code (parseCallbackInput input))
                                     (flow_verifier w)) = true.
Proof.
  intros Hr Hin Hq Hc Hst Hne Hp Hs Hnet Hok Hjson. eexists.
  split; [|split].
  - draw w. rewrite Hr.
    unfold bind at 1, try_. unfold bind at 1.
    erewrite listenForCallback_request by eauto.
    unfold bind at 1, check_state at 1. cbn [state]. rewrite Hst.
    destruct (String.eqb_spec s (flow_state w)); [contradiction|].
    unfold throw at 1.
    unfold bind at 1, ask. unfold bind at 1, emit. rewrite Hp.
    unfold bind at 1, check_state. rewrite Hs. unfold ret.
    erewrite exchangeCode_ok by eauto. reflexivity.
  - cbn [trace answered log drew]. rewrite <- !app_assoc. reflexivity.
  - reflexivity.
Qed.

(** Local listener: without a state the exchange is sent at once. *)
Lemma oauth_listener_no_state opts w requrl q c res rest data :
  isRemote opts = false ->
  inbound w = CallbackRequest requrl ->
  URL_searchParams (Some callback_base) requrl = Some q ->
  JsString.nonempty (searchParams_get "code" q) = Some c ->
  JsString.nonempty (searchParams_get "state" q) = None ->
  net w = Responds res :: rest ->
  res_ok res = true ->
  res_json (body_text res) = Some data ->
  fst (runOAuthFlow opts w)
  = Ok (mkFlowResult
          (mkTokens (access_token data) (refresh_token data)
                    (now w + expires_in data * 1000)%Z)
          (token_email data) (api_key data)).
Proof.
  intros Hr Hin Hq Hc Hst Hnet Hok Hjson.
  draw w. rewrite Hr.
  unfold bind at 1, try_. unfold bind at 1.
  erewrite listenForCallback_request by eauto.
  unfold bind at 1, check_state at 1. cbn [state]. rewrite Hst.
  unfold ret at 1. unfold bind at 1, ret at 1.
  erewrite exchangeCode_ok by eauto. reflexivity.
Qed.

Transparent Base64.encode_url Base64.hex JsString.URLSearchParams_toString.

End OAuthFlow.

Module OAuthWitness.
Import Examples OAuth.

(** A local flow: the listener is called back with a foreign state, the
    user then pastes a bare code. *)
Definition local_opts : FlowOpts :=
  mkFlowOpts false (fun _ => Ok "pasted-code").

Definition forged_world : World :=
  mkWorld None 1700000000000%Z ∅
          [answer 200 "application/json" token_body]
          (fun _ => x00) 0
          (CallbackRequest "/callback?code=abc&state=evil") [].

Lemma forged_state_differs : "evil" <> flow_state forged_world.
Proof. vm_compute. discriminate. Defined.

Lemma forged_query :
  URL_searchParams (Some callback_base) "/callback?code=abc&state=evil"
  = Some [("code", "abc"); ("state", "evil")].
Proof. vm_compute. reflexivity. Defined.

Lemma pasted_code_has_no_state :
  JsString.nonempty (state (parseCallbackInput "pasted-code")) = None.
Proof. vm_compute. reflexivity. Defined.

Lemma oauth_listener_mismatch_is_caught_witness :
  exists w',
    runOAuthFlow local_opts forged_world
    = (Ok (mkFlowResult (mkTokens "at-2" "rt-2" 1700003600000%Z) None None), w')
    /\ fetches (trace w') = [exchange_request "pasted-code" zero_verifier].
Proof.
  destruct (oauth_listener_mismatch_is_caught local_opts forged_world
              "/callback?code=abc&state=evil"
              [("code", "abc"); ("state", "evil")] "abc" "evil" "pasted-code"
              (mkResponse 200 (Some "application/json") token_body) []
              (mkTokenJson "at-2" "rt-2" 3600 None None)
              eq_refl eq_refl forged_query eq_refl eq_refl forged_state_differs
              eq_refl pasted_code_has_no_state eq_refl eq_refl eq_refl)
    as (w' & Hrun & Htr & _).
  exists w'. split; [exact Hrun|].
  rewrite Htr. vm_compute. reflexivity.
Defined.

End OAuthWitness.


(** * Output truncation *)

Section OutputTruncation.
Import Utf16 Output.


(** Induction over whole characters. *)
Lemma well_formed_ind (P : string -> Prop) :
  P EmptyString ->
  (forall a s, (N_of_ascii a < 128)%N -> well_formed s = true -> P s ->
               P (String a s)) ->
  (forall a b s, (192 <= N_of_ascii a < 224)%N -> continuation b = true ->
                 well_formed s = true -> P s -> P (String a (String b s))) ->
  (forall a b c s, (224 <= N_of_ascii a < 240)%N ->
                   continuation b = true -> continuation c = true ->
                   well_formed s = true -> P s ->
                   P (String a (String b (String c s)))) ->
  (forall a b c d s, (240 <= N_of_ascii a)%N ->
                     continuation b = true -> continuation c = true ->
                     continuation d = true ->
                     (65536 <= astral a b c d < 1114112)%N ->
                     well_formed s = true -> P s ->
                     P (String a (String b (String c (String d s))))) ->
  forall s, well_formed s = true -> P s.
Proof.
  intros H0 H1 H2 H3 H4 s.
  remember (String.length s) as n eqn:Hn. revert s Hn.
  induction n as [n IH] using lt_wf_ind. intros s Hn Hwf.
  destruct s as [|a s1]; [exact H0|].
  cbn [well_formed] in Hwf. cbv zeta in Hwf.
  destruct (N.ltb_spec (N_of_ascii a) 128).
  { apply H1; auto. apply (IH (String.length s1)); [subst n; cbn; lia | reflexivity | exact Hwf]. }
  destruct (N.ltb_spec (N_of_ascii a) 192); [discriminate|].
  destruct (N.ltb_spec (N_of_ascii a) 224).
  { destruct s1 as [|b s2]; [discriminate|].
    apply andb_true_iff in Hwf as [Hb Hwf].
    apply H2; auto. apply (IH (String.length s2)); [subst n; cbn; lia | reflexivity | exact Hwf]. }
  destruct (N.ltb_spec (N_of_ascii a) 240).
  { destruct s1 as [|b [|c s3]]; try discriminate.
    apply andb_true_iff in Hwf as [Hb Hwf]. apply andb_true_iff in Hb as [Hb Hc].
    apply H3; auto. apply (IH (String.length s3)); [subst n; cbn; lia | reflexivity | exact Hwf]. }
  destruct s1 as [|b [|c [|d s4]]]; try discriminate.
  apply andb_true_iff in Hwf as [Hb Hwf]. apply andb_true_iff in Hb as [Hb Hhi].
  apply andb_true_iff in Hb as [Hb Hlo]. apply andb_true_iff in Hb as [Hb Hd].
  apply andb_true_iff in Hb as [Hb Hc].
  apply N.leb_le in Hlo. apply N.ltb_lt in Hhi.
  apply H4; auto. apply (IH (String.length s4)); [subst n; cbn; lia | reflexivity | exact Hwf].
Qed.

Lemma units_ascii a : (N_of_ascii a < 128)%N -> units a = 1%N.
Proof. intros H. unfold units. now destruct (N.ltb_spec (N_of_ascii a) 128); [|lia]. Qed.

Lemma units_continuation b : continuation b = true -> units b = 0%N.
Proof.
  unfold continuation, units. intros H. apply andb_true_iff in H as [H1 H2].
  apply N.leb_le in H1. rewrite H2.
  now destruct (N.ltb_spec (N_of_ascii b) 128); [lia|].
Qed.

Lemma units_lead a : (192 <= N_of_ascii a < 240)%N -> units a = 1%N.
Proof.
  intros H. unfold units.
  destruct (N.ltb_spec (N_of_ascii a) 128); [lia|].
  destruct (N.ltb_spec (N_of_ascii a) 192); [lia|].
  destruct (N.ltb_spec (N_of_ascii a) 240); [reflexivity | lia].
Qed.

Lemma units_astral a : (240 <= N_of_ascii a)%N -> units a = 2%N.
Proof.
  intros H. unfold units.
  destruct (N.ltb_spec (N_of_ascii a) 128); [lia|].
  destruct (N.ltb_spec (N_of_ascii a) 192); [lia|].
  destruct (N.ltb_spec (N_of_ascii a) 240); [lia | reflexivity].
Qed.

Ltac lead_byte a :=
  repeat match goal with
         | |- context [(N_of_ascii a <? ?k)%N] =>
             destruct (N.ltb_spec (N_of_ascii a) k); try lia
         end.

(** [length] counts the code units. *)
Lemma js_length_units s :
  well_formed s = true -> js_length s = N.of_nat (List.length (code_units s)).
Proof.
  revert s. apply well_formed_ind.
  - reflexivity.
  - intros a s Ha _ IH. cbn [js_length code_units]. cbv zeta.
    rewrite (units_ascii _ Ha), IH. lead_byte a. cbn [List.length]. lia.
  - intros a b s Ha Hb _ IH. cbn [js_length code_units]. cbv zeta.
    rewrite (units_lead a) by lia. rewrite (units_continuation _ Hb), IH.
    lead_byte a. cbn [List.length]. lia.
  - intros a b c s Ha Hb Hc _ IH. cbn [js_length code_units]. cbv zeta.
    rewrite (units_lead a) by lia.
    rewrite (units_continuation _ Hb), (units_continuation _ Hc), IH.
    lead_byte a. cbn [List.length]. lia.
  - intros a b c d s Ha Hb Hc Hd _ _ IH. cbn [js_length code_units]. cbv zeta.
    rewrite (units_astral a) by lia.
    rewrite (units_continuation _ Hb), (units_continuation _ Hc),
      (units_continuation _ Hd), IH.
    lead_byte a. cbn [List.length]. lia.
Qed.

Lemma N_of_ascii_of_N (n : N) : (n < 256)%N -> N_of_ascii (ascii_of_N n) = n.
Proof. apply N_ascii_embedding. Qed.

Ltac zero_units :=
  repeat (rewrite ?N.sub_0_r;
          match goal with
          | |- context [(0 <=? ?x)%N] => destruct (N.leb_spec 0 x); [|lia]
          end).

(** The bytes of a high surrogate read back as that one unit. *)
Lemma code_units_surrogate (u : N) (t : string) :
  (55296 <= u < 56320)%N ->
  code_units (unit_bytes u ++ t) = u :: code_units t.
Proof.
  intros Hu. unfold unit_bytes.
  destruct (N.ltb_spec u 128); [lia|]. destruct (N.ltb_spec u 2048); [lia|].
  cbn [append code_units]. cbv zeta. unfold tail6.
  assert (Hq : (u / 4096 = 13)%N).
  { symmetry. apply N.div_unique with (r := (u - 13 * 4096)%N); lia. }
  assert (H1 : (u mod 64 < 64)%N) by (apply N.mod_lt; lia).
  assert (H2 : ((u / 64) mod 64 < 64)%N) by (apply N.mod_lt; lia).
  rewrite !N_of_ascii_of_N by lia. rewrite Hq.
  change (224 + 13 <? 128)%N with false. change (224 + 13 <? 192)%N with false.
  change (224 + 13 <? 224)%N with false. change (224 + 13 <? 240)%N with true.
  cbv iota. f_equal.
  pose proof (N.div_mod u 64 ltac:(lia)) as E1.
  pose proof (N.div_mod (u / 64) 64 ltac:(lia)) as E2.
  rewrite N.Div0.div_div in E2. change (64 * 64)%N with 4096%N in E2. rewrite Hq in E2.
  generalize dependent ((u / 64) mod 64)%N. intros m2 _ E2.
  generalize dependent (u mod 64)%N. intros m1 _ E1.
  generalize dependent (u / 64)%N. intros q E1 E2.
  lia.
Qed.

(** [slice(0, n)] keeps the first [n] code units, whatever follows it in
    a concatenation. *)
Lemma js_slice_units s :
  well_formed s = true ->
  forall n t,
    code_units (js_slice n s ++ t)
    = app (firstn (N.to_nat n) (code_units s)) (code_units t).
Proof.
  revert s.
  apply (well_formed_ind
           (fun s => forall n t,
              code_units (js_slice n s ++ t)
              = app (firstn (N.to_nat n) (code_units s)) (code_units t))).
  - intros n t. cbn [js_slice append code_units]. now rewrite firstn_nil.
  - intros a s Ha _ IH n t. cbn [js_slice code_units]. cbv zeta.
    rewrite (units_ascii _ Ha). lead_byte a.
    destruct (N.leb_spec 1 n) as [Hn|Hn].
    + cbn [append code_units]. cbv zeta. lead_byte a. rewrite IH.
      replace (N.to_nat n) with (S (N.to_nat (n - 1))) by lia. reflexivity.
    + assert (n = 0%N) as -> by lia. reflexivity.
  - intros a b s Ha Hb _ IH n t. cbn [js_slice code_units]. cbv zeta.
    rewrite (units_lead a) by lia. rewrite (units_continuation _ Hb).
    lead_byte a.
    destruct (N.leb_spec 1 n) as [Hn|Hn].
    + zero_units.
      cbn [append code_units]. cbv zeta. lead_byte a. rewrite IH.
      replace (N.to_nat n) with (S (N.to_nat (n - 1))) by lia. reflexivity.
    + assert (n = 0%N) as -> by lia. reflexivity.
  - intros a b c s Ha Hb Hc _ IH n t. cbn [js_slice code_units]. cbv zeta.
    rewrite (units_lead a) by lia.
    rewrite (units_continuation _ Hb), (units_continuation _ Hc).
    lead_byte a.
    destruct (N.leb_spec 1 n) as [Hn|Hn].
    + zero_units.
      cbn [append code_units]. cbv zeta. lead_byte a. rewrite IH.
      replace (N.to_nat n) with (S (N.to_nat (n - 1))) by lia. reflexivity.
    + assert (n = 0%N) as -> by lia. reflexivity.
  - intros a b c d s Ha Hb Hc Hd Hcp _ IH n t. cbn [js_slice code_units]. cbv zeta.
    rewrite (units_astral a) by lia.
    rewrite (units_continuation _ Hb), (units_continuation _ Hc),
      (units_continuation _ Hd).
    lead_byte a.
    destruct (N.leb_spec 2 n) as [Hn|Hn].
    + zero_units.
      cbn [append code_units]. cbv zeta. lead_byte a. rewrite IH.
      replace (N.to_nat n) with (S (S (N.to_nat (n - 2)))) by lia. reflexivity.
    + destruct (N.eqb_spec n 0) as [->|Hn0]; [reflexivity|].
      assert (n = 1%N) as -> by lia.
      rewrite code_units_surrogate; [reflexivity|].
      unfold high_surrogate.
      assert (((astral a b c d - 65536) / 1024 < 1024)%N).
      { apply N.Div0.div_lt_upper_bound. lia. }
      generalize dependent ((astral a b c d - 65536) / 1024)%N. intros q Hq. lia.
Qed.

Lemma starts_with_self_app p t : JsString.starts_with p (p ++ t) = true.
Proof.
  induction p as [|c p IH]; [reflexivity|].
  cbn [append JsString.starts_with]. now rewrite Ascii.eqb_refl, IH.
Qed.

(** X1. [truncate] keeps exactly the first 50,000 UTF-16 code units of a
    text that is longer, a surrogate pair cut in two included, and puts
    the note after them; a text of at most 50,000 units comes back as it
    is.  The length it tests is the number of code units. *)
Theorem truncate_cuts_only (text : string) :
  well_formed text = true ->
  js_length text = N.of_nat (List.length (code_units text))
  /\ ((js_length text <= MAX_OUTPUT_CHARS)%N -> truncate text = text)
  /\ ((MAX_OUTPUT_CHARS < js_length text)%N ->
      code_units (truncate text)
      = app (firstn (N.to_nat MAX_OUTPUT_CHARS) (code_units text))
            (code_units (nl ++ nl ++ "... [truncated — "
                         ++ JsString.show (js_length text) ++ " chars total]"))
      /\ N.of_nat (List.length (firstn (N.to_nat MAX_OUTPUT_CHARS) (code_units text)))
         = MAX_OUTPUT_CHARS).
Proof.
  intros Hwf. pose proof (js_length_units text Hwf) as Hlen.
  split; [exact Hlen|]. split.
  - intros H. unfold truncate.
    destruct (N.leb_spec (js_length text) MAX_OUTPUT_CHARS); [reflexivity | lia].
  - intros H. split.
    + unfold truncate.
      destruct (N.leb_spec (js_length text) MAX_OUTPUT_CHARS); [lia|].
      apply (js_slice_units text Hwf).
    + rewrite length_firstn. lia.
Qed.

End OutputTruncation.

(** * Token resolution: the other paths *)

Section TokenPaths.
Context {rt : Runtime}.
Import Tools.

Ltac step_in H :=
  let Henv := fresh "Henv" in
  let Hprof := fresh "Hprof" in
  let dir := fresh "dir" in
  let Hdir := fresh "Hdir" in
  let Hdisk := fresh "Hdisk" in
  let Hcred := fresh "Hcred" in
  destruct H as (Henv & Hprof & (dir & Hdir & ->) & Hdisk & Hcred);
  unfold getToken, bind, getenv_SANDBOX_API_KEY; rewrite Henv, Hprof, Hdir;
  unfold readStore; rewrite Hdisk; cbv beta iota; rewrite Hcred.

(** X2. With the override unset and no key, an access token whose expiry
    lies more than five minutes ahead is returned as it is: the credential
    file is read and nothing else happens, so no refresh is sent and
    nothing is written. *)
Theorem getToken_uses_fresh_access (ctx : ToolCtx) (w : World)
    (profileId authPath : string) (store : Store) (cred : Cred) (a : string) (e : Z) :
  reaches ctx w profileId authPath store cred ->
  JsString.nonempty (key cred) = None ->
  JsString.nonempty (access cred) = Some a ->
  expires cred = Some e ->
  (now w + 5 * 60 * 1000 < e)%Z ->
  e <> 0%Z ->
  getToken ctx w = (Ok a, log (EReadFile authPath) w)
  /\ fetches (trace (log (EReadFile authPath) w)) = fetches (trace w)
  /\ writes (trace (log (EReadFile authPath) w)) = writes (trace w)
  /\ net (log (EReadFile authPath) w) = net w
  /\ disk (log (EReadFile authPath) w) = disk w.
Proof.
  intros H Hk Ha He Hlt Hnz. split.
  - step_in H. rewrite Hk. unfold Date_now, bind, ret. cbv beta iota.
    rewrite now_log. unfold usable_access, bufferMs. rewrite Ha, He.
    destruct (Z.eqb_spec e 0); [contradiction|].
    destruct (Z.ltb_spec (now w) (e - 5 * 60 * 1000)); [reflexivity | lia].
  - unfold fetches, writes, log. cbn [trace net disk].
    rewrite !omap_app. cbn. now rewrite !app_nil_r.
Qed.


(** X4. When the token endpoint refuses the refresh (any status outside
    2xx), [getToken] throws the refresh error carrying that status and the
    answer's text; the refresh was sent once, and the credential file is
    read but not written: the old tokens stay on disk. *)
Theorem getToken_refused_refresh_keeps_store (ctx : ToolCtx) (w : World)
    (profileId authPath : string) (store : Store) (cred : Cred)
    (r : string) (res : Response) (rest : list FetchOutcome) :
  reaches ctx w profileId authPath store cred ->
  JsString.nonempty (key cred) = None ->
  stale (now w) cred ->
  JsString.nonempty (refresh cred) = Some r ->
  net w = Responds res :: rest ->
  res_ok res = false ->
  exists w',
    getToken ctx w
    = (Throw ("Token refresh failed (" ++ JsString.show (status res) ++ "): "
              ++ body_text res), w')
    /\ trace w' = app (trace w) [EReadFile authPath; EFetch (refresh_request r)]
    /\ disk w' = disk w
    /\ disk w' !! authPath = Some (Parsed store)
    /\ net w' = rest.
Proof.
  intros H Hk Hstale Hr Hnet Hok.
  exists (answered (refresh_request r) rest (log (EReadFile authPath) w)).
  split; [|split; [|split; [|split]]].
  - now apply (getToken_refresh_refused ctx w profileId authPath store cred).
  - cbn [trace answered log]. rewrite <- app_assoc. reflexivity.
  - reflexivity.
  - cbn [disk answered log]. now destruct H as (_ & _ & _ & Hd & _).
  - reflexivity.
Qed.

(** A refresh is due: the override is unset, the record found under the
    profile id has no key, no usable access token and the refresh token
    [r]. *)
Definition refresh_due (ctx : ToolCtx) (w : World) (profileId authPath r : string)
    (store : Store) : Prop :=
  exists cred,
    reaches ctx w profileId authPath store cred
    /\ JsString.nonempty (key cred) = None
    /\ usable_access (now w) cred = None
    /\ JsString.nonempty (refresh cred) = Some r.

(** Two stores that differ at most in the record of one profile. *)
Definition same_but (profileId : string) (store store' : Store) : Prop :=
  store_other store' = store_other store
  /\ forall other, other <> profileId ->
       (profiles store' ≫= fun ps => ps !! other)
       = (profiles store ≫= fun ps => ps !! other).

(** X5. Whatever the context and the world are, what one call of
    [getToken] does is one of four sequences: nothing; one read of the
    credential file; the read, then the refresh request; the read, the
    refresh request, then one write of that same file.  The refresh is
    sent only when it is due: for a record without key and without
    usable access token, with its refresh token.  The store written
    differs from the one read at most in the record of that profile.
    Without the write the files are as they were, and the environment is
    never changed. *)
Theorem getToken_effects (ctx : ToolCtx) (w : World) :
  exists evs,
    trace (snd (getToken ctx w)) = app (trace w) evs
    /\ (evs = []
        \/ (exists p, evs = [EReadFile p])
        \/ (exists profileId p r store,
              refresh_due ctx w profileId p r store
              /\ (evs = [EReadFile p; EFetch (refresh_request r)]
                  \/ exists store',
                       evs = [EReadFile p; EFetch (refresh_request r);
                              EWriteFile p store']
                       /\ same_but profileId store store')))
    /\ (writes evs = [] -> disk (snd (getToken ctx w)) = disk w)
    /\ env_SANDBOX_API_KEY (snd (getToken ctx w)) = env_SANDBOX_API_KEY w.
Proof.
  assert (Hnone : exists evs,
            trace w = app (trace w) evs
            /\ (evs = []
                \/ (exists p, evs = [EReadFile p])
                \/ (exists profileId p r store,
                      refresh_due ctx w profileId p r store
                      /\ (evs = [EReadFile p; EFetch (refresh_request r)]
                          \/ exists store',
                               evs = [EReadFile p; EFetch (refresh_request r);
                                      EWriteFile p store']
                               /\ same_but profileId store store')))
            /\ (writes evs = [] -> disk w = disk w)
            /\ env_SANDBOX_API_KEY w = env_SANDBOX_API_KEY w).
  { exists []. rewrite app_nil_r. auto. }
  unfold getToken, bind, getenv_SANDBOX_API_KEY.
  destruct (JsString.nonempty (JsString.trim <$> env_SANDBOX_API_KEY w)) eqn:Henv;
    [exact Hnone|].
  destruct (JsString.nonempty (find_profile ctx)) as [profileId|] eqn:Hprof;
    [|exact Hnone].
  destruct (JsString.nonempty (agentDir ctx)) as [dir|] eqn:Hdir; [|exact Hnone].
  cbv zeta. set (p := path_join dir "auth-profiles.json").
  assert (Hread : forall o,
            exists evs,
              trace (snd (o : outcome string, log (EReadFile p) w)) = app (trace w) evs
              /\ (evs = []
                  \/ (exists p, evs = [EReadFile p])
                  \/ (exists profileId p r store,
                        refresh_due ctx w profileId p r store
                        /\ (evs = [EReadFile p; EFetch (refresh_request r)]
                            \/ exists store',
                                 evs = [EReadFile p; EFetch (refresh_request r);
                                        EWriteFile p store']
                                 /\ same_but profileId store store')))
              /\ (writes evs = [] ->
                  disk (snd (o : outcome string, log (EReadFile p) w)) = disk w)
              /\ env_SANDBOX_API_KEY (snd (o : outcome string, log (EReadFile p) w))
                 = env_SANDBOX_API_KEY w).
  { intros o. exists [EReadFile p]. cbn [snd trace log disk env_SANDBOX_API_KEY].
    eauto 8. }
  unfold readStore.
  destruct (disk w !! p) as [[store|message]|] eqn:Hdisk; cbv beta iota;
    try apply Hread.
  destruct (profiles store ≫= fun ps => ps !! profileId) as [cred|] eqn:Hcred;
    [|apply Hread].
  destruct (JsString.nonempty (key cred)) eqn:Hkey; [apply Hread|].
  unfold Date_now. cbv beta iota. rewrite now_log.
  destruct (usable_access (now w) cred) eqn:Huse; [apply Hread|].
  destruct (JsString.nonempty (refresh cred)) as [r|] eqn:Hr; [|apply Hread].
  assert (Hdue : refresh_due ctx w profileId p r store).
  { exists cred. repeat split; eauto. }
  unfold OAuth.refreshAccessToken, bind, fetch, Date_now, ret, throw, writeStore.
  fold (refresh_request r).
  destruct (net (log (EReadFile p) w)) as [|[res|msg] rest];
    cbn [fst snd trace log disk net env_SANDBOX_API_KEY now].
  1,3: exists [EReadFile p; EFetch (refresh_request r)];
       rewrite <- app_assoc; split; [reflexivity|];
       split; [right; right; exists profileId, p, r, store; auto|];
       split; reflexivity.
  destruct (res_ok res); cbn [negb fst snd trace log disk net env_SANDBOX_API_KEY now].
  2: exists [EReadFile p; EFetch (refresh_request r)];
     rewrite <- app_assoc; split; [reflexivity|];
     split; [right; right; exists profileId, p, r, store; auto|];
     split; reflexivity.
  destruct (res_json (body_text res)) as [data|];
    cbn [fst snd trace log disk net env_SANDBOX_API_KEY now].
  2: exists [EReadFile p; EFetch (refresh_request r)];
     rewrite <- app_assoc; split; [reflexivity|];
     split; [right; right; exists profileId, p, r, store; auto|];
     split; reflexivity.
  eexists [EReadFile p; EFetch (refresh_request r); EWriteFile p _].
  rewrite <- !app_assoc. split; [reflexivity|].
  split; [|split; [discriminate | reflexivity]].
  right; right. exists profileId, p, r, store. split; [exact Hdue|].
  right. eexists. split; [reflexivity|].
  unfold same_but, store_with. cbn [store_other profiles]. split; [reflexivity|].
  intros other Hne. destruct (profiles store) as [ps|]; [|reflexivity].
  cbn. now apply lookup_insert_ne.
Qed.

End TokenPaths.

(** * All tools: what a call sends *)

Section AllTools.
Context {rt : Runtime}.
Import Tools MoreTools.

Definition is_delete (call : ToolCall) : bool :=
  match call with
  | CallDestroySession _ | CallDeleteFile _ => true
  | _ => false
  end.

(** Method and path of the request a call makes. *)
Definition route (call : ToolCall) : string * string :=
  match call with
  | CallExecute _ _ _ _ _ => ("POST", "/v1/execute")
  | CallCreateSession _ _ => ("POST", "/v1/sessions")
  | CallListSessions => ("GET", "/v1/sessions")
  | CallDestroySession s => ("DELETE", "/v1/sessions/" ++ JsString.encodeURIComponent s)
  | CallInjectFiles s _ =>
      ("POST", "/v1/sessions/" ++ JsString.encodeURIComponent s ++ "/files")
  | CallDownloadFile f => ("GET", "/v1/files/" ++ JsString.encodeURIComponent f)
  | CallGetSession s => ("GET", "/v1/sessions/" ++ JsString.encodeURIComponent s)
  | CallListFiles l o => ("GET", list_files_endpoint l o)
  | CallUploadFile _ _ s =>
      ("POST",
       "/v1/files" ++ match JsString.nonempty s with
                      | Some sid => "?session_id=" ++ JsString.form_encode sid
                      | None => EmptyString
                      end)
  | CallDeleteFile f => ("DELETE", "/v1/files/" ++ JsString.encodeURIComponent f)
  | CallGetExecution e => ("GET", "/v1/executions/" ++ JsString.encodeURIComponent e)
  end.




(** X6. Every tool resolves the token before anything else: when
    [getToken] throws, the tool throws the same error in the world
    [getToken] left, so no request is ever sent without a token. *)
Theorem execute_needs_token (ctx : ToolCtx) (call : ToolCall) (w : World)
    (msg : string) (w1 : World) :
  getToken ctx w = (Throw msg, w1) ->
  execute ctx call w = (Throw msg, w1).
Proof.
  intros H.
  destruct call; unfold execute, sandbox_execute, sandbox_create_session,
    sandbox_list_sessions, sandbox_destroy_session, sandbox_inject_files,
    sandbox_download_file, sandbox_get_session, sandbox_list_files,
    sandbox_upload_file, sandbox_delete_file, sandbox_get_execution;
    unfold bind at 1; rewrite H; reflexivity.
Qed.

Lemma upload_endpoint (session_id : option string) :
  "/v1/files" ++ match match JsString.nonempty session_id with
                       | Some sid => JsString.URLSearchParams_toString [("session_id", sid)]
                       | None => EmptyString
                       end with
                 | EmptyString => EmptyString
                 | String _ _ =>
                     "?" ++ match JsString.nonempty session_id with
                            | Some sid =>
                                JsString.URLSearchParams_toString [("session_id", sid)]
                            | None => EmptyString
                            end
                 end
  = (route (CallUploadFile EmptyString EmptyString session_id)).2.
Proof.
  cbn [route snd]. destruct (JsString.nonempty session_id); reflexivity.
Qed.


End AllTools.

(** * The delete tools: how long they keep trying *)

Section DeleteBound.
Context {rt : Runtime}.
Import Tools.



(** At the last attempt a rejected [fetch] is thrown as it is. *)
Lemma step_network_fatal endpoint token deleted gone fuel last w msg rest :
  net w = NetworkError msg :: rest ->
  JsString.includes "(404)" msg = false ->
  delete_loop endpoint token deleted gone (S fuel) maxAttempts last w
  = (Throw msg, answered (delete_request endpoint token) rest w).
Proof.
  intros Hnet H404. cbn [delete_loop].
  unfold bind at 1, try_. unfold apiRequest, bind at 1. cbn [app].
  fold (delete_request endpoint token).
  rewrite (fetch_fails _ _ _ _ Hnet), H404.
  cbv zeta. rewrite N.eqb_refl, orb_true_r. reflexivity.
Qed.

(** X9. A [fetch] that is rejected (a network failure, with a message that
    shows no status) counts as transient: the delete tools retry it after
    500 ms and after 1000 ms, and when the third attempt is rejected as
    well they throw the message of that last rejection. *)
Theorem delete_retries_network_errors (tool : DeleteTool) (ctx : ToolCtx)
    (id : string) (w : World) (token : string) (w1 : World)
    (m1 m2 m3 : string) (rest : list FetchOutcome) :
  getToken ctx w = (Ok token, w1) ->
  net w1 = NetworkError m1 :: NetworkError m2 :: NetworkError m3 :: rest ->
  status_match m1 = None -> JsString.includes "(404)" m1 = false ->
  status_match m2 = None -> JsString.includes "(404)" m2 = false ->
  JsString.includes "(404)" m3 = false ->
  let attempt := EFetch (delete_request (endpoint_of tool id) token) in
  fst (run tool ctx id w) = Throw m3
  /\ trace (snd (run tool ctx id w))
     = app (trace w1) [attempt; ESleep 500; attempt; ESleep 1000; attempt]
  /\ net (snd (run tool ctx id w)) = rest.
Proof.
  intros Hget Hnet S1 N1 S2 N2 N3 attempt.
  rewrite (run_enters_loop _ _ _ _ _ _ Hget).
  rewrite (step_network_retry _ _ _ _ _ _ _ _ _ _ Hnet N1 S1) by discriminate.
  rewrite (step_network_retry _ _ _ _ 1 _ _ _ m2 (NetworkError m3 :: rest))
    by (reflexivity || assumption || discriminate).
  rewrite (step_network_fatal _ _ _ _ 0 _ _ m3 rest) by (reflexivity || assumption).
  cbn [fst snd answered slept trace net]. rewrite <- !app_assoc. auto.
Qed.

End DeleteBound.

(** * The other tools: failures, results and query strings *)

Section ToolResults.
Context {rt : Runtime}.
Import Tools JsValue MoreTools.

(** The error the request helpers throw for an answer that is not 2xx,
    at the route of the call. *)
Definition api_failure (call : ToolCall) (res : Response) : string :=
  "API " ++ (route call).1 ++ " " ++ (route call).2 ++ " failed ("
  ++ JsString.show (status res) ++ "): " ++ body_text res.

Lemma classify_not_ok method endpoint res :
  res_ok res = false ->
  classify method endpoint res
  = inl ("API " ++ method ++ " " ++ endpoint ++ " failed ("
         ++ JsString.show (status res) ++ "): " ++ body_text res).
Proof. intros H. unfold classify. now rewrite H. Qed.

(** X10. Outside the two delete tools nothing is caught or retried: any
    answer that is not 2xx (404, 429 and 5xx alike) makes the tool throw
    the API error for its own method and path, status and body text,
    after that one request. *)
Theorem execute_surfaces_failure (ctx : ToolCtx) (call : ToolCall) (w : World)
    (token : string) (w1 : World) (res : Response) (rest : list FetchOutcome) :
  getToken ctx w = (Ok token, w1) ->
  is_delete call = false ->
  (forall d n s, call = CallUploadFile d n s -> Base64.base64Regex_test d = true) ->
  net w1 = Responds res :: rest ->
  res_ok res = false ->
  fst (execute ctx call w) = Throw (api_failure call res)
  /\ (exists req, trace (snd (execute ctx call w)) = app (trace w1) [EFetch req])
  /\ net (snd (execute ctx call w)) = rest.
Proof.
  intros Hget Hnd Hup Hnet Hok.
  assert (exists req, execute ctx call w
                      = (Throw (api_failure call res), answered req rest w1))
    as [req ->].
  { destruct call; try discriminate;
      unfold execute, sandbox_execute, sandbox_create_session,
        sandbox_list_sessions, sandbox_inject_files,
        sandbox_download_file, sandbox_get_session, sandbox_list_files,
        sandbox_upload_file, sandbox_get_execution;
      cbv zeta; rewrite ?upload_endpoint;
      unfold bind at 1; rewrite Hget;
      unfold apiRequest, apiUploadFile;
      rewrite ?(Hup _ _ _ eq_refl); cbn [negb];
      unfold bind at 1; unfold bind at 1;
      rewrite (fetch_responds _ _ _ _ Hnet);
      rewrite (classify_not_ok _ _ _ Hok);
      eexists; reflexivity. }
  cbn [fst snd answered trace net]. eauto.
Qed.









(** X13. [sandbox_execute] builds its details from the return code alone:
    whenever it returns, [ok] is true exactly when the answer's
    [return_code] is the number 0 (absent, [null] or a string "0" it is
    false), the language is the one asked for, and an [ok] or [language]
    property of the answer changes neither. *)
Theorem execute_reports_return_code (ctx : ToolCtx) (l : Language) (c : string)
    (s : option string) (e : option (list (string * string)))
    (f : option (list string)) (w : World) (token : string) (w1 : World)
    (res : Response) (rest : list FetchOutcome) (data : Json)
    (r : ToolResult) (w' : World) :
  getToken ctx w = (Ok token, w1) ->
  net w1 = Responds res :: rest ->
  classify "POST" "/v1/execute" res = inr data ->
  sandbox_execute ctx l c s e f w = (Ok r, w') ->
  JsObject.get "ok" (details r)
  = Some (JBool (is_zero (field "return_code" data)))
  /\ JsObject.get "language" (details r) = Some (JStr (language_name l))
  /\ JsObject.get "return_code" (details r) = field "return_code" data.
Proof.
  intros Hget Hnet Hdata Hrun. unfold sandbox_execute in Hrun.
  unfold bind at 1 in Hrun. rewrite Hget in Hrun.
  unfold apiRequest in Hrun. unfold bind at 1 in Hrun. unfold bind at 1 in Hrun.
  rewrite (fetch_responds _ _ _ _ Hnet), Hdata in Hrun.
  cbn [settle ret] in Hrun. unfold bind at 1 in Hrun.
  destruct (not_null "stdout" data _) as [[| |] ?]; try discriminate.
  unfold bind at 1 in Hrun.
  destruct (settle _ _) as [[| |] ?]; try discriminate.
  unfold ret in Hrun. injection Hrun as <- <-. cbn [details]. unfold literal.
  destruct (field "return_code" data), (field "session_id" data),
    (field "files" data); cbn [omap fst snd]; repeat split.
Qed.

End ToolResults.

(** * The OAuth flow: what it asks, sends and waits for *)

Section OAuthPaths.
Context {rt : Runtime}.
Import OAuth.

Opaque Base64.encode_url Base64.hex JsString.URLSearchParams_toString.

Ltac draw_flow w :=
  unfold runOAuthFlow;
  unfold bind at 1; rewrite randomBytes_eq;
  unfold bind at 1; rewrite randomBytes_eq;
  cbv beta iota zeta;
  change (drawn (drew 32 w)) with (drawn w + 32);
  change (entropy (drew 32 w)) with (entropy w);
  change (Base64.encode_url (map (entropy w) (seq (drawn w) 32)))
    with (flow_verifier w);
  change (Base64.hex (map (entropy w) (seq (drawn w + 32) 16)))
    with (flow_state w);
  change (authorize_url (sha256_base64url (flow_verifier w)) (flow_state w))
    with (flow_url w);
  fold (remote_message w); fold (fallback_message w).

Ltac crunch_flow :=
  repeat (match goal with
          | |- context [match ?x with _ => _ end] =>
              lazymatch x with
              | context [match _ with _ => _ end] => fail
              | _ => destruct x eqn:?
              end
          end; simplify_eq;
          cbn [fst snd trace disk net drawn now inbound entropy env_SANDBOX_API_KEY
               negb log drew]).

(** What the flow may do in world [w]: listen and open the browser in
    local mode only, prompt with the message of its mode, and post a code
    together with the verifier it drew. *)
Definition flow_event (opts : FlowOpts) (w : World) (e : Event) : Prop :=
  match e with
  | EListen p => isRemote opts = false /\ p = CALLBACK_PORT
  | EOpenUrl u => isRemote opts = false /\ u = flow_url w
  | EPrompt m =>
      m = if isRemote opts then remote_message w else fallback_message w
  | EFetch req => exists c, req = exchange_request c (flow_verifier w)
  | _ => False
  end.

(** X14. Whatever the options, the input and the network are, one run of
    [runOAuthFlow] draws 48 random bytes, touches no file, and does nothing
    but: listen and open the authorize URL (local mode only), prompt with
    the message of its mode, and send the token exchange.  The exchange is
    sent at most once, as the last thing the flow does, and always with
    the verifier whose challenge is in the authorize URL. *)
Theorem oauth_effects (opts : FlowOpts) (w : World) :
  exists evs,
    trace (snd (runOAuthFlow opts w)) = app (trace w) evs
    /\ Forall (flow_event opts w) evs
    /\ (List.length (fetches evs) <= 1)%nat
    /\ (forall req, In (EFetch req) evs -> last evs = Some (EFetch req))
    /\ drawn (snd (runOAuthFlow opts w)) = (drawn w + 32 + 16)%nat
    /\ disk (snd (runOAuthFlow opts w)) = disk w.
Proof.
  assert (exists W, runOAuthFlow opts w = W /\
            exists evs, trace (snd W) = app (trace w) evs
              /\ Forall (flow_event opts w) evs
              /\ (List.length (fetches evs) <= 1)%nat
              /\ (forall req, In (EFetch req) evs -> last evs = Some (EFetch req))
              /\ drawn (snd W) = (drawn w + 32 + 16)%nat
              /\ disk (snd W) = disk w) as (W & -> & H); [|exact H].
  eexists. split.
  { draw_flow w. reflexivity. }
  unfold listenForCallback, ask, check_state, exchangeCode, try_, bind,
    emit, fetch, ret, throw, pending, Date_now.
  fold (exchange_request (code (parseCallbackInput EmptyString)) (flow_verifier w)).
  crunch_flow.
  all: eexists; split;
    [ first [ symmetry; apply app_nil_r | rewrite <- ?app_assoc; reflexivity ] | ].
  all: cbn [app fetches omap List.length last].
  all: split; [repeat (apply Forall_cons; split); try apply Forall_nil;
               cbn [flow_event isRemote];
               repeat match goal with H : isRemote _ = _ |- _ => rewrite H end;
               try (split; reflexivity); try reflexivity;
               try (eexists; reflexivity) | ].
  all: split; [cbn; lia|].
  all: split; [intros req Hin; cbn [In] in Hin;
               repeat destruct Hin as [Hin|Hin]; try discriminate; try contradiction;
               now rewrite Hin | ].
  all: split; reflexivity.
Qed.

(** X15. The state comparison sees a state only when the pasted text is a
    URL that carries a code: it throws exactly when that URL also carries
    a non-empty state different from the expected one.  A bare code, or a
    URL without a code (taken whole as the code), always passes. *)
Theorem pasted_state_check (input expected : string) (w : World) :
  (fst (check_state (parseCallbackInput input) expected w)
   = Throw "OAuth state mismatch"
   <-> exists q c s,
         URL_searchParams None (JsString.trim input) = Some q
         /\ JsString.nonempty (searchParams_get "code" q) = Some c
         /\ JsString.nonempty (searchParams_get "state" q) = Some s
         /\ s <> expected)
  /\ (fst (check_state (parseCallbackInput input) expected w)
      <> Throw "OAuth state mismatch"
      -> check_state (parseCallbackInput input) expected w = (Ok tt, w))
  /\ (URL_searchParams None (JsString.trim input) = None ->
      parseCallbackInput input = mkCallback (JsString.trim input) None).
Proof.
  unfold check_state, parseCallbackInput. cbv zeta.
  destruct (URL_searchParams None (JsString.trim input)) as [q|] eqn:Hq.
  2: { cbn. split; [split; [discriminate | intros (? & ? & ? & ? & _); discriminate]
                   | split; reflexivity]. }
  destruct (JsString.nonempty (searchParams_get "code" q)) as [c|] eqn:Hc.
  2: { cbn. split; [split; [discriminate|]| split; [reflexivity | discriminate]].
       intros (q' & c & s & Hq' & Hc' & _). congruence. }
  cbn [state].
  destruct (JsString.nonempty (searchParams_get "state" q)) as [s|] eqn:Hs.
  2: { cbn. split; [split; [discriminate|]| split; [reflexivity | discriminate]].
       intros (q' & c' & s & Hq' & _ & Hs' & _). congruence. }
  destruct (String.eqb_spec s expected) as [->|Hne]; cbn.
  - split; [split; [discriminate|]| split; [reflexivity | discriminate]].
    intros (q' & c' & s' & Hq' & _ & Hs' & Hne). congruence.
  - split; [split; [eauto 8|]| split; [congruence | discriminate]].
    reflexivity.
Qed.

(** X16. Local mode has no timeout: while nobody calls back, the flow
    has opened the listener and the authorize URL and stays pending.  It
    does not fall back to the prompt and sends nothing. *)
Theorem oauth_local_waits (opts : FlowOpts) (w : World) :
  isRemote opts = false ->
  inbound w = NoRequest ->
  fst (runOAuthFlow opts w) = Pending
  /\ trace (snd (runOAuthFlow opts w))
     = app (trace w) [EListen CALLBACK_PORT; EOpenUrl (flow_url w)].
Proof.
  intros Hr Hin.
  assert (runOAuthFlow opts w
          = (Pending, log (EOpenUrl (flow_url w))
                        (log (EListen CALLBACK_PORT) (drew 16 (drew 32 w))))) as ->.
  { draw_flow w. rewrite Hr.
    unfold bind at 1, try_. unfold bind at 1, listenForCallback.
    unfold bind at 1, emit. unfold bind at 1.
    change (inbound (log (EListen CALLBACK_PORT) (drew 16 (drew 32 w))))
      with (inbound w).
    rewrite Hin. reflexivity. }
  split; [reflexivity|].
  cbn [snd trace log drew]. rewrite <- app_assoc. reflexivity.
Qed.

Lemma exchangeCode_refused c v w res rest :
  net w = Responds res :: rest ->
  res_ok res = false ->
  exchangeCode c v w
  = (Throw ("Token exchange failed (" ++ JsString.show (status res) ++ "): "
            ++ body_text res),
     answered (exchange_request c v) rest w).
Proof.
  intros Hnet Hok. unfold exchangeCode, bind. fold (exchange_request c v).
  now rewrite (fetch_responds _ _ _ _ Hnet), Hok.
Qed.

Lemma exchangeCode_trace c v w :
  trace (snd (exchangeCode c v w)) = app (trace w) [EFetch (exchange_request c v)].
Proof.
  unfold exchangeCode, bind, fetch, Date_now, ret, throw.
  fold (exchange_request c v).
  destruct (net w) as [|[res|msg] rest]; cbn [fst snd trace log]; try reflexivity.
  destruct (res_ok res); cbn [negb]; [|reflexivity].
  destruct (res_json (body_text res)); reflexivity.
Qed.

(** X17. Local mode, a callback with a code and a state that is absent or
    equal to the generated one: the code is exchanged at once with the
    verifier of this run, and nothing is asked.  The exchange is started
    inside the [try] block but not awaited there, so when the token
    endpoint refuses it the error reaches the caller: there is no
    fallback prompt. *)
Theorem oauth_listener_exchanges (opts : FlowOpts) (w : World)
    (requrl : string) (q : list (string * string)) (c : string) :
  isRemote opts = false ->
  inbound w = CallbackRequest requrl ->
  URL_searchParams (Some callback_base) requrl = Some q ->
  JsString.nonempty (searchParams_get "code" q) = Some c ->
  (JsString.nonempty (searchParams_get "state" q) = None
   \/ JsString.nonempty (searchParams_get "state" q) = Some (flow_state w)) ->
  trace (snd (runOAuthFlow opts w))
  = app (trace w)
        [EListen CALLBACK_PORT; EOpenUrl (flow_url w);
         EFetch (exchange_request c (flow_verifier w))]
  /\ (forall res rest,
        net w = Responds res :: rest ->
        res_ok res = false ->
        fst (runOAuthFlow opts w)
        = Throw ("Token exchange failed (" ++ JsString.show (status res) ++ "): "
                 ++ body_text res)).
Proof.
  intros Hr Hin Hq Hc Hst.
  assert (runOAuthFlow opts w
          = exchangeCode c (flow_verifier w)
              (log (EOpenUrl (flow_url w))
                 (log (EListen CALLBACK_PORT) (drew 16 (drew 32 w))))) as ->.
  { draw_flow w. rewrite Hr.
    unfold bind at 1, try_. unfold bind at 1.
    erewrite listenForCallback_request by eauto.
    unfold bind at 1, check_state at 1. cbn [state].
    destruct Hst as [-> | ->]; [|rewrite String.eqb_refl];
      unfold ret at 1; unfold bind at 1, ret at 1; reflexivity. }
  split.
  - rewrite exchangeCode_trace. cbn [trace log drew]. rewrite <- !app_assoc.
    reflexivity.
  - intros res rest Hnet Hok.
    erewrite exchangeCode_refused by (cbn [net log drew]; eauto). reflexivity.
Qed.

Transparent Base64.encode_url Base64.hex JsString.URLSearchParams_toString.

End OAuthPaths.

(** * index.ts: the auth provider *)

Section AuthProvider.
Context {rt : Runtime}.
Import Tools.

Lemma existing_key_settles config d1 d2 w :
  exists ek w',
    Plugin.existing_key config d1 d2 w = (Ok ek, w')
    /\ (w' = w \/ exists p, w' = log (EReadFile p) w).
Proof.
  unfold Plugin.existing_key.
  destruct (JsString.nonempty (find_profile _)) as [pid|]; [|unfold ret; eauto].
  destruct (JsString.nonempty (Plugin.nullish d1 d2)) as [dir|]; [|unfold ret; eauto].
  unfold bind, try_, readStore, ret.
  destruct (disk w !! _) as [[s|]|]; eauto 6.
Qed.

(** X18. Looking up the key of an earlier login never fails and never
    hangs: a missing or unreadable credential file, like a missing
    profile or directory, just gives no key.  It reads the file at most
    once and touches neither the files nor the network.  A key comes back
    only when the configured profile has a record with that key in the
    file of the agent directory ([OPENCLAW_AGENT_DIR] first). *)
Theorem existing_key_never_fails (config : option OpenClawConfig)
    (OPENCLAW_AGENT_DIR PI_CODING_AGENT_DIR : option string) (w : World) :
  exists ek,
    fst (Plugin.existing_key config OPENCLAW_AGENT_DIR PI_CODING_AGENT_DIR w) = Ok ek
    /\ (trace (snd (Plugin.existing_key config OPENCLAW_AGENT_DIR PI_CODING_AGENT_DIR w))
        = trace w
        \/ exists p,
             trace (snd (Plugin.existing_key config OPENCLAW_AGENT_DIR
                           PI_CODING_AGENT_DIR w))
             = app (trace w) [EReadFile p])
    /\ disk (snd (Plugin.existing_key config OPENCLAW_AGENT_DIR PI_CODING_AGENT_DIR w))
       = disk w
    /\ net (snd (Plugin.existing_key config OPENCLAW_AGENT_DIR PI_CODING_AGENT_DIR w))
       = net w
    /\ (forall k, ek = Some k ->
        exists pid dir store cred,
          JsString.nonempty (find_profile (mkToolCtx config None)) = Some pid
          /\ JsString.nonempty
               (Plugin.nullish OPENCLAW_AGENT_DIR PI_CODING_AGENT_DIR) = Some dir
          /\ disk w !! path_join dir "auth-profiles.json" = Some (Parsed store)
          /\ (profiles store ≫= fun ps => ps !! pid) = Some cred
          /\ key cred = Some k).
Proof.
  unfold Plugin.existing_key.
  destruct (JsString.nonempty (find_profile _)) as [pid|] eqn:Hp.
  2: { exists None. cbn. repeat split; auto. discriminate. }
  destruct (JsString.nonempty (Plugin.nullish _ _)) as [dir|] eqn:Hd.
  2: { exists None. cbn. repeat split; auto. discriminate. }
  unfold bind, try_, readStore, ret.
  destruct (disk w !! _) as [[s|]|] eqn:Hdisk; cbn [fst snd trace disk net log].
  2,3: exists None; repeat split; eauto; discriminate.
  eexists. split; [reflexivity|]. repeat split; eauto.
  intros k Hk.
  destruct (profiles s ≫= fun ps => ps !! pid) as [cred|] eqn:Hc; [|discriminate].
  exists pid, dir, s, cred. auto.
Qed.

Lemma create_key_settles tok w :
  exists created w',
    Plugin.create_key tok w = (Ok created, w')
    /\ (created = None \/ JsValue.truthy created = true)
    /\ trace w' = app (trace w) [EFetch (Plugin.api_key_request tok)]
    /\ disk w' = disk w.
Proof.
  unfold Plugin.create_key, bind, try_, fetch, ret, throw.
  assert (Hk : forall v : option Json,
            (if JsValue.truthy v then v else None) = None
            \/ JsValue.truthy (if JsValue.truthy v then v else None) = true).
  { intros v. destruct (JsValue.truthy v) eqn:E; auto. }
  destruct (net w) as [|[res|msg] rest]; cbn [fst snd].
  2: destruct (res_ok res).
  2: destruct (JSON_parse (body_text res)) as [created|].
  2: destruct created; cbv zeta.
  all: eexists _, _; split; [reflexivity|];
    split; [first [left; reflexivity | apply Hk]|]; split; reflexivity.
Qed.

(** The key the answer of the key endpoint gives: its [key_value], when
    the answer is 2xx and JSON and the value is truthy. *)
Definition created_key (res : Response) : option Json :=
  let key_value := JSON_parse (body_text res) ≫= JsValue.field "key_value" in
  if res_ok res && JsValue.truthy key_value then key_value else None.

Lemma create_key_answer tok w res rest :
  net w = Responds res :: rest ->
  fst (Plugin.create_key tok w) = Ok (created_key res).
Proof.
  intros Hnet. unfold Plugin.create_key, created_key, bind, try_, fetch, ret, throw.
  rewrite Hnet. cbn [fst snd].
  destruct (res_ok res); [|reflexivity].
  destruct (JSON_parse (body_text res)) as [created|]; [|reflexivity].
  destruct created; reflexivity.
Qed.

(** What [run] makes of a finished flow and a key. *)
Definition profile_of (result : OAuth.FlowResult) (k : option Json)
    : Plugin.AuthProfiles :=
  Plugin.mkAuthProfiles
    ("agentsandbox:" ++ default "default" (OAuth.result_email result))
    (Plugin.mkNewCredential "oauth" "agentsandbox"
       (OAuth.accessToken (OAuth.tokens result))
       (OAuth.refreshToken (OAuth.tokens result))
       (OAuth.expiresAt (OAuth.tokens result))
       (OAuth.result_email result) k).

(** X19. Once the OAuth flow has returned, [run] always returns a profile,
    named after the e-mail address (or "default"), with the new tokens.
    The key is the one the flow returned if it is not empty, else the one
    already stored; in both cases nothing more is sent.  Only without
    either does [run] post one request for a new key, with the new access
    token as bearer, and whatever comes of it the profile is returned:
    with the created key or with none, never with a falsy one.  An empty
    key from the flow hides a stored key. *)
Theorem run_key_precedence (config : option OpenClawConfig)
    (OPENCLAW_AGENT_DIR PI_CODING_AGENT_DIR : option string) (opts : OAuth.FlowOpts)
    (w : World) (ek : option string) (w0 : World)
    (result : OAuth.FlowResult) (w1 : World) :
  Plugin.existing_key config OPENCLAW_AGENT_DIR PI_CODING_AGENT_DIR w = (Ok ek, w0) ->
  OAuth.runOAuthFlow opts w0 = (Ok result, w1) ->
  exists k w2,
    Plugin.run config OPENCLAW_AGENT_DIR PI_CODING_AGENT_DIR opts w
    = (Ok (profile_of result k), w2)
    /\ (k = None \/ JsValue.truthy k = true)
    /\ match OAuth.apiKey result, ek with
       | Some (String a s), _ => k = Some (JStr (String a s)) /\ w2 = w1
       | None, Some (String a s) => k = Some (JStr (String a s)) /\ w2 = w1
       | _, _ =>
           trace w2
           = app (trace w1)
                 [EFetch (Plugin.api_key_request
                            (OAuth.accessToken (OAuth.tokens result)))]
           /\ disk w2 = disk w1
       end.
Proof.
  intros Hek Hflow. unfold Plugin.run.
  unfold bind at 1. rewrite Hek. unfold bind at 1. rewrite Hflow.
  destruct (create_key_settles (OAuth.accessToken (OAuth.tokens result)) w1)
    as (created & w2 & Hc & Hne & Ht & Hd).
  assert (Hcreated : forall k0 : option Json,
            JsValue.truthy k0 = false ->
            (if JsValue.truthy (Plugin.nullish created k0)
             then Plugin.nullish created k0 else None) = created).
  { intros k0 Hk0. destruct Hne as [-> | Hne].
    - cbn [Plugin.nullish]. now rewrite Hk0.
    - destruct created as [c|]; [|discriminate]. cbn [Plugin.nullish].
      now rewrite Hne. }
  destruct (OAuth.apiKey result) as [[|a s]|], ek as [[|b t]|];
    cbn [Plugin.nullish fmap option_fmap option_map JsValue.truthy].
  all: unfold bind, ret; rewrite ?Hc; cbn [fst snd].
  all: try (eexists _, _; split; [reflexivity|]; split; [right; reflexivity|];
            split; reflexivity).
  all: rewrite Hcreated by reflexivity.
  all: exists created, w2; split; [reflexivity|]; split; [exact Hne|];
    split; [exact Ht | exact Hd].
Qed.

(** X20. When neither the flow nor the store gives a key, the answer to
    the key request decides: a 2xx answer whose JSON carries a truthy
    [key_value] gives that value as the key, whatever it is (a string, a
    number, an object); any other answer (another status, no JSON,
    [null], no such property, a falsy one) gives a profile without key
    and no error. *)
Theorem run_creates_key (config : option OpenClawConfig)
    (OPENCLAW_AGENT_DIR PI_CODING_AGENT_DIR : option string) (opts : OAuth.FlowOpts)
    (w : World) (ek : option string) (w0 : World)
    (result : OAuth.FlowResult) (w1 : World)
    (res : Response) (rest : list FetchOutcome) :
  Plugin.existing_key config OPENCLAW_AGENT_DIR PI_CODING_AGENT_DIR w = (Ok ek, w0) ->
  OAuth.runOAuthFlow opts w0 = (Ok result, w1) ->
  JsString.nonempty (Plugin.nullish (OAuth.apiKey result) ek) = None ->
  net w1 = Responds res :: rest ->
  fst (Plugin.run config OPENCLAW_AGENT_DIR PI_CODING_AGENT_DIR opts w)
  = Ok (profile_of result
          (let key_value := JSON_parse (body_text res) ≫= JsValue.field "key_value" in
           if res_ok res && JsValue.truthy key_value then key_value else None)).
Proof.
  intros Hek Hflow Hnone Hnet. unfold Plugin.run.
  unfold bind at 1. rewrite Hek. unfold bind at 1. rewrite Hflow.
  assert (Hfalsy : JsValue.truthy
                     (JStr <$> Plugin.nullish (OAuth.apiKey result) ek) = false).
  { destruct (Plugin.nullish (OAuth.apiKey result) ek) as [[|c k]|];
      [reflexivity | discriminate | reflexivity]. }
  rewrite Hfalsy. unfold bind at 1. unfold bind at 1.
  pose proof (create_key_answer (OAuth.accessToken (OAuth.tokens result)) w1 res rest
                Hnet) as Hc.
  destruct (Plugin.create_key _ w1) as [o w2]. cbn [fst] in Hc. subst o.
  unfold ret. cbn [fst]. fold (created_key res).
  f_equal. unfold profile_of. f_equal. f_equal.
  assert (Hc : created_key res = None \/ JsValue.truthy (created_key res) = true).
  { unfold created_key. cbv zeta.
    destruct (res_ok res && JsValue.truthy _) eqn:E; [|now left].
    right. now apply andb_true_iff in E as [_ E]. }
  destruct Hc as [Hc | Hc].
  - rewrite Hc. cbn [Plugin.nullish]. now rewrite Hfalsy.
  - destruct (created_key res) as [c|]; [|discriminate]. cbn [Plugin.nullish].
    now rewrite Hc.
Qed.

(** X21. A flow that fails fails [run] with the same error, and a flow
    that waits keeps [run] waiting: no key is requested and no profile is
    returned without tokens. *)
Theorem run_needs_flow (config : option OpenClawConfig)
    (OPENCLAW_AGENT_DIR PI_CODING_AGENT_DIR : option string) (opts : OAuth.FlowOpts)
    (w : World) (ek : option string) (w0 w1 : World) :
  Plugin.existing_key config OPENCLAW_AGENT_DIR PI_CODING_AGENT_DIR w = (Ok ek, w0) ->
  (forall msg,
     OAuth.runOAuthFlow opts w0 = (Throw msg, w1) ->
     Plugin.run config OPENCLAW_AGENT_DIR PI_CODING_AGENT_DIR opts w = (Throw msg, w1))
  /\ (OAuth.runOAuthFlow opts w0 = (Pending, w1) ->
      Plugin.run config OPENCLAW_AGENT_DIR PI_CODING_AGENT_DIR opts w = (Pending, w1)).
Proof.
  intros Hek. split; [intros msg Hflow | intros Hflow]; unfold Plugin.run;
    unfold bind at 1; rewrite Hek; unfold bind at 1; now rewrite Hflow.
Qed.

(** X22. [refreshOAuth] posts the refresh exchange once whatever the
    credential holds: it does not check for a refresh token, and a
    credential without one sends the text "undefined".  It touches no
    file.  When the exchange answers with tokens, the credential comes
    back with [access], [refresh] and [expires] replaced and everything
    else (type, key, e-mail, provider) as it was. *)
Theorem refreshOAuth_posts_once (cred : Cred) (w : World) :
  trace (snd (Plugin.refreshOAuth cred w))
  = app (trace w) [EFetch (refresh_request (default "undefined" (refresh cred)))]
  /\ disk (snd (Plugin.refreshOAuth cred w)) = disk w
  /\ (forall res rest data,
        net w = Responds res :: rest ->
        res_ok res = true ->
        res_json (body_text res) = Some data ->
        fst (Plugin.refreshOAuth cred w)
        = Ok (mkCred (cred_type cred) (Some (access_token data))
                (Some (refresh_token data))
                (Some (now w + expires_in data * 1000)%Z)
                (key cred) (email cred) (provider cred))).
Proof.
  split; [|split].
  - unfold Plugin.refreshOAuth, OAuth.refreshAccessToken, bind, fetch, Date_now,
      ret, throw.
    fold (refresh_request (default "undefined" (refresh cred))).
    destruct (net w) as [|[res|msg] rest]; cbn [fst snd trace log]; try reflexivity.
    destruct (res_ok res); cbn [negb]; [|reflexivity].
    destruct (res_json (body_text res)); reflexivity.
  - unfold Plugin.refreshOAuth, OAuth.refreshAccessToken, bind, fetch, Date_now,
      ret, throw.
    destruct (net w) as [|[res|msg] rest]; cbn [fst snd disk log]; try reflexivity.
    destruct (res_ok res); cbn [negb]; [|reflexivity].
    destruct (res_json (body_text res)); reflexivity.
  - intros res rest data Hnet Hok Hjson. unfold Plugin.refreshOAuth.
    unfold bind at 1.
    rewrite (refreshAccessToken_ok _ _ _ _ _ Hnet Hok Hjson). reflexivity.
Qed.

(** X23. The host's [refreshOAuth] and the refresh inside [getToken] agree:
    from the same record, clock and answer, the record [getToken] writes
    under the profile id is the credential [refreshOAuth] returns, and
    the token [getToken] hands to the tool is its [access]. *)
Theorem refreshOAuth_matches_getToken (ctx : ToolCtx) (w : World)
    (profileId authPath : string) (store : Store) (cred : Cred)
    (r : string) (res : Response) (rest : list FetchOutcome) (data : TokenJson) :
  reaches ctx w profileId authPath store cred ->
  JsString.nonempty (key cred) = None ->
  stale (now w) cred ->
  JsString.nonempty (refresh cred) = Some r ->
  net w = Responds res :: rest ->
  res_ok res = true ->
  res_json (body_text res) = Some data ->
  exists cred' store' tok,
    fst (Plugin.refreshOAuth cred w) = Ok cred'
    /\ disk (snd (getToken ctx w)) !! authPath = Some (Parsed store')
    /\ (profiles store' ≫= fun ps => ps !! profileId) = Some cred'
    /\ fst (getToken ctx w) = Ok tok
    /\ access cred' = Some tok.
Proof.
  intros H Hk Hstale Hr Hnet Hok Hjson.
  assert (Hrefresh : refresh cred = Some r).
  { destruct (refresh cred) as [[|a s]|]; cbn in Hr; congruence. }
  assert (Hps : exists ps, profiles store = Some ps).
  { destruct H as (_ & _ & _ & _ & Hc).
    destruct (profiles store); [eauto | discriminate]. }
  destruct Hps as (ps & Hps).
  assert (Hget : getToken ctx w
                 = (Ok (access_token data),
                    snd (writeStore authPath
                           (store_with store profileId
                              (rotate cred
                                 (OAuth.mkTokens (access_token data) (refresh_token data)
                                    (now w + expires_in data * 1000)%Z)))
                           (answered (refresh_request r) rest
                              (log (EReadFile authPath) w))))).
  { destruct H as (Henv & Hprof & (dir & Hdir & ->) & Hdisk & Hcred).
    unfold getToken, bind, getenv_SANDBOX_API_KEY. rewrite Henv, Hprof, Hdir.
    unfold readStore. rewrite Hdisk. cbv beta iota. rewrite Hcred, Hk.
    unfold Date_now. cbv beta iota. rewrite now_log.
    rewrite (stale_unusable _ _ Hstale), Hr.
    erewrite refreshAccessToken_ok by (rewrite ?net_log; eauto).
    rewrite now_log. reflexivity. }
  rewrite Hget.
  eexists _, _, _. split; [|split; [|split; [|split]]].
  - unfold Plugin.refreshOAuth. unfold bind at 1. rewrite Hrefresh.
    cbn [default from_option id].
    rewrite (refreshAccessToken_ok _ _ _ _ _ Hnet Hok Hjson). reflexivity.
  - unfold writeStore. cbn [snd disk]. apply lookup_insert_eq.
  - unfold store_with. cbn [profiles]. rewrite Hps. cbn.
    rewrite lookup_insert_eq. reflexivity.
  - reflexivity.
  - reflexivity.
Qed.

End AuthProvider.

(** * Runs of the paths above *)

Module OutputWitness.
Import Utf16 Output.

(** 49,999 letters, then a character of two code units (U+1F600): the cut
    at 50,000 falls between its surrogates. *)
Definition long_text : string := N.iter 49999 (String "x") ("😀" ++ "tail").

Lemma long_text_well_formed : well_formed long_text = true.
Proof. vm_compute. reflexivity. Defined.

Lemma long_text_is_long : (MAX_OUTPUT_CHARS < js_length long_text)%N.
Proof. vm_compute. reflexivity. Defined.

Lemma truncate_cuts_only_witness :
  nth_error (code_units (truncate long_text)) (N.to_nat 49999) = Some 55357%N
  /\ nth_error (code_units (truncate long_text)) (N.to_nat 50000) = Some 10%N.
Proof.
  destruct (truncate_cuts_only long_text long_text_well_formed) as (_ & _ & H).
  destruct (H long_text_is_long) as (-> & _).
  vm_compute. split; reflexivity.
Defined.

(** The same text, run: 50,005 units in, 50,000 and the 37 of the note
    out. *)
Example truncate_cuts_pair :
  js_length long_text = 50005%N /\ js_length (truncate long_text) = 50037%N.
Proof. vm_compute. split; reflexivity. Qed.

End OutputWitness.

Module TokenPathsWitness.
Import Examples Tools TokenWitness.

Definition fresh : Cred :=
  cred_of (Some "at-1") (Some "rt-1") (Some 1700000400000%Z) None.

Lemma fresh_is_ahead :
  (now (world None fresh [] NoRequest) + 5 * 60 * 1000 < 1700000400000)%Z.
Proof. reflexivity. Defined.

Lemma fresh_expiry_set : 1700000400000%Z <> 0%Z.
Proof. discriminate. Defined.

Lemma getToken_uses_fresh_access_witness :
  getToken ctx (world None fresh [] NoRequest)
  = (Ok "at-1", log (EReadFile authPath) (world None fresh [] NoRequest)).
Proof.
  exact (proj1 (getToken_uses_fresh_access ctx (world None fresh [] NoRequest)
                  profileId authPath (store_of fresh) fresh "at-1" 1700000400000%Z
                  (reaches_example fresh [] NoRequest) eq_refl eq_refl eq_refl
                  fresh_is_ahead fresh_expiry_set)).
Defined.


Lemma expired_is_stale : stale 1700000000000%Z expired.
Proof.
  right; right. exists 1700000100000%Z. split; [reflexivity | vm_compute; discriminate].
Defined.

Definition refused : Response := mkResponse 401 (Some "text/plain") "invalid_grant".

Lemma getToken_refused_refresh_keeps_store_witness :
  fst (getToken ctx (world None expired [Responds refused] NoRequest))
  = Throw "Token refresh failed (401): invalid_grant"
  /\ disk (snd (getToken ctx (world None expired [Responds refused] NoRequest)))
       !! authPath
     = Some (Parsed (store_of expired)).
Proof.
  destruct (getToken_refused_refresh_keeps_store ctx
              (world None expired [Responds refused] NoRequest)
              profileId authPath (store_of expired) expired "rt-1" refused []
              (reaches_example expired [Responds refused] NoRequest)
              eq_refl expired_is_stale eq_refl eq_refl eq_refl)
    as (w' & Hrun & _ & _ & Hdisk & _).
  rewrite Hrun. split; [reflexivity | exact Hdisk].
Defined.

Lemma refreshOAuth_matches_getToken_witness :
  exists cred',
    fst (Plugin.refreshOAuth expired
           (world None expired [answer 200 "application/json" token_body] NoRequest))
    = Ok cred'
    /\ access cred' = Some "at-2"
    /\ fst (getToken ctx
              (world None expired [answer 200 "application/json" token_body] NoRequest))
       = Ok "at-2".
Proof.
  destruct (refreshOAuth_matches_getToken ctx
              (world None expired [answer 200 "application/json" token_body] NoRequest)
              profileId authPath (store_of expired) expired "rt-1"
              (mkResponse 200 (Some "application/json") token_body) []
              (mkTokenJson "at-2" "rt-2" 3600 None None)
              (reaches_example expired _ NoRequest)
              eq_refl expired_is_stale eq_refl eq_refl eq_refl eq_refl)
    as (cred' & store' & tok & Hr & _ & _ & Hg & Ha).
  exists cred'. split; [exact Hr|].
  assert (Htok : tok = "at-2").
  { assert (H : fst (getToken ctx
              (world None expired [answer 200 "application/json" token_body] NoRequest))
              = Ok "at-2") by (vm_compute; reflexivity).
    rewrite Hg in H. now injection H. }
  subst tok. split; [exact Ha | exact Hg].
Defined.

End TokenPathsWitness.

Module ToolsWitness.
Import Examples Tools MoreTools RetryWitness.

Definition bare_ctx : ToolCtx := mkToolCtx None None.

Lemma no_token :
  getToken bare_ctx (world None TokenWitness.dead [] NoRequest)
  = (Throw msg_no_profile, world None TokenWitness.dead [] NoRequest).
Proof. reflexivity. Defined.

Lemma execute_needs_token_witness :
  execute bare_ctx (CallExecute Python "print(1)" None None None)
          (world None TokenWitness.dead [] NoRequest)
  = (Throw msg_no_profile, world None TokenWitness.dead [] NoRequest).
Proof.
  exact (execute_needs_token bare_ctx (CallExecute Python "print(1)" None None None)
           _ _ _ no_token).
Defined.



Definition dropped : list FetchOutcome :=
  [NetworkError "ECONNRESET"; NetworkError "ECONNRESET"; NetworkError "socket hang up"].

Lemma delete_retries_network_errors_witness :
  fst (run DeleteFile ctx "f1" (keyed_world dropped)) = Throw "socket hang up"
  /\ net (snd (run DeleteFile ctx "f1" (keyed_world dropped))) = [].
Proof.
  destruct (delete_retries_network_errors DeleteFile ctx "f1" (keyed_world dropped)
              "key" (keyed_world dropped) "ECONNRESET" "ECONNRESET" "socket hang up" []
              (token_ready dropped) eq_refl eq_refl eq_refl eq_refl eq_refl eq_refl)
    as (Hrun & _ & Hnet).
  split; [exact Hrun | exact Hnet].
Defined.

Lemma get_session_is_no_upload (d n : string) (s : option string) :
  CallGetSession "s1" = CallUploadFile d n s -> Base64.base64Regex_test d = true.
Proof. discriminate. Defined.


Lemma execute_surfaces_failure_witness :
  fst (execute ctx (CallGetSession "s1") (keyed_world [Responds r404]))
  = Throw "API GET /v1/sessions/s1 failed (404): Not Found".
Proof.
  destruct (execute_surfaces_failure ctx (CallGetSession "s1")
              (keyed_world [Responds r404]) "key" (keyed_world [Responds r404])
              r404 [] (token_ready [Responds r404]) eq_refl
              get_session_is_no_upload eq_refl eq_refl)
    as (Hrun & _).
  rewrite Hrun. reflexivity.
Defined.



Definition ran : outcome ToolResult * World :=
  sandbox_execute ctx Python "print(1)" None None None (keyed_world [Responds r204]).

Definition ran_result : ToolResult :=
  match fst ran with
  | Ok r => r
  | _ => mkToolResult EmptyString []
  end.

Lemma ran_returns : ran = (Ok ran_result, snd ran).
Proof. vm_compute. reflexivity. Defined.

Lemma r204_answer : classify "POST" "/v1/execute" r204 = inr (JObj []).
Proof. vm_compute. reflexivity. Defined.

Lemma execute_reports_return_code_witness :
  JsObject.get "ok" (details ran_result) = Some (JBool false)
  /\ JsObject.get "language" (details ran_result) = Some (JStr "python").
Proof.
  destruct (execute_reports_return_code ctx Python "print(1)" None None None
              (keyed_world [Responds r204]) "key" (keyed_world [Responds r204])
              r204 [] (JObj []) ran_result (snd ran)
              (token_ready [Responds r204]) eq_refl r204_answer ran_returns)
    as (Hok & Hlang & _).
  split; [exact Hok | exact Hlang].
Defined.

End ToolsWitness.

Module FlowWitness.
Import Examples OAuth.

Definition key_body : string :=
  "{" ++ dq ++ "key_value" ++ dq ++ ":" ++ dq ++ "sk-new" ++ dq ++ "}".

Definition numeric_key_body : string :=
  "{" ++ dq ++ "key_value" ++ dq ++ ":123}".

(** A runtime whose callback URLs carry a code and no state, and which
    reads the answer of the key endpoint. *)
Definition code_runtime : Runtime := {|
  JSON_parse s :=
    if String.eqb s key_body then Some (JObj [("key_value", JStr "sk-new")])
    else if String.eqb s numeric_key_body
         then Some (JObj [("key_value", JNum 123)])
    else None;
  JSON_parse_error s := EmptyString;
  JSON_stringify v := "null";
  res_json s :=
    if String.eqb s token_body
    then Some (mkTokenJson "at-2" "rt-2" 3600 None None)
    else None;
  URL_searchParams base input :=
    match base with
    | None => None
    | Some b =>
        if String.eqb b "http://localhost:51199"
           && String.eqb input "/callback?code=abc"
        then Some [("code", "abc")] else None
    end;
  sha256_base64url s :=
    if String.eqb s zero_verifier
    then "DwBzhbb51LfusnSGBa_hqYSgo7-j8BTQnip4TOnlzRo" else EmptyString;
  path_join dir file := dir ++ "/" ++ file
|}.

Definition waiting_world : World :=
  mkWorld None 1700000000000%Z ∅ [] (fun _ => x00) 0 NoRequest [].

Lemma oauth_local_waits_witness :
  fst (runOAuthFlow OAuthWitness.local_opts waiting_world) = Pending.
Proof.
  exact (proj1 (oauth_local_waits OAuthWitness.local_opts waiting_world
                  eq_refl eq_refl)).
Defined.

Definition called_world : World :=
  mkWorld None 1700000000000%Z ∅
          [Responds (mkResponse 400 (Some "text/plain") "invalid_code")]
          (fun _ => x00) 0 (CallbackRequest "/callback?code=abc") [].

Lemma called_query :
  URL_searchParams (Runtime := code_runtime) (Some callback_base) "/callback?code=abc"
  = Some [("code", "abc")].
Proof. vm_compute. reflexivity. Defined.

Lemma oauth_listener_exchanges_witness :
  fst (runOAuthFlow (rt := code_runtime) OAuthWitness.local_opts called_world)
  = Throw "Token exchange failed (400): invalid_code".
Proof.
  destruct (oauth_listener_exchanges (rt := code_runtime) OAuthWitness.local_opts
              called_world "/callback?code=abc" [("code", "abc")] "abc"
              eq_refl eq_refl called_query eq_refl (or_introl eq_refl))
    as (_ & H).
  rewrite (H (mkResponse 400 (Some "text/plain") "invalid_code") [] eq_refl eq_refl).
  reflexivity.
Defined.

End FlowWitness.

Module ProviderWitness.
Import Examples OAuth FlowWitness.

Definition remote_opts : FlowOpts := mkFlowOpts true (fun _ => Ok "the-code").

Definition cancelled_opts : FlowOpts := mkFlowOpts true (fun _ => Throw "cancelled").

Definition agent_config : option Tools.OpenClawConfig := Tools.config ctx.

(** A second login: the stored record has a key, the flow returns none. *)
Definition again : World :=
  world None TokenWitness.keyed [answer 200 "application/json" token_body] NoRequest.

Definition signed_in : FlowResult :=
  mkFlowResult (mkTokens "at-2" "rt-2" 1700003600000%Z) None None.

Lemma again_key :
  Plugin.existing_key agent_config (Some "/home/agent") None again
  = (Ok (Some "sk-permanent"), log (EReadFile authPath) again).
Proof. vm_compute. reflexivity. Defined.

Lemma again_flow :
  runOAuthFlow remote_opts (log (EReadFile authPath) again)
  = (Ok signed_in, snd (runOAuthFlow remote_opts (log (EReadFile authPath) again))).
Proof. vm_compute. reflexivity. Defined.

Lemma run_key_precedence_witness :
  fst (Plugin.run agent_config (Some "/home/agent") None remote_opts again)
  = Ok (profile_of signed_in (Some (JStr "sk-permanent"))).
Proof.
  destruct (run_key_precedence agent_config (Some "/home/agent") None remote_opts
              again (Some "sk-permanent") (log (EReadFile authPath) again)
              signed_in
              (snd (runOAuthFlow remote_opts (log (EReadFile authPath) again)))
              again_key again_flow)
    as (k & w2 & Hrun & _ & Hk).
  unfold signed_in in Hk. cbn [apiKey] in Hk. destruct Hk as [-> _].
  rewrite Hrun. reflexivity.
Defined.

(** A first login: no stored key, and the key endpoint answers with one. *)
Definition first_login : World :=
  world None TokenWitness.dead
        [answer 200 "application/json" token_body;
         answer 201 "application/json" key_body] NoRequest.

Lemma first_key :
  Plugin.existing_key (rt := code_runtime) agent_config (Some "/home/agent") None
    first_login
  = (Ok None, log (EReadFile authPath) first_login).
Proof. vm_compute. reflexivity. Defined.

Lemma first_flow :
  runOAuthFlow (rt := code_runtime) remote_opts (log (EReadFile authPath) first_login)
  = (Ok signed_in,
     snd (runOAuthFlow (rt := code_runtime) remote_opts
            (log (EReadFile authPath) first_login))).
Proof. vm_compute. reflexivity. Defined.

Lemma first_answer :
  net (snd (runOAuthFlow (rt := code_runtime) remote_opts
              (log (EReadFile authPath) first_login)))
  = [answer 201 "application/json" key_body].
Proof. vm_compute. reflexivity. Defined.

Lemma run_creates_key_witness :
  fst (Plugin.run (rt := code_runtime) agent_config (Some "/home/agent") None
         remote_opts first_login)
  = Ok (profile_of signed_in (Some (JStr "sk-new"))).
Proof.
  rewrite (run_creates_key (rt := code_runtime) agent_config (Some "/home/agent") None
             remote_opts first_login None (log (EReadFile authPath) first_login)
             signed_in _ (mkResponse 201 (Some "application/json") key_body) []
             first_key first_flow eq_refl first_answer).
  reflexivity.
Defined.

Lemma cancelled_flow :
  runOAuthFlow cancelled_opts (log (EReadFile authPath) again)
  = (Throw "cancelled",
     snd (runOAuthFlow cancelled_opts (log (EReadFile authPath) again))).
Proof. vm_compute. reflexivity. Defined.

Lemma run_needs_flow_witness :
  fst (Plugin.run agent_config (Some "/home/agent") None cancelled_opts again)
  = Throw "cancelled".
Proof.
  destruct (run_needs_flow agent_config (Some "/home/agent") None cancelled_opts
              again (Some "sk-permanent") (log (EReadFile authPath) again)
              (snd (runOAuthFlow cancelled_opts (log (EReadFile authPath) again)))
              again_key)
    as (H & _).
  rewrite (H "cancelled" cancelled_flow). reflexivity.
Defined.

(** The key endpoint answers with a number: it is the key. *)
Example run_takes_numeric_key :
  fst (Plugin.run (rt := code_runtime) agent_config (Some "/home/agent") None
         remote_opts
         (world None TokenWitness.dead
            [answer 200 "application/json" token_body;
             answer 201 "application/json" numeric_key_body] NoRequest))
  = Ok (profile_of signed_in (Some (JNum 123))).
Proof. vm_compute. reflexivity. Qed.

End ProviderWitness.
